(** * virtualAust: placement validator and wireframe building generator

    A shallow embedding of
      - [src/components/MapSystem.tsx]  (checkBuildingCollision, MapSystem)
      - the wireframe [BuildingScene] effect (building creation part)
    and the properties of its specification.

    The model of the effect starts at "Building creation" and lists the
    line segments it adds to the scene; the camera, the renderer, the
    controls and the lights added before are outside it.

    Numbers.  The validator compares a rounded difference with a rounded
    half-sum, and at touching distances the rounding decides what is
    reported.  It is therefore embedded twice:
      - [MapSystem64] is the validator on binary64 numbers, with NaN, the
        infinities and the rounding of every operation, as the program
        computes; the overlap condition, the report of identical
        placements and the characterisation of the result are stated on
        it;
      - [MapSystem] is the validator in exact arithmetic.  It carries the
        properties that do not depend on how a difference or a sum is
        rounded: symmetry, the default sizes, the index logic and whole
        numbers on the grid.
    For the wireframe a JavaScript [number] that is finite is modelled by
    an exact rational ([Q]); rounding and the sign of zero are not
    modelled there.  The non-finite values (the infinities and NaN) are
    kept, in the type [JS.number], because the column pass divides by
    [count - 1].  All the other divisions of the wireframe have a non-zero
    literal as divisor, so on finite inputs their operands and results
    stay finite and they are written directly in [Q]. *)

From Stdlib Require Import QArith Qabs Qround ZArith List Bool Lia Lqa.
From Stdlib Require Import Permutation FinFun.
From Stdlib Require Floats.
Import ListNotations.

Local Open Scope Q_scope.

(* ================================================================== *)
(** ** JavaScript numbers *)

Module JS.

Inductive number : Type :=
| Fin (q : Q)
| PosInf
| NegInf
| NaN.

Definition Qltb (a b : Q) : bool := negb (Qle_bool b a).

Definition isFinite (a : number) : bool :=
  match a with Fin _ => true | _ => false end.

(** Value identity of two numbers (rationals up to [==]). *)
Definition same (a b : number) : Prop :=
  match a, b with
  | Fin p, Fin q => p == q
  | PosInf, PosInf | NegInf, NegInf | NaN, NaN => True
  | _, _ => False
  end.

Definition neg (a : number) : number :=
  match a with
  | Fin q => Fin (- q)
  | PosInf => NegInf
  | NegInf => PosInf
  | NaN => NaN
  end.

Definition add (a b : number) : number :=
  match a, b with
  | NaN, _ | _, NaN => NaN
  | Fin p, Fin q => Fin (p + q)
  | PosInf, NegInf | NegInf, PosInf => NaN
  | PosInf, _ | _, PosInf => PosInf
  | NegInf, _ | _, NegInf => NegInf
  end.

(** An infinity scaled by the sign of a finite factor. *)
Definition signed (q : Q) (inf : number) : number :=
  if Qeq_bool q 0 then NaN
  else if Qltb 0 q then inf else neg inf.

Definition mul (a b : number) : number :=
  match a, b with
  | NaN, _ | _, NaN => NaN
  | Fin p, Fin q => Fin (p * q)
  | Fin p, inf => signed p inf
  | inf, Fin q => signed q inf
  | PosInf, PosInf | NegInf, NegInf => PosInf
  | PosInf, NegInf | NegInf, PosInf => NegInf
  end.

(** [a / b].  A zero divisor is taken as +0. *)
Definition div (a b : number) : number :=
  match a, b with
  | NaN, _ | _, NaN => NaN
  | Fin p, Fin q =>
      if Qeq_bool q 0 then signed p PosInf else Fin (p / q)
  | Fin _, _ => Fin 0
  | inf, Fin q => if Qeq_bool q 0 then inf else signed q inf
  | _, _ => NaN
  end.

(** [v || d] on an optional number: [undefined], [0] and NaN are falsy;
    a field of a placement is a finite number or absent. *)
Definition orElse (v : option Q) (d : Q) : Q :=
  match v with
  | Some q => if Qeq_bool q 0 then d else q
  | None => d
  end.

(** The loop variable of [for (let j = 0; j < n; j++)] as a number. *)
Definition ofNat (j : nat) : Q := inject_Z (Z.of_nat j).

(** How often [for (let j = 0; j < n; j++)] runs its body. *)
Definition iterations (n : Q) : nat := Z.to_nat (Qceiling n).

Definition forLoop {A : Type} (n : Q) (body : nat -> list A) : list A :=
  flat_map body (seq 0 (iterations n)).

End JS.

Coercion JS.Fin : Q >-> JS.number.

(* ================================================================== *)
(** ** MapSystem.tsx, in exact arithmetic *)

Module MapSystem.

(** interface BuildingData, with finite numbers taken exactly. *)
Record BuildingData : Type := {
  x : Q;
  z : Q;
  width : option Q;
  depth : option Q
}.

(** The function with every difference, sum and quotient taken exactly;
    [MapSystem64.checkBuildingCollision] is the function as computed. *)
Definition checkBuildingCollision
    (building : BuildingData) (otherBuildings : list BuildingData) : bool :=
  let buildingWidth := JS.orElse (width building) 1 in
  let buildingDepth := JS.orElse (depth building) 1 in
  existsb (fun other =>
    let otherWidth := JS.orElse (width other) 1 in
    let otherDepth := JS.orElse (depth other) 1 in
    let xOverlap :=
      JS.Qltb (Qabs (x building - x other)) ((buildingWidth + otherWidth) / 2) in
    let zOverlap :=
      JS.Qltb (Qabs (z building - z other)) ((buildingDepth + otherDepth) / 2) in
    xOverlap && zOverlap) otherBuildings.

(** [buildings.slice(0, index).concat(buildings.slice(index + 1))] *)
Definition others (buildings : list BuildingData) (index : nat)
  : list BuildingData :=
  firstn index buildings ++ skipn (index + 1) buildings.

(** [Array.prototype.filter] with the (element, index) callback; [index]
    is the position of the head of [l] in the whole array. *)
Fixpoint filterFrom {A : Type} (f : A -> nat -> bool) (index : nat) (l : list A)
  : list A :=
  match l with
  | [] => []
  | a :: rest =>
      if f a index then a :: filterFrom f (S index) rest
      else filterFrom f (S index) rest
  end.

Definition isColliding (buildings : list BuildingData)
    (building : BuildingData) (index : nat) : bool :=
  checkBuildingCollision building (others buildings index).

Definition collidingBuildings (buildings : list BuildingData)
  : list BuildingData :=
  filterFrom (isColliding buildings) 0 buildings.

(** What the component hands to [onCollisionDetected], if it calls it. *)
Definition MapSystem (buildings : list BuildingData) (onCollisionDetected : bool)
  : option (list BuildingData) :=
  let colliding := collidingBuildings buildings in
  if (0 <? length colliding)%nat && onCollisionDetected
  then Some colliding else None.

(** The footprint sizes the comparison works with. *)
Definition usedWidth (b : BuildingData) : Q := JS.orElse (width b) 1.
Definition usedDepth (b : BuildingData) : Q := JS.orElse (depth b) 1.

(** The sizes as the specification words them: 1 when absent. *)
Definition specWidth (b : BuildingData) : Q :=
  match width b with Some w => w | None => 1 end.
Definition specDepth (b : BuildingData) : Q :=
  match depth b with Some d => d | None => 1 end.

(** The overlap condition of the specification on given sizes. *)
Definition overlapCondition (P O : BuildingData) (wP wO dP dO : Q) : Prop :=
  Qabs (x P - x O) < (wP + wO) / 2 /\ Qabs (z P - z O) < (dP + dO) / 2.

(** The object literal [{ x, z, width, depth }], width and depth optional. *)
Definition placement (x z : Q) (width depth : option Q) : BuildingData :=
  {| x := x; z := z; width := width; depth := depth |}.

(** The placement with 1 written where width or depth is absent. *)
Definition withDefaults (b : BuildingData) : BuildingData :=
  {| x := x b; z := z b;
     width := Some (specWidth b); depth := Some (specDepth b) |}.

(** const GRID_SIZE *)
Definition GRID_SIZE : Q := 64.

(** The placement stands on a cell of the unit grid and takes up at most
    that cell. *)
Definition onGridCell (b : BuildingData) : Prop :=
  (exists a : Z, x b == inject_Z a) /\ (exists c : Z, z b == inject_Z c)
  /\ usedWidth b <= 1 /\ usedDepth b <= 1.

(** App.tsx: const sampleBuildings *)
Definition sampleBuildings : list BuildingData :=
  [ placement 10 10 (Some 1) (Some 1);
    placement 20 20 (Some 1) (Some 1);
    placement 30 30 (Some 1) (Some 1) ].

End MapSystem.

(* ================================================================== *)
(** ** Double-precision numbers *)

Module Double.

Import Floats.

(** A finite double is a whole multiple of 2^-1074, the distance between
    the smallest doubles: the multiple, when there is one. *)
Definition scaled (f : spec_float) : option Z :=
  match f with
  | S754_zero _ => Some 0%Z
  | S754_finite s m e => Some (cond_Zopp s (Zpos m) * 2 ^ (e + 1074))%Z
  | S754_infinity _ | S754_nan => None
  end.

Definition scale : Z := (2 ^ 1074)%Z.

(** The number a double stands for; NaN and the infinities have none. *)
Definition value (f : float) : option Q :=
  match scaled (Prim2SF f) with
  | Some n => Some (inject_Z n / inject_Z scale)
  | None => None
  end.

(** The double [f] is exactly the rational [q]. *)
Definition represents (f : float) (q : Q) : Prop :=
  match value f with
  | Some v => v == q
  | None => False
  end.

(** The double is a finite number: not NaN, not an infinity. *)
Definition isFinite (f : float) : bool :=
  match scaled (Prim2SF f) with
  | Some _ => true
  | None => false
  end.

(** The numbers that [||] replaces: 0, -0 and NaN. *)
Definition falsy (v : float) : bool := (v =? 0)%float || is_nan v.

(** [v || d] on an optional number. *)
Definition orElse (v : option float) (d : float) : float :=
  match v with
  | Some w => if falsy w then d else w
  | None => d
  end.


End Double.

(* ================================================================== *)
(** ** MapSystem.tsx, in double precision *)

Module MapSystem64.

Import Floats.

(** interface BuildingData *)
Record BuildingData : Type := {
  x : float;
  z : float;
  width : option float;
  depth : option float
}.

Definition checkBuildingCollision
    (building : BuildingData) (otherBuildings : list BuildingData) : bool :=
  let buildingWidth := Double.orElse (width building) 1 in
  let buildingDepth := Double.orElse (depth building) 1 in
  existsb (fun other =>
    let otherWidth := Double.orElse (width other) 1 in
    let otherDepth := Double.orElse (depth other) 1 in
    let xOverlap :=
      (abs (x building - x other) <? (buildingWidth + otherWidth) / 2)%float in
    let zOverlap :=
      (abs (z building - z other) <? (buildingDepth + otherDepth) / 2)%float in
    xOverlap && zOverlap) otherBuildings.

(** [buildings.slice(0, index).concat(buildings.slice(index + 1))] *)
Definition others (buildings : list BuildingData) (index : nat)
  : list BuildingData :=
  firstn index buildings ++ skipn (index + 1) buildings.

Definition isColliding (buildings : list BuildingData)
    (building : BuildingData) (index : nat) : bool :=
  checkBuildingCollision building (others buildings index).

Definition collidingBuildings (buildings : list BuildingData)
  : list BuildingData :=
  MapSystem.filterFrom (isColliding buildings) 0 buildings.

(** The footprint sizes the comparison works with. *)
Definition usedWidth (b : BuildingData) : float := Double.orElse (width b) 1.
Definition usedDepth (b : BuildingData) : float := Double.orElse (depth b) 1.

(** The sizes as the specification words them: 1 when absent. *)
Definition specWidth (b : BuildingData) : float :=
  match width b with Some w => w | None => 1%float end.
Definition specDepth (b : BuildingData) : float :=
  match depth b with Some d => d | None => 1%float end.

(** The object literal [{ x, z, width, depth }], width and depth optional. *)
Definition placement (x z : float) (width depth : option float) : BuildingData :=
  {| x := x; z := z; width := width; depth := depth |}.

Definition positive (v : option float) : bool :=
  match v with
  | Some w => (0 <? w)%float
  | None => true
  end.

(** A placement that is a footprint on the ground plane: it stands at
    finite coordinates, and a width or depth that is supplied is a
    positive number. *)
Definition footprint (b : BuildingData) : bool :=
  Double.isFinite (x b) && Double.isFinite (z b)
  && positive (width b) && positive (depth b).



End MapSystem64.

(* ================================================================== *)
(** ** The wireframe BuildingScene: configuration *)

Module BuildingScene.

Module CountPerWall.
Record t : Type := { front : Q; side : Q }.
End CountPerWall.

(** interface WindowConfig *)
Module WindowConfig.
Record t : Type := {
  width : Q;
  height : Q;
  spacing : Q;
  countPerWall : CountPerWall.t
}.
End WindowConfig.

(** [{ enabled, height, overhang }]: the floor divider and the base's
    decorative lines. *)
Module Divider.
Record t : Type := { enabled : bool; height : Q; overhang : Q }.
End Divider.

(** interface FloorConfig *)
Module FloorConfig.
Record t : Type := {
  windows : WindowConfig.t;
  divider : Divider.t;
  decorativeLines : bool
}.
End FloorConfig.

(** [{ height, overhang }]: the roof trim and the parapet's top trim. *)
Module Trim.
Record t : Type := { height : Q; overhang : Q }.
End Trim.

(** [{ width, depth, height }]: one stage of the tower. *)
Module Stage.
Record t : Type := { width : Q; depth : Q; height : Q }.
End Stage.

Module Tower.
Record t : Type := {
  base : Stage.t;
  main : Stage.t;
  top : Stage.t;
  spire : Stage.t
}.
End Tower.

Module Parapet.
Record t : Type := { height : Q; thickness : Q; topTrim : Trim.t }.
End Parapet.

(** interface RoofConfig *)
Module RoofConfig.
Record t : Type := {
  width : Q;
  depth : Q;
  height : Q;
  trim : Trim.t;
  tower : Tower.t;
  parapet : Parapet.t
}.
End RoofConfig.

Module Columns.
Record t : Type := { enabled : bool; count : Q; width : Q; depth : Q }.
End Columns.

(** interface BaseConfig *)
Module BaseConfig.
Record t : Type := {
  width : Q;
  depth : Q;
  height : Q;
  decorativeLines : Divider.t;
  columns : Columns.t
}.
End BaseConfig.

(** interface BuildingConfig *)
Module BuildingConfig.
Record t : Type := {
  width : Q;
  depth : Q;
  floorHeight : Q;
  numFloors : Q;
  floors : list FloorConfig.t;
  base : BaseConfig.t;
  roof : RoofConfig.t
}.
End BuildingConfig.

(** The element of [Array(12).fill({...})]. *)
Definition floorConfig : FloorConfig.t := {|
  FloorConfig.windows := {|
    WindowConfig.width := 1.8;
    WindowConfig.height := 2.2;
    WindowConfig.spacing := 3.8;
    WindowConfig.countPerWall :=
      {| CountPerWall.front := 5; CountPerWall.side := 3 |}
  |};
  FloorConfig.divider :=
    {| Divider.enabled := true; Divider.height := 0.25; Divider.overhang := 0.3 |};
  FloorConfig.decorativeLines := true
|}.

(** const buildingConfig *)
Definition buildingConfig : BuildingConfig.t := {|
  BuildingConfig.width := 25;
  BuildingConfig.depth := 18;
  BuildingConfig.floorHeight := 3.2;
  BuildingConfig.numFloors := 12;
  BuildingConfig.floors := repeat floorConfig 12;
  BuildingConfig.base := {|
    BaseConfig.width := 28;
    BaseConfig.depth := 21;
    BaseConfig.height := 2.2;
    BaseConfig.decorativeLines :=
      {| Divider.enabled := true; Divider.height := 0.18; Divider.overhang := 0.2 |};
    BaseConfig.columns :=
      {| Columns.enabled := true; Columns.count := 4;
         Columns.width := 0.9; Columns.depth := 0.9 |}
  |};
  BuildingConfig.roof := {|
    RoofConfig.width := 21.25;
    RoofConfig.depth := 15.3;
    RoofConfig.height := 2.5;
    RoofConfig.trim := {| Trim.height := 0.3; Trim.overhang := 0.25 |};
    RoofConfig.tower := {|
      Tower.base := {| Stage.width := 8; Stage.depth := 8; Stage.height := 1 |};
      Tower.main := {| Stage.width := 6; Stage.depth := 6; Stage.height := 4 |};
      Tower.top := {| Stage.width := 7; Stage.depth := 7; Stage.height := 1.5 |};
      Tower.spire := {| Stage.width := 2; Stage.depth := 2; Stage.height := 2 |}
    |};
    RoofConfig.parapet := {|
      Parapet.height := 1.2;
      Parapet.thickness := 0.15;
      Parapet.topTrim := {| Trim.height := 0.3; Trim.overhang := 0.15 |}
    |}
  |}
|}.

(* ---------------------------------------------------------------- *)
(** *** Scene objects *)

(** THREE.BoxGeometry(width, height, depth) *)
Record BoxGeometry : Type := Box { bwidth : Q; bheight : Q; bdepth : Q }.

(** THREE.Vector3 *)
Record Vector3 : Type := Vec { vx : JS.number; vy : JS.number; vz : JS.number }.

(** THREE.LineSegments over the edges of a box, with the colour of its
    LineBasicMaterial and its position. *)
Record LineSegments : Type := {
  geometry : BoxGeometry;
  color : Z;
  position : Vector3
}.

(** [new THREE.LineSegments(new THREE.EdgesGeometry(g),
      new THREE.LineBasicMaterial({ color: 0x000000 }))] *)
Definition lineSegments (g : BoxGeometry) : LineSegments :=
  {| geometry := g; color := 0x000000; position := Vec 0 0 0 |}.

Definition setX (l : LineSegments) (v : JS.number) : LineSegments :=
  {| geometry := geometry l; color := color l;
     position := Vec v (vy (position l)) (vz (position l)) |}.

Definition setY (l : LineSegments) (v : JS.number) : LineSegments :=
  {| geometry := geometry l; color := color l;
     position := Vec (vx (position l)) v (vz (position l)) |}.

Definition setZ (l : LineSegments) (v : JS.number) : LineSegments :=
  {| geometry := geometry l; color := color l;
     position := Vec (vx (position l)) (vy (position l)) v |}.

(** [l.position.set(x, y, z)] *)
Definition setPosition (l : LineSegments) (x y z : JS.number) : LineSegments :=
  {| geometry := geometry l; color := color l; position := Vec x y z |}.

(** [l.clone()]: a new object with the same geometry, material and a copy
    of the position. *)
Definition clone (l : LineSegments) : LineSegments :=
  {| geometry := geometry l; color := color l;
     position := Vec (vx (position l)) (vy (position l)) (vz (position l)) |}.

(** The objects of the source are anonymous.  An entry of the scene keeps,
    next to the object, the variable that held it at [scene.add]; the
    window parts of the side walls, which the source calls [frameLine],
    ... again, are the [side...] ones. *)
Module Tag.
Inductive t : Type :=
| baseLine | middleLayerLine | topTrimLine
| columnBase | column | columnTop
| corner
| line
| frameLine | paneLine | verticalDividerLine | horizontalDividerLine
| backFrameLine | backPaneLine
| backVerticalDividerLine | backHorizontalDividerLine
| sideFrameLine | sidePaneLine
| sideVerticalDividerLine | sideHorizontalDividerLine
| rightFrameLine | rightPaneLine
| rightVerticalDividerLine | rightHorizontalDividerLine
| dividerLine | upperDividerLine | lowerDividerLine
| accentLine | backAccentLine | leftAccentLine | rightAccentLine
| roofLine | roofTrimLine
| towerBaseLine | towerLine | towerTopLine | spireLine
| frontParapetLine | frontParapetTopLine
| backParapetLine | backParapetTopLine
| leftParapetLine | leftParapetTopLine
| rightParapetLine | rightParapetTopLine.

Definition eq_dec (a b : t) : {a = b} + {a <> b}.
Proof. decide equality. Defined.

Definition eqb (a b : t) : bool := if eq_dec a b then true else false.
End Tag.

Definition Entry : Type := (Tag.t * LineSegments)%type.

(** [for (let i = 0; i < n; i++)] with a body that may throw: the first
    exception ends the whole effect. *)
Fixpoint forEachThrowing {A : Type} (body : nat -> option (list A))
    (indices : list nat) : option (list A) :=
  match indices with
  | [] => Some []
  | i :: rest =>
      match body i with
      | None => None
      | Some added =>
          match forEachThrowing body rest with
          | None => None
          | Some more => Some (added ++ more)
          end
      end
  end.

Definition forLoopThrowing {A : Type} (n : Q) (body : nat -> option (list A))
  : option (list A) :=
  forEachThrowing body (seq 0 (JS.iterations n)).

(* ---------------------------------------------------------------- *)
(** *** Building creation

    Every definition below is the object of the same name in the source
    at the moment it is added to the scene; a pass lists the
    [scene.add] calls of one block in their order. *)

Section Creation.

Variable cfg : BuildingConfig.t.

Local Abbreviation base := (BuildingConfig.base cfg).
Local Abbreviation roof := (BuildingConfig.roof cfg).

(** **** Base *)

Definition baseLine : LineSegments :=
  setY (lineSegments
          (Box (BaseConfig.width base) (BaseConfig.height base) (BaseConfig.depth base)))
       (- BaseConfig.height base / 2).

Definition middleLayerLine : LineSegments :=
  setY (lineSegments
          (Box (BaseConfig.width base - 1)
               (BaseConfig.height base * 0.3)
               (BaseConfig.depth base - 1)))
       0.

Definition topTrimLine : LineSegments :=
  setY (lineSegments
          (Box (BaseConfig.width base - 2)
               (BaseConfig.height base * 0.2)
               (BaseConfig.depth base - 2)))
       (BaseConfig.height base * 0.25).

Definition basePass : list Entry :=
  [ (Tag.baseLine, baseLine);
    (Tag.middleLayerLine, middleLayerLine);
    (Tag.topTrimLine, topTrimLine) ].

(** **** Columns *)

Local Abbreviation columns := (BaseConfig.columns base).

Definition columnBaseGeometry : BoxGeometry :=
  Box (Columns.width columns * 1.2)
      (BaseConfig.height base * 0.2)
      (Columns.depth columns * 1.2).

Definition columnTopGeometry : BoxGeometry :=
  Box (Columns.width columns * 1.3)
      (BaseConfig.height base * 0.3)
      (Columns.depth columns * 1.3).

Definition columnGeometry : BoxGeometry :=
  Box (Columns.width columns)
      (BaseConfig.height base * 0.8)
      (Columns.depth columns).

Definition isXAxis (side : nat) : bool := (side mod 2 =? 0)%nat.
Definition isPositive (side : nat) : bool := (side <? 2)%nat.

(** The [count] of the loop over the sides, shadowing the configured one. *)
Definition sideCount (side : nat) : Q :=
  if isXAxis side then Columns.count columns
  else inject_Z (Qfloor (Columns.count columns * 0.75)).

Definition totalLength (side : nat) : Q :=
  if isXAxis side then BaseConfig.width base else BaseConfig.depth base.

Definition columnSpacing (side : nat) : JS.number :=
  JS.div (totalLength side - Columns.width columns) (sideCount side - 1).

Definition columnPos (side i : nat) : JS.number :=
  JS.add (- totalLength side / 2) (JS.mul (JS.ofNat i) (columnSpacing side)).

Definition columnAt (side i : nat) : list Entry :=
  let pos := columnPos side i in
  let xPos : JS.number :=
    if isXAxis side then pos
    else if isPositive side then JS.Fin (BaseConfig.width base / 2)
         else JS.Fin (- BaseConfig.width base / 2) in
  let zPos : JS.number :=
    if isXAxis side
    then (if isPositive side then JS.Fin (BaseConfig.depth base / 2)
          else JS.Fin (- BaseConfig.depth base / 2))
    else pos in
  [ (Tag.columnBase,
     setPosition (lineSegments columnBaseGeometry)
                 xPos (- BaseConfig.height base * 0.4) zPos);
    (Tag.column,
     setPosition (lineSegments columnGeometry)
                 xPos (- BaseConfig.height base * 0.1) zPos);
    (Tag.columnTop,
     setPosition (lineSegments columnTopGeometry)
                 xPos (BaseConfig.height base * 0.2) zPos) ].

Definition columnsOnSide (side : nat) : list Entry :=
  JS.forLoop (sideCount side) (columnAt side).

Definition columnsPass : list Entry :=
  if Columns.enabled columns
  then JS.forLoop 4 columnsOnSide
  else [].

(** **** Corners *)

Definition cornerSize : Q := Columns.width columns * 1.5.

Definition corner (i : nat) : LineSegments :=
  let xSign : Q := if (i mod 2 =? 0)%nat then 1 else -1 in
  let zSign : Q := if (i <? 2)%nat then 1 else -1 in
  setPosition
    (lineSegments (Box cornerSize (BaseConfig.height base * 0.9) cornerSize))
    (xSign * (BaseConfig.width base / 2 - cornerSize / 2))
    (- BaseConfig.height base * 0.05)
    (zSign * (BaseConfig.depth base / 2 - cornerSize / 2)).

Definition cornersPass : list Entry :=
  JS.forLoop 4 (fun i => [ (Tag.corner, corner i) ]).

(** **** Floors and windows *)

Local Abbreviation width := (BuildingConfig.width cfg).
Local Abbreviation depth := (BuildingConfig.depth cfg).
Local Abbreviation floorHeight := (BuildingConfig.floorHeight cfg).
Local Abbreviation numFloors := (BuildingConfig.numFloors cfg).

(** The floor body, called [line] in the source. *)
Definition line (i : nat) : LineSegments :=
  setY (lineSegments (Box width floorHeight depth)) (JS.ofNat i * floorHeight).

Section FrontAndBackWindows.

Variable i : nat.
Variable windows : WindowConfig.t.
Variable j : nat.

Definition windowX : Q :=
  - width / 2 + WindowConfig.spacing windows
  + JS.ofNat j * (WindowConfig.width windows + WindowConfig.spacing windows).
Definition windowY : Q :=
  JS.ofNat i * floorHeight + WindowConfig.height windows / 2.
Definition windowZ : Q := depth / 2.

Definition frameLine : LineSegments :=
  setPosition
    (lineSegments
       (Box (WindowConfig.width windows + 0.2) (WindowConfig.height windows + 0.2) 0.1))
    windowX windowY windowZ.

Definition paneLine : LineSegments :=
  setPosition
    (lineSegments (Box (WindowConfig.width windows) (WindowConfig.height windows) 0.05))
    windowX windowY windowZ.

Definition verticalDividerLine : LineSegments :=
  setPosition
    (lineSegments (Box 0.05 (WindowConfig.height windows) 0.05))
    windowX windowY windowZ.

Definition horizontalDividerLine : LineSegments :=
  setPosition
    (lineSegments (Box (WindowConfig.width windows) 0.05 0.05))
    windowX windowY windowZ.

Definition backFrameLine : LineSegments := setZ (clone frameLine) (- depth / 2).
Definition backPaneLine : LineSegments := setZ (clone paneLine) (- depth / 2).
Definition backVerticalDividerLine : LineSegments :=
  setZ (clone verticalDividerLine) (- depth / 2).
Definition backHorizontalDividerLine : LineSegments :=
  setZ (clone horizontalDividerLine) (- depth / 2).

(** One pass of the loop over [windows.countPerWall.front]. *)
Definition frontWindow : list Entry :=
  [ (Tag.frameLine, frameLine);
    (Tag.paneLine, paneLine);
    (Tag.verticalDividerLine, verticalDividerLine);
    (Tag.horizontalDividerLine, horizontalDividerLine);
    (Tag.backFrameLine, backFrameLine);
    (Tag.backPaneLine, backPaneLine);
    (Tag.backVerticalDividerLine, backVerticalDividerLine);
    (Tag.backHorizontalDividerLine, backHorizontalDividerLine) ].

(** The side walls: the same names in the source, in the second loop. *)
Definition sideWindowX : Q := - width / 2.
Definition sideWindowY : Q :=
  JS.ofNat i * floorHeight + WindowConfig.height windows / 2.
Definition sideWindowZ : Q :=
  - depth / 2 + WindowConfig.spacing windows
  + JS.ofNat j * (WindowConfig.width windows + WindowConfig.spacing windows).

Definition sideFrameLine : LineSegments :=
  setPosition
    (lineSegments
       (Box 0.1 (WindowConfig.height windows + 0.2) (WindowConfig.width windows + 0.2)))
    sideWindowX sideWindowY sideWindowZ.

Definition sidePaneLine : LineSegments :=
  setPosition
    (lineSegments (Box 0.05 (WindowConfig.height windows) (WindowConfig.width windows)))
    sideWindowX sideWindowY sideWindowZ.

Definition sideVerticalDividerLine : LineSegments :=
  setPosition
    (lineSegments (Box 0.05 (WindowConfig.height windows) 0.05))
    sideWindowX sideWindowY sideWindowZ.

Definition sideHorizontalDividerLine : LineSegments :=
  setPosition
    (lineSegments (Box 0.05 0.05 (WindowConfig.width windows)))
    sideWindowX sideWindowY sideWindowZ.

Definition rightFrameLine : LineSegments := setX (clone sideFrameLine) (width / 2).
Definition rightPaneLine : LineSegments := setX (clone sidePaneLine) (width / 2).
Definition rightVerticalDividerLine : LineSegments :=
  setX (clone sideVerticalDividerLine) (width / 2).
Definition rightHorizontalDividerLine : LineSegments :=
  setX (clone sideHorizontalDividerLine) (width / 2).

(** One pass of the loop over [windows.countPerWall.side]. *)
Definition sideWindow : list Entry :=
  [ (Tag.sideFrameLine, sideFrameLine);
    (Tag.sidePaneLine, sidePaneLine);
    (Tag.sideVerticalDividerLine, sideVerticalDividerLine);
    (Tag.sideHorizontalDividerLine, sideHorizontalDividerLine);
    (Tag.rightFrameLine, rightFrameLine);
    (Tag.rightPaneLine, rightPaneLine);
    (Tag.rightVerticalDividerLine, rightVerticalDividerLine);
    (Tag.rightHorizontalDividerLine, rightHorizontalDividerLine) ].

End FrontAndBackWindows.

(** **** Floor divider *)

Section FloorDivider.

Variable i : nat.
Variable divider : Divider.t.

Definition dividerY : Q := (JS.ofNat i + 1) * floorHeight.

Definition dividerLine : LineSegments :=
  setY (lineSegments
          (Box (width + Divider.overhang divider * 2)
               (Divider.height divider)
               (depth + Divider.overhang divider * 2)))
       dividerY.

Definition upperDividerLine : LineSegments :=
  setY (lineSegments
          (Box (width + Divider.overhang divider * 1.5)
               (Divider.height divider * 0.5)
               (depth + Divider.overhang divider * 1.5)))
       (dividerY + Divider.height divider * 1.5).

Definition lowerDividerLine : LineSegments :=
  setY (lineSegments
          (Box (width + Divider.overhang divider * 1.5)
               (Divider.height divider * 0.5)
               (depth + Divider.overhang divider * 1.5)))
       (dividerY - Divider.height divider * 1.5).

Definition accentCount : Q := 8.
Definition accentSpacing : Q :=
  (width + Divider.overhang divider) / (accentCount - 1).

Definition accentGeometry : BoxGeometry :=
  Box (Divider.height divider * 0.5)
      (Divider.height divider * 4)
      (Divider.height divider * 0.5).

Definition accentLine (j : nat) : LineSegments :=
  setPosition (lineSegments accentGeometry)
    (- width / 2 - Divider.overhang divider + JS.ofNat j * accentSpacing)
    dividerY
    (depth / 2 + Divider.overhang divider).

Definition backAccentLine (j : nat) : LineSegments :=
  setZ (clone (accentLine j)) (- depth / 2 - Divider.overhang divider).

Definition sideAccentCount : Q := 6.
Definition sideAccentSpacing : Q :=
  (depth + Divider.overhang divider) / (sideAccentCount - 1).

Definition leftAccentLine (j : nat) : LineSegments :=
  setPosition (lineSegments accentGeometry)
    (- width / 2 - Divider.overhang divider)
    dividerY
    (- depth / 2 - Divider.overhang divider + JS.ofNat j * sideAccentSpacing).

Definition rightAccentLine (j : nat) : LineSegments :=
  setX (clone (leftAccentLine j)) (width / 2 + Divider.overhang divider).

Definition dividerPass : list Entry :=
  if JS.Qltb (JS.ofNat i) (numFloors - 1) && Divider.enabled divider
  then
    [ (Tag.dividerLine, dividerLine);
      (Tag.upperDividerLine, upperDividerLine);
      (Tag.lowerDividerLine, lowerDividerLine) ]
    ++ JS.forLoop accentCount (fun j =>
         [ (Tag.accentLine, accentLine j);
           (Tag.backAccentLine, backAccentLine j) ])
    ++ JS.forLoop sideAccentCount (fun j =>
         [ (Tag.leftAccentLine, leftAccentLine j);
           (Tag.rightAccentLine, rightAccentLine j) ])
  else [].

End FloorDivider.

(** What one pass of the loop over the floors adds for [floorConfig]. *)
Definition floorBody (i : nat) (floorConfig : FloorConfig.t) : list Entry :=
  let windows := FloorConfig.windows floorConfig in
  let divider := FloorConfig.divider floorConfig in
  (Tag.line, line i)
  :: JS.forLoop (CountPerWall.front (WindowConfig.countPerWall windows))
       (frontWindow i windows)
  ++ JS.forLoop (CountPerWall.side (WindowConfig.countPerWall windows))
       (sideWindow i windows)
  ++ dividerPass i divider.

(** [buildingConfig.floors[i]] is [undefined] beyond the array, and
    destructuring it throws. *)
Definition floorPass (i : nat) : option (list Entry) :=
  match nth_error (BuildingConfig.floors cfg) i with
  | None => None
  | Some floorConfig => Some (floorBody i floorConfig)
  end.

Definition floorsPass : option (list Entry) :=
  forLoopThrowing numFloors floorPass.

(** **** Roof *)

Local Abbreviation tower := (RoofConfig.tower roof).
Local Abbreviation parapet := (RoofConfig.parapet roof).

Definition roofBaseY : Q := numFloors * floorHeight.

Definition roofLine : LineSegments :=
  setY (lineSegments
          (Box (RoofConfig.width roof) (RoofConfig.height roof) (RoofConfig.depth roof)))
       (roofBaseY + RoofConfig.height roof / 2).

Definition roofTrimLine : LineSegments :=
  setY (lineSegments
          (Box (RoofConfig.width roof + Trim.overhang (RoofConfig.trim roof) * 2)
               (Trim.height (RoofConfig.trim roof))
               (RoofConfig.depth roof + Trim.overhang (RoofConfig.trim roof) * 2)))
       (roofBaseY + RoofConfig.height roof + Trim.height (RoofConfig.trim roof) / 2).

Definition stageGeometry (s : Stage.t) : BoxGeometry :=
  Box (Stage.width s) (Stage.height s) (Stage.depth s).

Definition towerBaseLine : LineSegments :=
  setY (lineSegments (stageGeometry (Tower.base tower)))
       (roofBaseY + RoofConfig.height roof + Stage.height (Tower.base tower) / 2).

Definition towerLine : LineSegments :=
  setY (lineSegments (stageGeometry (Tower.main tower)))
       (roofBaseY + RoofConfig.height roof + Stage.height (Tower.base tower)
        + Stage.height (Tower.main tower) / 2).

Definition towerTopLine : LineSegments :=
  setY (lineSegments (stageGeometry (Tower.top tower)))
       (roofBaseY + RoofConfig.height roof + Stage.height (Tower.base tower)
        + Stage.height (Tower.main tower) + Stage.height (Tower.top tower) / 2).

Definition spireLine : LineSegments :=
  setY (lineSegments (stageGeometry (Tower.spire tower)))
       (roofBaseY + RoofConfig.height roof + Stage.height (Tower.base tower)
        + Stage.height (Tower.main tower) + Stage.height (Tower.top tower)
        + Stage.height (Tower.spire tower) / 2).

Definition frontParapetLine : LineSegments :=
  setZ (setY (lineSegments
                (Box (RoofConfig.width roof) (Parapet.height parapet)
                     (Parapet.thickness parapet)))
             (roofBaseY + RoofConfig.height roof + Parapet.height parapet / 2))
       (RoofConfig.depth roof / 2).

Definition frontParapetTopLine : LineSegments :=
  setZ (setY (lineSegments
                (Box (RoofConfig.width roof + Trim.overhang (Parapet.topTrim parapet) * 2)
                     (Trim.height (Parapet.topTrim parapet))
                     (Parapet.thickness parapet
                      + Trim.overhang (Parapet.topTrim parapet) * 2)))
             (roofBaseY + RoofConfig.height roof + Parapet.height parapet
              + Trim.height (Parapet.topTrim parapet) / 2))
       (RoofConfig.depth roof / 2).

Definition backParapetLine : LineSegments :=
  setZ (clone frontParapetLine) (- RoofConfig.depth roof / 2).

Definition backParapetTopLine : LineSegments :=
  setZ (clone frontParapetTopLine) (- RoofConfig.depth roof / 2).

Definition leftParapetLine : LineSegments :=
  setX (setY (lineSegments
                (Box (Parapet.thickness parapet) (Parapet.height parapet)
                     (RoofConfig.depth roof)))
             (roofBaseY + RoofConfig.height roof + Parapet.height parapet / 2))
       (RoofConfig.width roof / 2).

Definition leftParapetTopLine : LineSegments :=
  setX (setY (lineSegments
                (Box (Parapet.thickness parapet
                      + Trim.overhang (Parapet.topTrim parapet) * 2)
                     (Trim.height (Parapet.topTrim parapet))
                     (RoofConfig.depth roof
                      + Trim.overhang (Parapet.topTrim parapet) * 2)))
             (roofBaseY + RoofConfig.height roof + Parapet.height parapet
              + Trim.height (Parapet.topTrim parapet) / 2))
       (RoofConfig.width roof / 2).

Definition rightParapetLine : LineSegments :=
  setX (clone leftParapetLine) (- RoofConfig.width roof / 2).

Definition rightParapetTopLine : LineSegments :=
  setX (clone leftParapetTopLine) (- RoofConfig.width roof / 2).

Definition roofPass : list Entry :=
  [ (Tag.roofLine, roofLine);
    (Tag.roofTrimLine, roofTrimLine);
    (Tag.towerBaseLine, towerBaseLine);
    (Tag.towerLine, towerLine);
    (Tag.towerTopLine, towerTopLine);
    (Tag.spireLine, spireLine);
    (Tag.frontParapetLine, frontParapetLine);
    (Tag.frontParapetTopLine, frontParapetTopLine);
    (Tag.backParapetLine, backParapetLine);
    (Tag.backParapetTopLine, backParapetTopLine);
    (Tag.leftParapetLine, leftParapetLine);
    (Tag.leftParapetTopLine, leftParapetTopLine);
    (Tag.rightParapetLine, rightParapetLine);
    (Tag.rightParapetTopLine, rightParapetTopLine) ].

(** **** The line segments added to the scene, in order; [None] when the
    effect throws. *)
Definition scene : option (list Entry) :=
  match floorsPass with
  | None => None
  | Some floorEntries =>
      Some (basePass ++ columnsPass ++ cornersPass ++ floorEntries ++ roofPass)
  end.

End Creation.

(* ---------------------------------------------------------------- *)
(** *** Vocabulary of the properties *)

Definition centerY (l : LineSegments) : JS.number := vy (position l).

Definition topY (l : LineSegments) : JS.number :=
  JS.add (centerY l) (bheight (geometry l) / 2).

Definition bottomY (l : LineSegments) : JS.number :=
  JS.add (centerY l) (- (bheight (geometry l) / 2)).

(** [a <= b] on numbers, false as soon as one is NaN. *)
Definition le (a b : JS.number) : Prop :=
  match a, b with
  | JS.NaN, _ | _, JS.NaN => False
  | JS.Fin p, JS.Fin q => p <= q
  | JS.NegInf, _ | _, JS.PosInf => True
  | _, _ => False
  end.

(** [upper] sits on [lower]: its centre is the top of [lower] plus half
    of its own height. *)
Definition stackedOn (lower upper : LineSegments) : Prop :=
  JS.same (centerY upper) (JS.add (topY lower) (bheight (geometry upper) / 2)).

Fixpoint consecutive {A : Type} (R : A -> A -> Prop) (l : list A) : Prop :=
  match l with
  | a :: (b :: _) as rest => R a b /\ consecutive R rest
  | _ => True
  end.

(** The roof stack in the order of the specification. *)
Definition roofStack (cfg : BuildingConfig.t) : list LineSegments :=
  [ roofLine cfg; roofTrimLine cfg; towerBaseLine cfg;
    towerLine cfg; towerTopLine cfg; spireLine cfg ].

Inductive Axis : Type := AxisX | AxisZ.

Definition coordinate (a : Axis) (l : LineSegments) : JS.number :=
  match a with AxisX => vx (position l) | AxisZ => vz (position l) end.

Definition otherAxis (a : Axis) : Axis :=
  match a with AxisX => AxisZ | AxisZ => AxisX end.

(** [mirrored] is [original] reflected about the centre line: the same
    geometry, colour and other two coordinates, and the opposite
    coordinate on [a]. *)
Definition mirrorOf (a : Axis) (mirrored original : LineSegments) : Prop :=
  geometry mirrored = geometry original
  /\ color mirrored = color original
  /\ vy (position mirrored) = vy (position original)
  /\ coordinate (otherAxis a) mirrored = coordinate (otherAxis a) original
  /\ JS.same (coordinate a mirrored) (JS.neg (coordinate a original)).

(** The back, right and other-side objects, with the object each of them
    is cloned from and the coordinate that is overwritten. *)
Definition counterpart (t : Tag.t) : option (Tag.t * Axis) :=
  match t with
  | Tag.backFrameLine => Some (Tag.frameLine, AxisZ)
  | Tag.backPaneLine => Some (Tag.paneLine, AxisZ)
  | Tag.backVerticalDividerLine => Some (Tag.verticalDividerLine, AxisZ)
  | Tag.backHorizontalDividerLine => Some (Tag.horizontalDividerLine, AxisZ)
  | Tag.rightFrameLine => Some (Tag.sideFrameLine, AxisX)
  | Tag.rightPaneLine => Some (Tag.sidePaneLine, AxisX)
  | Tag.rightVerticalDividerLine => Some (Tag.sideVerticalDividerLine, AxisX)
  | Tag.rightHorizontalDividerLine => Some (Tag.sideHorizontalDividerLine, AxisX)
  | Tag.backAccentLine => Some (Tag.accentLine, AxisZ)
  | Tag.rightAccentLine => Some (Tag.leftAccentLine, AxisX)
  | Tag.backParapetLine => Some (Tag.frontParapetLine, AxisZ)
  | Tag.backParapetTopLine => Some (Tag.frontParapetTopLine, AxisZ)
  | Tag.rightParapetLine => Some (Tag.leftParapetLine, AxisX)
  | Tag.rightParapetTopLine => Some (Tag.leftParapetTopLine, AxisX)
  | _ => None
  end.

(** How many entries of [l] carry the tag [t]. *)
Definition countTag (t : Tag.t) (l : list Entry) : nat :=
  length (filter (fun e => Tag.eqb (fst e) t) l).

Definition isInteger (q : Q) : bool := Qeq_bool q (inject_Z (Qfloor q)).

Definition isCount (q : Q) : bool := isInteger q && Qle_bool 1 q.

Definition positive (q : Q) : bool := JS.Qltb 0 q.

Definition validFloor (f : FloorConfig.t) : bool :=
  let w := FloorConfig.windows f in
  positive (WindowConfig.width w) && positive (WindowConfig.height w)
  && positive (WindowConfig.spacing w)
  && isCount (CountPerWall.front (WindowConfig.countPerWall w))
  && isCount (CountPerWall.side (WindowConfig.countPerWall w))
  && positive (Divider.height (FloorConfig.divider f))
  && positive (Divider.overhang (FloorConfig.divider f)).

Definition validStage (s : Stage.t) : bool :=
  positive (Stage.width s) && positive (Stage.depth s) && positive (Stage.height s).

Definition validTrim (t : Trim.t) : bool :=
  positive (Trim.height t) && positive (Trim.overhang t).

Definition validRoof (r : RoofConfig.t) : bool :=
  positive (RoofConfig.width r) && positive (RoofConfig.depth r)
  && positive (RoofConfig.height r)
  && validTrim (RoofConfig.trim r)
  && validStage (Tower.base (RoofConfig.tower r))
  && validStage (Tower.main (RoofConfig.tower r))
  && validStage (Tower.top (RoofConfig.tower r))
  && validStage (Tower.spire (RoofConfig.tower r))
  && positive (Parapet.height (RoofConfig.parapet r))
  && positive (Parapet.thickness (RoofConfig.parapet r))
  && validTrim (Parapet.topTrim (RoofConfig.parapet r)).

Definition validBase (b : BaseConfig.t) : bool :=
  positive (BaseConfig.width b) && positive (BaseConfig.depth b)
  && positive (BaseConfig.height b)
  && positive (Divider.height (BaseConfig.decorativeLines b))
  && positive (Divider.overhang (BaseConfig.decorativeLines b))
  && isCount (Columns.count (BaseConfig.columns b))
  && positive (Columns.width (BaseConfig.columns b))
  && positive (Columns.depth (BaseConfig.columns b)).

(** The invariants of the configuration: every dimension is positive,
    every count is a whole number that is at least 1, and there is one
    floor configuration per floor. *)
Definition structurallyValid (cfg : BuildingConfig.t) : bool :=
  positive (BuildingConfig.width cfg) && positive (BuildingConfig.depth cfg)
  && positive (BuildingConfig.floorHeight cfg)
  && isCount (BuildingConfig.numFloors cfg)
  && Qeq_bool (JS.ofNat (length (BuildingConfig.floors cfg)))
              (BuildingConfig.numFloors cfg)
  && forallb validFloor (BuildingConfig.floors cfg)
  && validBase (BuildingConfig.base cfg)
  && validRoof (BuildingConfig.roof cfg).

(** [buildingConfig] with another number of columns. *)
Definition withColumnCount (cfg : BuildingConfig.t) (count : Q) : BuildingConfig.t :=
  let b := BuildingConfig.base cfg in
  let c := BaseConfig.columns b in
  {| BuildingConfig.width := BuildingConfig.width cfg;
     BuildingConfig.depth := BuildingConfig.depth cfg;
     BuildingConfig.floorHeight := BuildingConfig.floorHeight cfg;
     BuildingConfig.numFloors := BuildingConfig.numFloors cfg;
     BuildingConfig.floors := BuildingConfig.floors cfg;
     BuildingConfig.base :=
       {| BaseConfig.width := BaseConfig.width b;
          BaseConfig.depth := BaseConfig.depth b;
          BaseConfig.height := BaseConfig.height b;
          BaseConfig.decorativeLines := BaseConfig.decorativeLines b;
          BaseConfig.columns :=
            {| Columns.enabled := Columns.enabled c;
               Columns.count := count;
               Columns.width := Columns.width c;
               Columns.depth := Columns.depth c |} |};
     BuildingConfig.roof := BuildingConfig.roof cfg |}.

(** What the pass of the floor loop for floor [i] adds, nothing when
    there is no configuration for it. *)
Definition floorEntries (cfg : BuildingConfig.t) (i : nat) : list Entry :=
  match nth_error (BuildingConfig.floors cfg) i with
  | Some floorConfig => floorBody cfg i floorConfig
  | None => []
  end.

(** The four parts of a window assembly of the front wall and of its
    mirror image on the back wall. *)
Definition frontParts : list Tag.t :=
  [ Tag.frameLine; Tag.paneLine;
    Tag.verticalDividerLine; Tag.horizontalDividerLine ].

Definition backParts : list Tag.t :=
  [ Tag.backFrameLine; Tag.backPaneLine;
    Tag.backVerticalDividerLine; Tag.backHorizontalDividerLine ].

(** The position of a column along its wall is [x] on the front and back
    walls and [z] on the two side walls. *)
Definition alongWall (side : nat) (l : LineSegments) : JS.number :=
  if isXAxis side then vx (position l) else vz (position l).

Definition finitePosition (l : LineSegments) : bool :=
  JS.isFinite (vx (position l)) && JS.isFinite (vy (position l))
  && JS.isFinite (vz (position l)).

End BuildingScene.

(* ================================================================== *)
(** ** components/BuildingScene.tsx: the solid building of the map *)

Module MeshScene.

Module Roof.
Record t : Type := { width : Q; depth : Q; height : Q }.
End Roof.

Module Windows.
Record t : Type := { width : Q; height : Q; spacing : Q }.
End Windows.

Module Config.
Record t : Type := {
  width : Q;
  depth : Q;
  floorHeight : Q;
  numFloors : Q;
  roof : Roof.t;
  windows : Windows.t
}.
End Config.

(** const buildingConfig *)
Definition buildingConfig : Config.t := {|
  Config.width := 8;
  Config.depth := 6;
  Config.floorHeight := 3;
  Config.numFloors := 12;
  Config.roof := {| Roof.width := 7; Roof.depth := 5; Roof.height := 1.5 |};
  Config.windows :=
    {| Windows.width := 1.2; Windows.height := 1.8; Windows.spacing := 2 |}
|}.

Inductive Geometry : Type :=
| boxGeometry (width height depth : Q)
| planeGeometry (width height : Q).

(** What a mesh is: the floor body, a window of the front or of the back
    face ([key] window-front-w, window-back-w), the roof. *)
Inductive Kind : Type :=
| floorBody
| windowFront (w : nat)
| windowBack (w : nat)
| roofBody.

(** A [<mesh>]: its geometry, the colour of its material, its position in
    the group, and whether it has [rotation={[0, Math.PI, 0]}], half a turn
    about the vertical axis. *)
Record Mesh : Type := {
  kind : Kind;
  geometry : Geometry;
  color : Z;
  px : Q;
  py : Q;
  pz : Q;
  halfTurn : bool
}.

(** The length of [Array.from({ length: n })]: [n] rounded towards zero,
    and 0 when [n] is negative. *)
Definition arrayLength (n : Q) : nat := Z.to_nat (Qfloor n).

Definition arrayFrom {A : Type} (n : Q) (f : nat -> A) : list A :=
  map f (seq 0 (arrayLength n)).

Section Render.

Variable cfg : Config.t.

Definition floorMesh (i : nat) : Mesh :=
  {| kind := floorBody;
     geometry := boxGeometry (Config.width cfg) (Config.floorHeight cfg)
                             (Config.depth cfg);
     color := 0xe0e0e0;
     px := 0;
     py := Config.floorHeight cfg * (JS.ofNat i + 0.5);
     pz := 0;
     halfTurn := false |}.

Definition frontWindowMesh (i w : nat) : Mesh :=
  {| kind := windowFront w;
     geometry := planeGeometry (Windows.width (Config.windows cfg))
                               (Windows.height (Config.windows cfg));
     color := 0x87CEEB;
     px := (JS.ofNat w - 1) * Windows.spacing (Config.windows cfg);
     py := Config.floorHeight cfg * (JS.ofNat i + 0.5);
     pz := Config.depth cfg / 2 + 0.01;
     halfTurn := false |}.

Definition backWindowMesh (i w : nat) : Mesh :=
  {| kind := windowBack w;
     geometry := planeGeometry (Windows.width (Config.windows cfg))
                               (Windows.height (Config.windows cfg));
     color := 0x87CEEB;
     px := (JS.ofNat w - 1) * Windows.spacing (Config.windows cfg);
     py := Config.floorHeight cfg * (JS.ofNat i + 0.5);
     pz := - Config.depth cfg / 2 - 0.01;
     halfTurn := true |}.

(** The children of [<group key={`floor-${i}`}>]. *)
Definition floorGroup (i : nat) : list Mesh :=
  floorMesh i
  :: arrayFrom 3 (frontWindowMesh i)
  ++ arrayFrom 3 (backWindowMesh i).

Definition roofMesh : Mesh :=
  {| kind := roofBody;
     geometry := boxGeometry (Roof.width (Config.roof cfg))
                             (Roof.height (Config.roof cfg))
                             (Roof.depth (Config.roof cfg));
     color := 0xc0c0c0;
     px := 0;
     py := Config.floorHeight cfg * Config.numFloors cfg
           + Roof.height (Config.roof cfg) / 2;
     pz := 0;
     halfTurn := false |}.

(** The meshes of the outer group, floor by floor, then the roof. *)
Definition meshes : list Mesh :=
  concat (arrayFrom (Config.numFloors cfg) floorGroup) ++ [roofMesh].

End Render.

(** [<group position={position}>] around the meshes. *)
Record Group : Type := {
  groupX : Q;
  groupY : Q;
  groupZ : Q;
  children : list Mesh
}.

(** The component, which reads the constant [buildingConfig]. *)
Definition BuildingScene (position : Q * Q * Q) : Group :=
  let '(gx, gy, gz) := position in
  {| groupX := gx; groupY := gy; groupZ := gz;
     children := meshes buildingConfig |}.

(** The position of a mesh of the group in the scene. *)
Definition worldX (g : Group) (m : Mesh) : Q := groupX g + px m.
Definition worldY (g : Group) (m : Mesh) : Q := groupY g + py m.
Definition worldZ (g : Group) (m : Mesh) : Q := groupZ g + pz m.

(** The extent of a box. *)
Definition boxHeight (m : Mesh) : Q :=
  match geometry m with
  | boxGeometry _ h _ => h
  | planeGeometry _ h => h
  end.

Definition boxWidth (m : Mesh) : Q :=
  match geometry m with
  | boxGeometry w _ _ => w
  | planeGeometry w _ => w
  end.

Definition boxDepth (m : Mesh) : Q :=
  match geometry m with
  | boxGeometry _ _ d => d
  | planeGeometry _ _ => 0
  end.

Definition bottom (m : Mesh) : Q := py m - boxHeight m / 2.
Definition top (m : Mesh) : Q := py m + boxHeight m / 2.

Definition isWindowFront (m : Mesh) : bool :=
  match kind m with windowFront _ => true | _ => false end.

Definition isWindowBack (m : Mesh) : bool :=
  match kind m with windowBack _ => true | _ => false end.

(** Two meshes, each in its group, overlap seen from above: their
    extents on x share more than an edge, and their extents on z too. *)
Definition overlapFromAbove (g1 : Group) (m1 : Mesh) (g2 : Group) (m2 : Mesh) : Prop :=
  (worldX g1 m1 - boxWidth m1 / 2 < worldX g2 m2 + boxWidth m2 / 2
   /\ worldX g2 m2 - boxWidth m2 / 2 < worldX g1 m1 + boxWidth m1 / 2)
  /\ (worldZ g1 m1 - boxDepth m1 / 2 < worldZ g2 m2 + boxDepth m2 / 2
      /\ worldZ g2 m2 - boxDepth m2 / 2 < worldZ g1 m1 + boxDepth m1 / 2).

End MeshScene.

(* ================================================================== *)
(** ** MapSystem.tsx: what is drawn *)

Module MapRender.

(** The [position] that MapSystem gives to the BuildingScene of a
    placement. *)
Definition scenePosition (building : MapSystem.BuildingData) : Q * Q * Q :=
  (MapSystem.x building - MapSystem.GRID_SIZE / 2,
   0,
   MapSystem.z building - MapSystem.GRID_SIZE / 2).

(** [buildings.map((building, index) => <BuildingScene ... />)] *)
Definition buildingScenes (buildings : list MapSystem.BuildingData)
  : list MeshScene.Group :=
  map (fun building => MeshScene.BuildingScene (scenePosition building)) buildings.

End MapRender.

(* ================================================================== *)
(** ** Vocabulary of the layout properties of the wireframe *)

Module Layout.

Import BuildingScene.

(** The condition under which a floor gets its divider. *)
Definition hasDivider (cfg : BuildingConfig.t) (i : nat) (divider : Divider.t) : bool :=
  JS.Qltb (JS.ofNat i) (BuildingConfig.numFloors cfg - 1) && Divider.enabled divider.

(** The left and right faces of a box along x, its front and back along z. *)
Definition minX (l : LineSegments) : JS.number :=
  JS.add (vx (position l)) (- (bwidth (geometry l) / 2)).
Definition maxX (l : LineSegments) : JS.number :=
  JS.add (vx (position l)) (bwidth (geometry l) / 2).
Definition minZ (l : LineSegments) : JS.number :=
  JS.add (vz (position l)) (- (bdepth (geometry l) / 2)).
Definition maxZ (l : LineSegments) : JS.number :=
  JS.add (vz (position l)) (bdepth (geometry l) / 2).

Definition columnTags : list Tag.t :=
  [ Tag.columnBase; Tag.column; Tag.columnTop ].

(** How many line segments the column block adds. *)
Definition columnsSize (cfg : BuildingConfig.t) : nat :=
  let columns := BaseConfig.columns (BuildingConfig.base cfg) in
  if Columns.enabled columns
  then 6 * JS.iterations (Columns.count columns)
       + 6 * JS.iterations (inject_Z (Qfloor (Columns.count columns * 0.75)))
  else 0.

(** How many line segments one floor adds. *)
Definition floorSize (cfg : BuildingConfig.t) (i : nat) (floorConfig : FloorConfig.t)
  : nat :=
  let counts := WindowConfig.countPerWall (FloorConfig.windows floorConfig) in
  1 + 8 * JS.iterations (CountPerWall.front counts)
  + 8 * JS.iterations (CountPerWall.side counts)
  + (if hasDivider cfg i (FloorConfig.divider floorConfig) then 31 else 0).

(** The objects of a floor divider and how many of each one divider has. *)
Definition dividerParts : list (Tag.t * nat) :=
  [ (Tag.dividerLine, 1%nat); (Tag.upperDividerLine, 1%nat);
    (Tag.lowerDividerLine, 1%nat);
    (Tag.accentLine, 8%nat); (Tag.backAccentLine, 8%nat);
    (Tag.leftAccentLine, 6%nat); (Tag.rightAccentLine, 6%nat) ].

(** The four parts of a window assembly of the left side wall and of its
    mirror image on the right side wall. *)
Definition sideParts : list Tag.t :=
  [ Tag.sideFrameLine; Tag.sidePaneLine;
    Tag.sideVerticalDividerLine; Tag.sideHorizontalDividerLine ].

Definition rightParts : list Tag.t :=
  [ Tag.rightFrameLine; Tag.rightPaneLine;
    Tag.rightVerticalDividerLine; Tag.rightHorizontalDividerLine ].

End Layout.

(* ================================================================== *)
(** ** Numbers: basic facts *)

Lemma Qltb_lt (a b : Q) : JS.Qltb a b = true <-> a < b.
Proof.
  unfold JS.Qltb. rewrite negb_true_iff.
  split; intro H.
  - apply Qnot_le_lt. intro Hle. apply Qle_bool_iff in Hle. congruence.
  - destruct (Qle_bool b a) eqn:E; [|reflexivity].
    apply Qle_bool_iff in E. exfalso. apply (Qlt_not_le _ _ H E).
Qed.

Lemma Qltb_ge (a b : Q) : JS.Qltb a b = false <-> b <= a.
Proof.
  unfold JS.Qltb. rewrite negb_false_iff. apply Qle_bool_iff.
Qed.

Lemma Qabs_minus_sym (a b : Q) : Qabs (a - b) == Qabs (b - a).
Proof.
  rewrite <- (Qabs_opp (a - b)).
  apply Qabs_wd. ring.
Qed.

Lemma Qltb_compat (a a' b b' : Q) :
  a == a' -> b == b' -> JS.Qltb a b = JS.Qltb a' b'.
Proof.
  intros Ha Hb. apply eq_true_iff_eq.
  rewrite !Qltb_lt, Ha, Hb. reflexivity.
Qed.

(* ================================================================== *)
(** ** The placement validator *)

Section Validator.

Import MapSystem.

(** The validator on a pair is the overlap test on the sizes in use. *)
Lemma pair_overlap (P O : BuildingData) :
  checkBuildingCollision P [O] = true
  <-> overlapCondition P O (usedWidth P) (usedWidth O) (usedDepth P) (usedDepth O).
Proof.
  unfold checkBuildingCollision, overlapCondition, usedWidth, usedDepth.
  cbn [existsb]. rewrite orb_false_r, andb_true_iff, !Qltb_lt. reflexivity.
Qed.

Lemma check_existsb (P : BuildingData) (l : list BuildingData) :
  checkBuildingCollision P l = existsb (fun O => checkBuildingCollision P [O]) l.
Proof.
  unfold checkBuildingCollision.
  induction l as [|O rest IH]; cbn [existsb]; [reflexivity|].
  now rewrite IH, orb_false_r.
Qed.

Lemma check_In (P O : BuildingData) (l : list BuildingData) :
  In O l -> checkBuildingCollision P [O] = true -> checkBuildingCollision P l = true.
Proof.
  intros Hin HO. rewrite check_existsb. apply existsb_exists. now exists O.
Qed.

Lemma pair_symmetric (A B : BuildingData) :
  checkBuildingCollision A [B] = checkBuildingCollision B [A].
Proof.
  unfold checkBuildingCollision. cbn [existsb]. rewrite !orb_false_r.
  f_equal; apply Qltb_compat;
    try apply Qabs_minus_sym; apply Qdiv_comp; try reflexivity; ring.
Qed.

(** [others buildings index] is [buildings] without the entry at [index]. *)
Lemma others_nth_error (buildings : list BuildingData) (index k : nat) :
  nth_error (others buildings index) k
  = nth_error buildings (if (k <? index)%nat then k else S k).
Proof.
  unfold others.
  destruct (Nat.ltb_spec k index) as [Hlt|Hge].
  - destruct (Nat.le_gt_cases (length buildings) k) as [Hlen|Hlen].
    + rewrite (proj2 (nth_error_None buildings k) Hlen).
      apply nth_error_None.
      rewrite length_app, length_firstn, length_skipn. lia.
    + rewrite nth_error_app1 by (rewrite length_firstn; lia).
      rewrite nth_error_firstn.
      apply Nat.ltb_lt in Hlt. now rewrite Hlt.
  - destruct (Nat.le_gt_cases (length buildings) index) as [Hlen|Hlen].
    + rewrite (proj2 (nth_error_None buildings (S k))) by lia.
      apply nth_error_None.
      rewrite length_app, length_firstn, length_skipn. lia.
    + rewrite nth_error_app2 by (rewrite length_firstn; lia).
      rewrite length_firstn, nth_error_skipn.
      f_equal. lia.
Qed.

Lemma others_In (buildings : list BuildingData) (i j : nat) (B : BuildingData) :
  i <> j -> nth_error buildings j = Some B -> In B (others buildings i).
Proof.
  intros Hij HB.
  destruct (Nat.lt_ge_cases j i) as [Hlt|Hge].
  - apply (nth_error_In _ j). rewrite others_nth_error.
    apply Nat.ltb_lt in Hlt. now rewrite Hlt.
  - apply (nth_error_In _ (j - 1)). rewrite others_nth_error.
    destruct (Nat.ltb_spec (j - 1) i); [lia|].
    replace (S (j - 1)) with j by lia. exact HB.
Qed.

Lemma filterFrom_In {A : Type} (f : A -> nat -> bool) (l : list A) :
  forall (start k : nat) (a : A),
    nth_error l k = Some a -> f a (start + k)%nat = true ->
    In a (filterFrom f start l).
Proof.
  induction l as [|b rest IH]; intros start k a Hk Hf.
  - destruct k; discriminate.
  - destruct k as [|k]; cbn in Hk |- *.
    + injection Hk as ->. rewrite Nat.add_0_r in Hf. rewrite Hf. now left.
    + assert (In a (filterFrom f (S start) rest)) as Hin.
      { apply (IH (S start) k); [exact Hk|].
        now replace (S start + k)%nat with (start + S k)%nat by lia. }
      destruct (f b start); [now right|exact Hin].
Qed.

Lemma filterFrom_incl {A : Type} (f : A -> nat -> bool) (l : list A) :
  forall (start : nat) (a : A),
    In a (filterFrom f start l) ->
    exists k, nth_error l k = Some a /\ f a (start + k)%nat = true.
Proof.
  induction l as [|b rest IH]; intros start a Hin; cbn in Hin.
  - contradiction.
  - destruct (f b start) eqn:Hb.
    + destruct Hin as [->|Hin].
      * exists 0%nat. now rewrite Nat.add_0_r.
      * destruct (IH _ _ Hin) as [k [Hk Hf]]. exists (S k). split; [exact Hk|].
        now replace (start + S k)%nat with (S start + k)%nat by lia.
    + destruct (IH _ _ Hin) as [k [Hk Hf]]. exists (S k). split; [exact Hk|].
      now replace (start + S k)%nat with (S start + k)%nat by lia.
Qed.

Lemma reported_In (buildings : list BuildingData) (i : nat) (A : BuildingData) :
  nth_error buildings i = Some A -> isColliding buildings A i = true ->
  In A (collidingBuildings buildings).
Proof.
  intros Hi Hc. unfold collidingBuildings.
  apply (filterFrom_In _ _ 0%nat i); assumption.
Qed.

Lemma pair_reported (buildings : list BuildingData) (i j : nat) (A B : BuildingData) :
  i <> j -> nth_error buildings i = Some A -> nth_error buildings j = Some B ->
  checkBuildingCollision A [B] = true ->
  isColliding buildings A i = true /\ isColliding buildings B j = true.
Proof.
  intros Hij HA HB Hov. unfold isColliding. split.
  - apply (check_In A B); [apply (others_In _ i j); assumption|exact Hov].
  - apply (check_In B A); [apply (others_In _ j i); auto|].
    now rewrite pair_symmetric.
Qed.

End Validator.

Section ValidatorClaims.

Import MapSystem.

(** C4.  For every placement list and any two placements A and B at
    different indices of it, A is reported as colliding with B exactly
    when B is reported as colliding with A, and when they are, both are
    in the result of the validator. *)
Theorem C4_collision_symmetric
    (buildings : list BuildingData) (i j : nat) (A B : BuildingData) :
  i <> j -> nth_error buildings i = Some A -> nth_error buildings j = Some B ->
  checkBuildingCollision A [B] = checkBuildingCollision B [A]
  /\ (checkBuildingCollision A [B] = true ->
      isColliding buildings A i = true /\ isColliding buildings B j = true
      /\ In A (collidingBuildings buildings) /\ In B (collidingBuildings buildings)).
Proof.
  intros Hij HA HB. split; [apply pair_symmetric|].
  intro Hov.
  destruct (pair_reported buildings i j A B Hij HA HB Hov) as [Hi Hj].
  repeat split; try assumption.
  - apply (reported_In _ i); assumption.
  - apply (reported_In _ j); assumption.
Qed.

(** Two unit footprints 0.4 apart. *)
Lemma C4_collision_symmetric_witness :
  (0 <> 1)%nat
  /\ nth_error [placement 10 10 (Some 1) (Some 1); placement 10.4 10 (Some 1) (Some 1)] 0
     = Some (placement 10 10 (Some 1) (Some 1))
  /\ nth_error [placement 10 10 (Some 1) (Some 1); placement 10.4 10 (Some 1) (Some 1)] 1
     = Some (placement 10.4 10 (Some 1) (Some 1))
  /\ checkBuildingCollision (placement 10 10 (Some 1) (Some 1))
                            [placement 10.4 10 (Some 1) (Some 1)]
     = checkBuildingCollision (placement 10.4 10 (Some 1) (Some 1))
                              [placement 10 10 (Some 1) (Some 1)].
Proof.
  assert ((0 <> 1)%nat) as Hne by discriminate.
  split; [exact Hne|].
  split; [reflexivity|].
  split; [reflexivity|].
  exact (proj1 (C4_collision_symmetric
                  [placement 10 10 (Some 1) (Some 1);
                   placement 10.4 10 (Some 1) (Some 1)]
                  0 1 _ _ Hne eq_refl eq_refl)).
Defined.

(** C8.  A placement that omits width or depth is tested as the same
    placement with width = 1 or depth = 1 supplied, whether it is the
    placement under test or one of the others, and the report of every
    index of a list is unchanged when the omitted sizes are written out;
    the test returns a boolean for every placement, there is no error. *)
Theorem C8_missing_size_is_one :
  (forall x z d l,
      checkBuildingCollision (placement x z None d) l
      = checkBuildingCollision (placement x z (Some 1) d) l)
  /\ (forall x z w l,
      checkBuildingCollision (placement x z w None) l
      = checkBuildingCollision (placement x z w (Some 1)) l)
  /\ (forall P x z d l,
      checkBuildingCollision P (placement x z None d :: l)
      = checkBuildingCollision P (placement x z (Some 1) d :: l))
  /\ (forall P x z w l,
      checkBuildingCollision P (placement x z w None :: l)
      = checkBuildingCollision P (placement x z w (Some 1) :: l))
  /\ (forall b l,
      checkBuildingCollision (withDefaults b) (map withDefaults l)
      = checkBuildingCollision b l)
  /\ (forall buildings b i,
      isColliding (map withDefaults buildings) (withDefaults b) i
      = isColliding buildings b i)
  /\ (forall b l, exists r : bool, checkBuildingCollision b l = r).
Proof.
  assert (forall b, usedWidth (withDefaults b) = usedWidth b) as Hw.
  { intro b. unfold usedWidth, withDefaults, specWidth. cbn.
    destruct (width b); reflexivity. }
  assert (forall b, usedDepth (withDefaults b) = usedDepth b) as Hd.
  { intro b. unfold usedDepth, withDefaults, specDepth. cbn.
    destruct (depth b); reflexivity. }
  assert (forall b l,
      checkBuildingCollision (withDefaults b) (map withDefaults l)
      = checkBuildingCollision b l) as Hall.
  { intros b l. unfold checkBuildingCollision.
    fold (usedWidth (withDefaults b)) (usedDepth (withDefaults b)).
    fold (usedWidth b) (usedDepth b). rewrite Hw, Hd.
    induction l as [|o rest IH]; [reflexivity|].
    cbn [map existsb]. rewrite IH.
    fold (usedWidth (withDefaults o)) (usedDepth (withDefaults o)).
    fold (usedWidth o) (usedDepth o). rewrite Hw, Hd. reflexivity. }
  repeat split; try reflexivity.
  - exact Hall.
  - intros buildings b i. unfold isColliding, others.
    rewrite firstn_map, skipn_map, <- map_app. apply Hall.
  - intros b l. now exists (checkBuildingCollision b l).
Qed.

End ValidatorClaims.

(* ================================================================== *)
(** ** Doubles: comparison, and a double against itself *)

Section Doubles.

Import Floats Double.

Lemma digits2_pos_bounds (m : positive) :
  (2 ^ (Zpos (digits2_pos m) - 1) <= Zpos m < 2 ^ Zpos (digits2_pos m))%Z.
Proof.
  assert (forall d : positive, (2 ^ Zpos d = 2 * 2 ^ (Zpos d - 1))%Z) as Hpow.
  { intro d. rewrite <- Z.pow_succ_r by lia. f_equal. lia. }
  induction m as [p IH|p IH|]; cbn [digits2_pos].
  - rewrite Pos2Z.inj_succ.
    replace (Z.succ (Zpos (digits2_pos p)) - 1)%Z with (Zpos (digits2_pos p)) by lia.
    rewrite Z.pow_succ_r by lia. rewrite (Hpow (digits2_pos p)) in *. lia.
  - rewrite Pos2Z.inj_succ.
    replace (Z.succ (Zpos (digits2_pos p)) - 1)%Z with (Zpos (digits2_pos p)) by lia.
    rewrite Z.pow_succ_r by lia. rewrite (Hpow (digits2_pos p)) in *. lia.
  - cbn. lia.
Qed.

(** What validity says of a finite double. *)
Lemma valid_finite (s : bool) (m : positive) (e : Z) :
  valid_binary (S754_finite s m e) = true ->
  (-1074 <= e)%Z
  /\ (Zpos m < 2 ^ 53)%Z
  /\ ((-1074 < e)%Z -> (2 ^ 52 <= Zpos m)%Z).
Proof.
  cbn [SpecFloat.valid_binary]. unfold bounded, canonical_mantissa, fexp.
  rewrite andb_true_iff, Z.eqb_eq, Z.leb_le.
  change (SpecFloat.emin prec emax) with (-1074)%Z. change prec with 53%Z.
  intros [Hc _].
  pose proof (digits2_pos_bounds m) as [Hlo Hhi].
  assert (Zpos (digits2_pos m) <= 53)%Z as Hd by lia.
  split; [lia|]. split.
  - apply (Z.lt_le_trans _ _ _ Hhi). apply Z.pow_le_mono_r; lia.
  - intro He. assert (Zpos (digits2_pos m) = 53%Z) as E by lia.
    rewrite E in Hlo. exact Hlo.
Qed.

Lemma scaled_positive (m : positive) (e : Z) :
  (-1074 <= e)%Z -> (0 < Zpos m * 2 ^ (e + 1074))%Z.
Proof.
  intro He. apply Z.mul_pos_pos; [lia|]. apply Z.pow_pos_nonneg; lia.
Qed.

Lemma scaled_lt (m1 m2 : positive) (e1 e2 : Z) :
  valid_binary (S754_finite false m1 e1) = true ->
  valid_binary (S754_finite false m2 e2) = true ->
  (e1 < e2)%Z ->
  (Zpos m1 * 2 ^ (e1 + 1074) < Zpos m2 * 2 ^ (e2 + 1074))%Z.
Proof.
  intros H1 H2 He.
  destruct (valid_finite _ _ _ H1) as [He1 [Hm1 _]].
  destruct (valid_finite _ _ _ H2) as [He2 [_ Hm2]].
  specialize (Hm2 ltac:(lia)).
  assert (0 < 2 ^ (e1 + 1074))%Z as Hp1 by (apply Z.pow_pos_nonneg; lia).
  assert (2 * 2 ^ (e1 + 1074) <= 2 ^ (e2 + 1074))%Z as Hp2.
  { rewrite <- Z.pow_succ_r by lia. apply Z.pow_le_mono_r; lia. }
  change (2 ^ 53)%Z with (2 * 2 ^ 52)%Z in Hm1.
  assert (0 < 2 ^ 52)%Z as H52 by reflexivity.
  remember (2 ^ 52)%Z as k. remember (2 ^ (e1 + 1074))%Z as a.
  remember (2 ^ (e2 + 1074))%Z as b.
  apply (Z.lt_le_trans _ (2 * k * a)); [nia|].
  apply (Z.le_trans _ (k * b)); nia.
Qed.

Lemma magnitude_compare (m1 m2 : positive) (e1 e2 : Z) :
  valid_binary (S754_finite false m1 e1) = true ->
  valid_binary (S754_finite false m2 e2) = true ->
  (Zpos m1 * 2 ^ (e1 + 1074) ?= Zpos m2 * 2 ^ (e2 + 1074))%Z
  = match (e1 ?= e2)%Z with
    | Lt => Lt
    | Gt => Gt
    | Eq => Pos.compare_cont Eq m1 m2
    end.
Proof.
  intros V1 V2. destruct (Z.compare_spec e1 e2) as [E|E|E].
  - subst e2. destruct (valid_finite _ _ _ V1) as [He _].
    rewrite <- Zmult_compare_compat_r
      by (apply Z.lt_gt; apply Z.pow_pos_nonneg; lia).
    reflexivity.
  - apply Z.compare_lt_iff. now apply scaled_lt.
  - apply Z.compare_gt_iff. now apply scaled_lt.
Qed.

(** Doubles compare as their values do. *)
Lemma compare_scaled (f1 f2 : spec_float) (n1 n2 : Z) :
  valid_binary f1 = true -> valid_binary f2 = true ->
  scaled f1 = Some n1 -> scaled f2 = Some n2 ->
  SFcompare f1 f2 = Some (n1 ?= n2)%Z.
Proof.
  intros V1 V2 S1 S2.
  destruct f1 as [s1| | |s1 m1 e1]; try discriminate S1;
    destruct f2 as [s2| | |s2 m2 e2]; try discriminate S2;
    cbn [scaled] in S1, S2; injection S1 as <-; injection S2 as <-;
    cbn [SFcompare].
  - reflexivity.
  - destruct (valid_finite _ _ _ V2) as [He _].
    pose proof (scaled_positive m2 e2 He) as Hp.
    destruct s2; cbn [cond_Zopp]; f_equal; symmetry.
    + apply Z.compare_gt_iff. lia.
    + apply Z.compare_lt_iff. lia.
  - destruct (valid_finite _ _ _ V1) as [He _].
    pose proof (scaled_positive m1 e1 He) as Hp.
    destruct s1; cbn [cond_Zopp]; f_equal; symmetry.
    + apply Z.compare_lt_iff. lia.
    + apply Z.compare_gt_iff. lia.
  - destruct (valid_finite _ _ _ V1) as [He1 _].
    destruct (valid_finite _ _ _ V2) as [He2 _].
    pose proof (scaled_positive m1 e1 He1) as Hp1.
    pose proof (scaled_positive m2 e2 He2) as Hp2.
    change (valid_binary (S754_finite s1 m1 e1))
      with (valid_binary (S754_finite false m1 e1)) in V1.
    change (valid_binary (S754_finite s2 m2 e2))
      with (valid_binary (S754_finite false m2 e2)) in V2.
    pose proof (magnitude_compare m1 m2 e1 e2 V1 V2) as Hm.
    f_equal. destruct s1, s2; cbn [cond_Zopp]; symmetry.
    + rewrite !Z.mul_opp_l, Z.compare_opp, Z.compare_antisym, Hm.
      now destruct (e1 ?= e2)%Z.
    + apply Z.compare_lt_iff. lia.
    + apply Z.compare_gt_iff. lia.
    + exact Hm.
Qed.

Lemma represents_scaled (f : float) (q : Q) :
  represents f q <->
  exists n, scaled (Prim2SF f) = Some n /\ inject_Z n / inject_Z scale == q.
Proof.
  unfold represents, value. destruct (scaled (Prim2SF f)) as [n|]; split.
  - intro H. now exists n.
  - intros [n' [E H]]. now injection E as ->.
  - contradiction.
  - intros [n' [E _]]. discriminate.
Qed.

Lemma scale_positive : 0 < inject_Z scale.
Proof. reflexivity. Qed.

Lemma scaled_order (n1 n2 : Z) :
  (inject_Z n1 / inject_Z scale < inject_Z n2 / inject_Z scale <-> (n1 < n2)%Z)
  /\ (inject_Z n1 / inject_Z scale == inject_Z n2 / inject_Z scale <-> n1 = n2).
Proof.
  pose proof scale_positive as Hu.
  split.
  - rewrite Zlt_Qlt. split; intro H.
    + apply (Qmult_lt_r _ _ (/ inject_Z scale)); [now apply Qinv_lt_0_compat|exact H].
    + apply (Qmult_lt_r _ _ (/ inject_Z scale)); [now apply Qinv_lt_0_compat|exact H].
  - rewrite <- inject_Z_injective. split; intro H.
    + apply (Qmult_inj_r _ _ (/ inject_Z scale)); [|exact H].
      intro E. apply (Qlt_irrefl 0). rewrite <- E at 2. now apply Qinv_lt_0_compat.
    + unfold Qdiv. now rewrite H.
Qed.


Lemma eqb_represents (a b : float) (qa qb : Q) :
  represents a qa -> represents b qb ->
  (PrimFloat.eqb a b = true <-> qa == qb).
Proof.
  intros Ha Hb.
  apply represents_scaled in Ha, Hb.
  destruct Ha as [na [Sa Ea]]. destruct Hb as [nb [Sb Eb]].
  rewrite eqb_spec. unfold SFeqb.
  rewrite (compare_scaled _ _ na nb (Prim2SF_valid a) (Prim2SF_valid b) Sa Sb).
  rewrite <- Ea, <- Eb, (proj2 (scaled_order na nb)).
  destruct (Z.compare_spec na nb); split; intro; try discriminate; try lia;
    reflexivity.
Qed.




Lemma valid_canonical (s : bool) (m : positive) (e : Z) :
  valid_binary (S754_finite s m e) = true ->
  fexp prec emax (Zpos (digits2_pos m) + e) = e /\ (e <= 971)%Z.
Proof.
  cbn [SpecFloat.valid_binary]. unfold bounded, canonical_mantissa.
  rewrite andb_true_iff, Z.eqb_eq, Z.leb_le. intros [Hc He].
  split; [exact Hc|exact He].
Qed.

Lemma fexp_eq (k : Z) : fexp prec emax k = Z.max (k - 53) (-1074).
Proof. reflexivity. Qed.

Lemma shr_fexp_canonical (m : positive) (e : Z) (l : location) :
  fexp prec emax (Zpos (digits2_pos m) + e) = e ->
  shr_fexp prec emax (Zpos m) e l = (shr_record_of_loc (Zpos m) l, e).
Proof.
  intro H. unfold shr_fexp. cbn [Zdigits2]. rewrite H, Z.sub_diag. reflexivity.
Qed.

(** A mantissa that fits is not rounded. *)
Lemma binary_round_aux_canonical (s : bool) (m : positive) (e : Z) :
  fexp prec emax (Zpos (digits2_pos m) + e) = e ->
  binary_round_aux prec emax s (Zpos m) e loc_Exact
  = if (e <=? emax - prec)%Z then S754_finite s m e else S754_infinity s.
Proof.
  intro H. unfold binary_round_aux.
  rewrite (shr_fexp_canonical m e loc_Exact H).
  cbn [shr_record_of_loc loc_of_shr_record shr_m round_nearest_even].
  rewrite (shr_fexp_canonical m e loc_Exact H).
  reflexivity.
Qed.

(** An even mantissa one bit too long loses its last bit. *)
Lemma binary_round_aux_even (s : bool) (m : positive) (e : Z) :
  fexp prec emax (Zpos (digits2_pos m) + (e + 1)) = (e + 1)%Z ->
  binary_round_aux prec emax s (Zpos m~0) e loc_Exact
  = if (e + 1 <=? emax - prec)%Z then S754_finite s m (e + 1)
    else S754_infinity s.
Proof.
  intro H. unfold binary_round_aux.
  assert (shr_fexp prec emax (Zpos m~0) e loc_Exact
          = ({| shr_m := Zpos m; shr_r := false; shr_s := false |}, (e + 1)%Z))
    as ->.
  { unfold shr_fexp. cbn [Zdigits2 digits2_pos]. rewrite Pos2Z.inj_succ.
    replace (Z.succ (Zpos (digits2_pos m)) + e)%Z
      with (Zpos (digits2_pos m) + (e + 1))%Z by lia.
    rewrite H. replace (e + 1 - e)%Z with 1%Z by lia. reflexivity. }
  cbn [shr_record_of_loc loc_of_shr_record shr_m round_nearest_even].
  rewrite (shr_fexp_canonical m (e + 1) loc_Exact H).
  reflexivity.
Qed.

(** [w + w] for a positive finite double. *)
Lemma add_self_finite (m : positive) (e : Z) :
  valid_binary (S754_finite false m e) = true ->
  SF64add (S754_finite false m e) (S754_finite false m e)
  = if (Zpos (digits2_pos m) =? 53)%Z
    then (if (e + 1 <=? emax - prec)%Z then S754_finite false m (e + 1)
          else S754_infinity false)
    else S754_finite false m~0 e.
Proof.
  intro V. destruct (valid_canonical _ _ _ V) as [Hc He].
  destruct (valid_finite _ _ _ V) as [Hmin _].
  pose proof (digits2_pos_bounds m) as Hd.
  rewrite fexp_eq in Hc.
  unfold SF64add, SFadd. rewrite Z.min_id. unfold shl_align at 1 2.
  rewrite Z.sub_diag. cbn [fst cond_Zopp Z.add].
  rewrite Pos.add_diag. cbn [binary_normalize]. unfold binary_round.
  cbn [digits2_pos]. rewrite Pos2Z.inj_succ.
  destruct (Z.eqb_spec (Zpos (digits2_pos m)) 53) as [E|E].
  - assert (fexp prec emax (Z.succ (Zpos (digits2_pos m)) + e) = e + 1)%Z as H1
      by (rewrite fexp_eq; lia).
    rewrite H1. unfold shl_align. replace (e + 1 - e)%Z with 1%Z by lia.
    apply binary_round_aux_even. rewrite fexp_eq. lia.
  - assert (Zpos (digits2_pos m) < 53)%Z as Hlt by lia.
    assert (fexp prec emax (Z.succ (Zpos (digits2_pos m)) + e) = e)%Z as H1
      by (rewrite fexp_eq; lia).
    rewrite H1. unfold shl_align. rewrite Z.sub_diag.
    rewrite binary_round_aux_canonical.
    + change (emax - prec)%Z with 971%Z.
      destruct (Z.leb_spec e 971); [reflexivity|lia].
    + cbn [digits2_pos]. rewrite Pos2Z.inj_succ. exact H1.
Qed.

Lemma Prim2SF_two : Prim2SF 2 = S754_finite false 4503599627370496 (-51).
Proof. reflexivity. Qed.

Lemma div_eucl_multiple (k : Z) :
  Z.div_eucl (k * 4503599627370496) 4503599627370496 = (k, 0%Z).
Proof.
  pose proof (Z.div_mul k 4503599627370496 ltac:(discriminate)) as Hq.
  pose proof (Z.mod_mul k 4503599627370496 ltac:(discriminate)) as Hr.
  unfold Z.div, Z.modulo in Hq, Hr.
  destruct (Z.div_eucl (k * 4503599627370496) 4503599627370496) as [q r].
  now subst.
Qed.

(** The quotient of an even multiple of the unit in the last place by 2,
    before rounding. *)
Lemma div_core_two (m1 : positive) (e1 e' : Z) (k : positive) (s : positive) :
  Z.min (fexp prec emax (Zpos (digits2_pos m1) + e1 - (53 + -51))) (e1 - -51) = e' ->
  (e1 - -51 - e' = Zpos s)%Z ->
  (Zpos m1 * 2 ^ Zpos s = Zpos k * 4503599627370496)%Z ->
  SFdiv_core_binary prec emax (Zpos m1) e1 (Zpos 4503599627370496) (-51)
  = (Zpos k, e', loc_Exact).
Proof.
  intros He Hs Hk. unfold SFdiv_core_binary.
  change (Zdigits2 (Zpos 4503599627370496)) with 53%Z. cbn [Zdigits2].
  rewrite He, Hs. rewrite Z.shiftl_mul_pow2 by lia. rewrite Hk.
  rewrite div_eucl_multiple. reflexivity.
Qed.

(** Halving the double of a positive finite double gives it back. *)
Lemma half_of_double (m : positive) (e : Z) :
  valid_binary (S754_finite false m e) = true ->
  SF64div (SF64add (S754_finite false m e) (S754_finite false m e))
          (S754_finite false 4503599627370496 (-51))
  = S754_finite false m e
  \/ SF64div (SF64add (S754_finite false m e) (S754_finite false m e))
             (S754_finite false 4503599627370496 (-51))
     = S754_infinity false.
Proof.
  intro V. rewrite (add_self_finite m e V).
  destruct (valid_canonical _ _ _ V) as [Hc He].
  destruct (valid_finite _ _ _ V) as [Hmin _].
  pose proof (digits2_pos_bounds m) as Hd.
  rewrite fexp_eq in Hc.
  destruct (Z.eqb_spec (Zpos (digits2_pos m)) 53) as [E|E].
  - change (emax - prec)%Z with 971%Z.
    destruct (Z.leb_spec (e + 1) 971) as [Hle|Hgt]; [left|right; reflexivity].
    unfold SF64div, SFdiv. cbn [xorb].
    destruct (Z.eq_dec e (-1074)) as [->|Hne].
    + rewrite (div_core_two m (-1074 + 1) (-1074) m 52).
      * rewrite binary_round_aux_canonical by (rewrite fexp_eq; lia).
        reflexivity.
      * rewrite fexp_eq, E. reflexivity.
      * reflexivity.
      * reflexivity.
    + rewrite (div_core_two m (e + 1) (e - 1) m~0 53).
      * replace (S754_finite false m e)
          with (S754_finite false m (e - 1 + 1)) by (f_equal; lia).
        rewrite binary_round_aux_even by (rewrite fexp_eq; lia).
        change (emax - prec)%Z with 971%Z.
        destruct (Z.leb_spec (e - 1 + 1) 971); [reflexivity|lia].
      * rewrite fexp_eq, E. lia.
      * lia.
      * change (2 ^ 53)%Z with (2 * 4503599627370496)%Z. lia.
  - left. assert (Zpos (digits2_pos m) < 53)%Z as Hlt by lia.
    assert (e = (-1074)%Z) as -> by lia.
    unfold SF64div, SFdiv. cbn [xorb].
    rewrite (div_core_two m~0 (-1074) (-1074) m 51).
    + rewrite binary_round_aux_canonical by (rewrite fexp_eq; lia).
      reflexivity.
    + cbn [digits2_pos]. rewrite Pos2Z.inj_succ, fexp_eq. lia.
    + reflexivity.
    + change (2 ^ 51)%Z with 2251799813685248%Z. lia.
Qed.

(** The difference of a finite double and itself is zero. *)
Lemma sub_self (f : float) (n : Z) :
  scaled (Prim2SF f) = Some n ->
  Prim2SF (abs (f - f)) = S754_zero false.
Proof.
  intro H. rewrite abs_spec, sub_spec. unfold SF64sub.
  destruct (Prim2SF f) as [s| | |s m e]; try discriminate H.
  - now destruct s.
  - unfold SFsub. rewrite Z.min_id. unfold shl_align. rewrite (Z.sub_diag e).
    cbn [fst]. rewrite Z.sub_diag. reflexivity.
Qed.


(** A positive number is not replaced by [||]. *)
Lemma positive_not_falsy (w : float) :
  (0 <? w)%float = true -> falsy w = false.
Proof.
  unfold falsy, is_nan. rewrite ltb_spec, !eqb_spec.
  change (Prim2SF 0) with (S754_zero false).
  unfold SFltb, SFeqb.
  destruct (Prim2SF w) as [s|s| |s m e]; cbn [SFcompare]; intro H;
    try discriminate H; destruct s; try discriminate H.
  - reflexivity.
  - rewrite Z.compare_refl, Pos.compare_cont_refl. reflexivity.
Qed.

(** [(w + w) / 2] is positive when [w] is: it is [w], or Infinity when
    [w + w] overflows. *)
Lemma positive_half_sum (w : float) :
  (0 <? w)%float = true -> (0 <? (w + w) / 2)%float = true.
Proof.
  rewrite !ltb_spec, div_spec, add_spec, Prim2SF_two.
  change (Prim2SF 0) with (S754_zero false).
  pose proof (Prim2SF_valid w) as V.
  destruct (Prim2SF w) as [s|s| |s m e]; intro H;
    try discriminate H; destruct s; try discriminate H.
  - reflexivity.
  - destruct (half_of_double m e V) as [-> | ->]; reflexivity.
Qed.

End Doubles.

(* ================================================================== *)
(** ** The placement validator in double precision *)

Section ValidatorDoubles.

Import Floats MapSystem64.

(** The validator on a pair is the comparison on the sizes in use. *)
Lemma pair_test (P O : BuildingData) :
  checkBuildingCollision P [O]
  = (abs (x P - x O) <? (usedWidth P + usedWidth O) / 2)%float
    && (abs (z P - z O) <? (usedDepth P + usedDepth O) / 2)%float.
Proof.
  unfold checkBuildingCollision. cbn [existsb]. apply orb_false_r.
Qed.

Lemma check64_existsb (P : BuildingData) (l : list BuildingData) :
  checkBuildingCollision P l = existsb (fun O => checkBuildingCollision P [O]) l.
Proof.
  unfold checkBuildingCollision.
  induction l as [|O rest IH]; cbn [existsb]; [reflexivity|].
  now rewrite IH, orb_false_r.
Qed.

(** On a footprint the sizes in use are the sizes defaulting to 1 when
    absent, and they are positive. *)
Lemma footprint_sizes (b : BuildingData) :
  footprint b = true ->
  Double.isFinite (x b) = true /\ Double.isFinite (z b) = true
  /\ (usedWidth b = specWidth b /\ (0 <? specWidth b)%float = true)
  /\ (usedDepth b = specDepth b /\ (0 <? specDepth b)%float = true).
Proof.
  unfold footprint, positive, usedWidth, usedDepth, specWidth, specDepth,
    Double.orElse.
  rewrite !andb_true_iff. intros [[[Hx Hz] Hw] Hd].
  split; [exact Hx|]. split; [exact Hz|]. split.
  - destruct (width b) as [w|]; [|split; reflexivity].
    rewrite (positive_not_falsy w Hw). split; [reflexivity|exact Hw].
  - destruct (depth b) as [d|]; [|split; reflexivity].
    rewrite (positive_not_falsy d Hd). split; [reflexivity|exact Hd].
Qed.

(** A footprint overlaps a copy of itself: [x - x] is 0 and
    [(w + w) / 2] is positive, whatever the rounding. *)
Lemma self_overlap (A : BuildingData) :
  footprint A = true -> checkBuildingCollision A [A] = true.
Proof.
  intro H. destruct (footprint_sizes A H) as [Hx [Hz [[Hw Hw'] [Hd Hd']]]].
  rewrite pair_test, Hw, Hd. apply andb_true_iff.
  assert (forall c w : float,
             Double.isFinite c = true -> (0 <? w)%float = true ->
             (abs (c - c) <? (w + w) / 2)%float = true) as Hself.
  { intros c w Hc Hpos. apply positive_half_sum in Hpos.
    rewrite ltb_spec in Hpos |- *.
    unfold Double.isFinite in Hc.
    destruct (Double.scaled (Prim2SF c)) as [n|] eqn:E; [|discriminate].
    rewrite (sub_self c n E). exact Hpos. }
  split; apply Hself; assumption.
Qed.

(** [others buildings index] is [buildings] without the entry at [index]. *)
Lemma others64_nth_error (buildings : list BuildingData) (index k : nat) :
  nth_error (others buildings index) k
  = nth_error buildings (if (k <? index)%nat then k else S k).
Proof.
  unfold others.
  destruct (Nat.ltb_spec k index) as [Hlt|Hge].
  - destruct (Nat.le_gt_cases (length buildings) k) as [Hlen|Hlen].
    + rewrite (proj2 (nth_error_None buildings k) Hlen).
      apply nth_error_None.
      rewrite length_app, length_firstn, length_skipn. lia.
    + rewrite nth_error_app1 by (rewrite length_firstn; lia).
      rewrite nth_error_firstn.
      apply Nat.ltb_lt in Hlt. now rewrite Hlt.
  - destruct (Nat.le_gt_cases (length buildings) index) as [Hlen|Hlen].
    + rewrite (proj2 (nth_error_None buildings (S k))) by lia.
      apply nth_error_None.
      rewrite length_app, length_firstn, length_skipn. lia.
    + rewrite nth_error_app2 by (rewrite length_firstn; lia).
      rewrite length_firstn, nth_error_skipn.
      f_equal. lia.
Qed.

Lemma others64_In (buildings : list BuildingData) (i j : nat) (B : BuildingData) :
  i <> j -> nth_error buildings j = Some B -> In B (others buildings i).
Proof.
  intros Hij HB.
  destruct (Nat.lt_ge_cases j i) as [Hlt|Hge].
  - apply (nth_error_In _ j). rewrite others64_nth_error.
    apply Nat.ltb_lt in Hlt. now rewrite Hlt.
  - apply (nth_error_In _ (j - 1)). rewrite others64_nth_error.
    destruct (Nat.ltb_spec (j - 1) i); [lia|].
    replace (S (j - 1)) with j by lia. exact HB.
Qed.

Lemma others64_In_inv (buildings : list BuildingData) (i : nat) (B : BuildingData) :
  In B (others buildings i) -> exists j, j <> i /\ nth_error buildings j = Some B.
Proof.
  intro H. apply In_nth_error in H. destruct H as [k Hk].
  rewrite others64_nth_error in Hk.
  destruct (Nat.ltb_spec k i).
  - exists k. split; [lia|exact Hk].
  - exists (S k). split; [lia|exact Hk].
Qed.

(** A placement is reported at an index exactly when a placement at
    another index passes the test against it. *)
Lemma isColliding64_iff (buildings : list BuildingData) (A : BuildingData) (i : nat) :
  isColliding buildings A i = true
  <-> exists j B, j <> i /\ nth_error buildings j = Some B
                  /\ checkBuildingCollision A [B] = true.
Proof.
  unfold isColliding. rewrite check64_existsb, existsb_exists. split.
  - intros [B [Hin Hov]]. destruct (others64_In_inv _ _ _ Hin) as [j [Hj HB]].
    now exists j, B.
  - intros [j [B [Hj [HB Hov]]]]. exists B. split; [|exact Hov].
    apply (others64_In _ i j); auto.
Qed.

Lemma collidingBuildings64_iff (buildings : list BuildingData) (A : BuildingData) :
  In A (collidingBuildings buildings)
  <-> exists i, nth_error buildings i = Some A /\ isColliding buildings A i = true.
Proof.
  unfold collidingBuildings. split.
  - intro H. apply filterFrom_incl in H. exact H.
  - intros [i [Hi Hc]]. apply (filterFrom_In _ _ 0%nat i); assumption.
Qed.




(** C9.  Self-comparison in the validator is excluded by list index, not
    by value: a placement is compared with the list without the entry at
    its own index, and with nothing else, so a list with one placement
    reports nothing.  If the list holds two value-identical placements at
    different indices, each is compared with the other copy and both are
    reported as colliding. *)
Theorem C9_self_excluded_by_index
    (buildings : list BuildingData) (i j : nat) (A : BuildingData) :
  i <> j -> nth_error buildings i = Some A -> nth_error buildings j = Some A ->
  footprint A = true ->
  (forall k, nth_error (others buildings i) k
             = nth_error buildings (if (k <? i)%nat then k else S k))
  /\ collidingBuildings [A] = []
  /\ In A (others buildings i) /\ In A (others buildings j)
  /\ isColliding buildings A i = true /\ isColliding buildings A j = true
  /\ In A (collidingBuildings buildings).
Proof.
  intros Hij Hi Hj HA.
  pose proof (self_overlap A HA) as Hself.
  assert (isColliding buildings A i = true) as Hri.
  { apply isColliding64_iff. exists j, A. auto. }
  assert (isColliding buildings A j = true) as Hrj.
  { apply isColliding64_iff. exists i, A. auto. }
  split; [intro k; apply others64_nth_error|].
  split; [reflexivity|].
  split; [apply (others64_In _ i j); assumption|].
  split; [apply (others64_In _ j i); auto|].
  split; [exact Hri|]. split; [exact Hrj|].
  apply collidingBuildings64_iff. now exists i.
Qed.

(** Two copies of one unit footprint. *)
Lemma C9_self_excluded_by_index_witness :
  ((0 <> 1)%nat
   /\ nth_error [placement 5 5 (Some 1%float) None;
                 placement 5 5 (Some 1%float) None] 0
      = Some (placement 5 5 (Some 1%float) None)
   /\ nth_error [placement 5 5 (Some 1%float) None;
                 placement 5 5 (Some 1%float) None] 1
      = Some (placement 5 5 (Some 1%float) None)
   /\ footprint (placement 5 5 (Some 1%float) None) = true)
  /\ isColliding [placement 5 5 (Some 1%float) None;
                  placement 5 5 (Some 1%float) None]
                 (placement 5 5 (Some 1%float) None) 0 = true
  /\ isColliding [placement 5 5 (Some 1%float) None;
                  placement 5 5 (Some 1%float) None]
                 (placement 5 5 (Some 1%float) None) 1 = true.
Proof.
  assert ((0 <> 1)%nat) as Hne by discriminate.
  assert (footprint (placement 5 5 (Some 1%float) None) = true) as Hf
    by reflexivity.
  split; [exact (conj Hne (conj eq_refl (conj eq_refl Hf)))|].
  pose proof (C9_self_excluded_by_index
                [placement 5 5 (Some 1%float) None;
                 placement 5 5 (Some 1%float) None]
                0 1 _ Hne eq_refl eq_refl Hf) as H.
  exact (conj (proj1 (proj2 (proj2 (proj2 (proj2 H)))))
              (proj1 (proj2 (proj2 (proj2 (proj2 (proj2 H))))))).
Defined.

(** X1.  The validator is sound and complete for its pair test: a
    placement is in the result exactly when it stands at some index of
    the list and, for a placement at another index, the program finds
    [|dx| < (w + w') / 2] and [|dz| < (d + d') / 2] on the doubles it
    computes, with the sizes in use (1 for a size that is absent, 0 or
    NaN). *)
Theorem X1_reported_exactly_when_overlapping
    (buildings : list BuildingData) (A : BuildingData) :
  In A (collidingBuildings buildings)
  <-> exists i j B,
        i <> j /\ nth_error buildings i = Some A /\ nth_error buildings j = Some B
        /\ (abs (x A - x B) <? (usedWidth A + usedWidth B) / 2)%float = true
        /\ (abs (z A - z B) <? (usedDepth A + usedDepth B) / 2)%float = true.
Proof.
  rewrite collidingBuildings64_iff. split.
  - intros [i [Hi Hc]]. apply isColliding64_iff in Hc.
    destruct Hc as [j [B [Hj [HB Hov]]]]. exists i, j, B.
    rewrite pair_test in Hov. apply andb_true_iff in Hov. auto.
  - intros [i [j [B [Hij [Hi [Hj Hov]]]]]]. exists i. split; [exact Hi|].
    apply isColliding64_iff. exists j, B.
    rewrite pair_test. split; [auto|]. split; [exact Hj|].
    apply andb_true_iff. exact Hov.
Qed.

End ValidatorDoubles.

(* ================================================================== *)
(** ** Loops *)

Lemma iterations_lt (n : Q) (j : nat) :
  (j < JS.iterations n)%nat <-> JS.ofNat j < n.
Proof.
  unfold JS.iterations, JS.ofNat.
  pose proof (Qle_ceiling n) as Hup.
  pose proof (Qceiling_lt n) as Hlow.
  split; intro H.
  - assert (Z.of_nat j <= Qceiling n - 1)%Z as Hz by lia.
    rewrite Zle_Qle in Hz.
    apply (Qle_lt_trans _ _ _ Hz Hlow).
  - assert (inject_Z (Z.of_nat j) < inject_Z (Qceiling n)) as Hq
      by (apply (Qlt_le_trans _ _ _ H Hup)).
    rewrite <- Zlt_Qlt in Hq. lia.
Qed.

Lemma iterations_integer (n : Q) (k : Z) :
  n == inject_Z k -> JS.iterations n = Z.to_nat k.
Proof.
  intro H. unfold JS.iterations. now rewrite H, Qceiling_Z.
Qed.

Lemma In_forLoop {A : Type} (n : Q) (body : nat -> list A) (e : A) :
  In e (JS.forLoop n body)
  <-> exists j, (j < JS.iterations n)%nat /\ In e (body j).
Proof.
  unfold JS.forLoop. rewrite in_flat_map. split.
  - intros [j [Hj He]]. exists j. apply in_seq in Hj. split; [lia|exact He].
  - intros [j [Hj He]]. exists j. split; [apply in_seq; lia|exact He].
Qed.

Lemma forEachThrowing_flat_map {A : Type}
    (body : nat -> option (list A)) (g : nat -> list A) (indices : list nat) :
  (forall i, In i indices -> body i = Some (g i)) ->
  BuildingScene.forEachThrowing body indices = Some (flat_map g indices).
Proof.
  induction indices as [|i rest IH]; intro H; [reflexivity|].
  cbn. rewrite (H i (or_introl eq_refl)), IH; [reflexivity|].
  intros k Hk. apply H. now right.
Qed.

Lemma forEachThrowing_defined {A : Type}
    (body : nat -> option (list A)) (indices : list nat) (out : list A) :
  BuildingScene.forEachThrowing body indices = Some out ->
  forall i, In i indices -> exists added, body i = Some added.
Proof.
  revert out. induction indices as [|i rest IH]; intros out H k Hk.
  - contradiction.
  - cbn in H. destruct (body i) as [added|] eqn:Hi; [|discriminate].
    destruct (BuildingScene.forEachThrowing body rest) as [more|] eqn:Hrest;
      [|discriminate].
    destruct Hk as [<-|Hk]; [now exists added|].
    apply (IH more eq_refl k Hk).
Qed.

Lemma forEachThrowing_In {A : Type}
    (body : nat -> option (list A)) (indices : list nat) (out : list A) :
  BuildingScene.forEachThrowing body indices = Some out ->
  forall e, In e out
            <-> exists i added, In i indices /\ body i = Some added /\ In e added.
Proof.
  revert out. induction indices as [|i rest IH]; intros out H e.
  - injection H as <-. split; [contradiction|]. now intros [i [a [[] _]]].
  - cbn in H. destruct (body i) as [added|] eqn:Hi; [|discriminate].
    destruct (BuildingScene.forEachThrowing body rest) as [more|] eqn:Hrest;
      [|discriminate].
    injection H as <-. rewrite in_app_iff, (IH more eq_refl e). split.
    + intros [He|[k [a [Hk [Hb He]]]]].
      * exists i, added. repeat split; [now left|assumption..].
      * exists k, a. repeat split; [now right|assumption..].
    + intros [k [a [[<-|Hk] [Hb He]]]].
      * left. rewrite Hi in Hb. now injection Hb as <-.
      * right. now exists k, a.
Qed.

(* ================================================================== *)
(** ** The base and the roof *)

Section Stacks.

Import BuildingScene.

Ltac rational :=
  unfold Qdiv; change (/ 2) with (1 # 2); lra.

(** C5, as worded, on [buildingConfig]: the top trim of the base reaches
    up to y = 0.77, above y = 0. *)
Lemma C5_base_above_zero_counterexample :
  ~ (forall e, In e (basePass buildingConfig) -> le (topY (snd e)) (JS.Fin 0)).
Proof.
  intro H.
  specialize (H (Tag.topTrimLine, topTrimLine buildingConfig)).
  assert (In (Tag.topTrimLine, topTrimLine buildingConfig) (basePass buildingConfig))
    as Hin by (right; right; left; reflexivity).
  specialize (H Hin). vm_compute in H. apply H. reflexivity.
Qed.

(** C5 (amended).  Of the three base primitives the outer platform is the
    one that sits below y = 0: it is centred at -h/2 and spans from -h up
    to y = 0, where h is the height of the base.  The middle layer is
    centred at y = 0 and spans from -0.15 h to 0.15 h; the top trim is
    centred at 0.25 h, rests on the middle layer and reaches 0.35 h.  For
    h > 0 the middle layer and the top trim extend above y = 0. *)
Theorem C5_base_stack (cfg : BuildingConfig.t) :
  let h := BaseConfig.height (BuildingConfig.base cfg) in
  basePass cfg = [ (Tag.baseLine, baseLine cfg);
                   (Tag.middleLayerLine, middleLayerLine cfg);
                   (Tag.topTrimLine, topTrimLine cfg) ]
  /\ JS.same (centerY (baseLine cfg)) (JS.Fin (- (h / 2)))
  /\ JS.same (bottomY (baseLine cfg)) (JS.Fin (- h))
  /\ JS.same (topY (baseLine cfg)) (JS.Fin 0)
  /\ JS.same (centerY (middleLayerLine cfg)) (JS.Fin 0)
  /\ JS.same (bottomY (middleLayerLine cfg)) (JS.Fin (- (0.15 * h)))
  /\ JS.same (topY (middleLayerLine cfg)) (JS.Fin (0.15 * h))
  /\ JS.same (centerY (topTrimLine cfg)) (JS.Fin (0.25 * h))
  /\ stackedOn (middleLayerLine cfg) (topTrimLine cfg)
  /\ JS.same (topY (topTrimLine cfg)) (JS.Fin (0.35 * h))
  /\ (0 < h ->
      forall e, In e (basePass cfg) ->
                le (topY (snd e)) (JS.Fin 0) <-> fst e = Tag.baseLine).
Proof.
  intro h. subst h.
  split; [reflexivity|].
  repeat (split; [cbn; rational|]).
  intros Hh e He.
  destruct He as [<-|[<-|[<-|[]]]]; cbn;
    (split; [intro H; try reflexivity; exfalso; revert H Hh; rational
            |intro H; try discriminate H; rational]).
Qed.

(** The base of [buildingConfig], of height 2.2. *)
Lemma C5_base_stack_witness :
  0 < BaseConfig.height (BuildingConfig.base buildingConfig)
  /\ (forall e, In e (basePass buildingConfig) ->
                le (topY (snd e)) (JS.Fin 0) <-> fst e = Tag.baseLine).
Proof.
  assert (0 < BaseConfig.height (BuildingConfig.base buildingConfig)) as Hh
    by reflexivity.
  split; [exact Hh|].
  exact (proj2 (proj2 (proj2 (proj2 (proj2 (proj2 (proj2 (proj2 (proj2 (proj2
           (C5_base_stack buildingConfig)))))))))) Hh).
Defined.

(** C2, as worded, on [buildingConfig]: the roof trim ends at y = 41.2, so
    a tower base stacked on it would be centred at 41.7; it is centred at
    41.4, on the roof slab. *)
Lemma C2_tower_base_counterexample :
  ~ consecutive stackedOn (roofStack buildingConfig).
Proof.
  intros [_ [H _]]. vm_compute in H. discriminate.
Qed.

(** C2 (amended).  The roof slab starts at the top of the floors,
    [numFloors * floorHeight].  The roof trim and the tower base each
    have their centre at the top of the roof slab plus half of their own
    height; tower main, tower top and spire each have their centre at the
    top of the previous tower stage plus half of their own height.  So
    slab, tower base, tower main, tower top and spire follow one another
    without gap or overlap, and the tower base is stacked on the roof
    trim only when the trim has height 0. *)
Theorem C2_roof_stack (cfg : BuildingConfig.t) :
  let roof := BuildingConfig.roof cfg in
  JS.same (bottomY (roofLine cfg))
          (JS.Fin (BuildingConfig.numFloors cfg * BuildingConfig.floorHeight cfg))
  /\ stackedOn (roofLine cfg) (roofTrimLine cfg)
  /\ stackedOn (roofLine cfg) (towerBaseLine cfg)
  /\ consecutive stackedOn
       [ roofLine cfg; towerBaseLine cfg; towerLine cfg;
         towerTopLine cfg; spireLine cfg ]
  /\ (stackedOn (roofTrimLine cfg) (towerBaseLine cfg)
      <-> Trim.height (RoofConfig.trim roof) == 0)
  /\ (forall l, In l (roofStack cfg) <-> exists t,
        In (t, l) (firstn 6 (roofPass cfg))).
Proof.
  intro roof. subst roof.
  split; [cbn; unfold roofBaseY; rational|].
  split; [cbn; unfold roofBaseY; rational|].
  split; [cbn; unfold roofBaseY; rational|].
  split; [cbn; unfold roofBaseY; repeat split; rational|].
  split; [cbn; unfold roofBaseY; split; intro H; revert H; rational|].
  intro l. cbn. split.
  - intros [<-|[<-|[<-|[<-|[<-|[<-|[]]]]]]]; eexists; eauto 10.
  - intros [t [H|[H|[H|[H|[H|[H|[]]]]]]]]; injection H as _ <-; auto 10.
Qed.

End Stacks.

(* ================================================================== *)
(** ** The scene as a whole *)

Section Scene.

Import BuildingScene.

Variable cfg : BuildingConfig.t.

Lemma floorPass_Some (i : nat) (added : list Entry) :
  floorPass cfg i = Some added
  <-> exists floorConfig,
        nth_error (BuildingConfig.floors cfg) i = Some floorConfig
        /\ added = floorBody cfg i floorConfig.
Proof.
  unfold floorPass.
  destruct (nth_error (BuildingConfig.floors cfg) i) as [fc|]; split.
  - intro H. injection H as <-. now exists fc.
  - intros [fc' [H ->]]. now injection H as ->.
  - discriminate.
  - intros [fc' [H _]]. discriminate.
Qed.

(** Every entry of the scene comes from one of the five blocks. *)
Lemma scene_In (s : list Entry) :
  scene cfg = Some s ->
  forall e,
    In e s
    <-> In e (basePass cfg) \/ In e (columnsPass cfg) \/ In e (cornersPass cfg)
        \/ (exists i floorConfig,
              (i < JS.iterations (BuildingConfig.numFloors cfg))%nat
              /\ nth_error (BuildingConfig.floors cfg) i = Some floorConfig
              /\ In e (floorBody cfg i floorConfig))
        \/ In e (roofPass cfg).
Proof.
  unfold scene, floorsPass, forLoopThrowing.
  destruct (forEachThrowing _ _) as [fl|] eqn:Hfl; [|discriminate].
  intros H e.
  assert (s = basePass cfg ++ columnsPass cfg ++ cornersPass cfg
              ++ fl ++ roofPass cfg) as -> by congruence.
  clear H. rewrite !in_app_iff, (forEachThrowing_In _ _ _ Hfl e).
  assert ((exists i added,
             In i (seq 0 (JS.iterations (BuildingConfig.numFloors cfg)))
             /\ floorPass cfg i = Some added /\ In e added)
          <-> (exists i floorConfig,
                 (i < JS.iterations (BuildingConfig.numFloors cfg))%nat
                 /\ nth_error (BuildingConfig.floors cfg) i = Some floorConfig
                 /\ In e (floorBody cfg i floorConfig))) as Hmid.
  { split.
    - intros [i [added [Hi [Hp He]]]].
      apply floorPass_Some in Hp. destruct Hp as [fc [Hfc ->]].
      exists i, fc. apply in_seq in Hi. repeat split; [lia|assumption..].
    - intros [i [fc [Hi [Hfc He]]]].
      exists i, (floorBody cfg i fc). repeat split; [apply in_seq; lia| |exact He].
      apply floorPass_Some. now exists fc. }
  rewrite Hmid. tauto.
Qed.

(** The effect runs to its end exactly when every floor has a
    configuration. *)
Lemma scene_defined :
  (JS.iterations (BuildingConfig.numFloors cfg)
   <= length (BuildingConfig.floors cfg))%nat
  <-> scene cfg
      = Some (basePass cfg ++ columnsPass cfg ++ cornersPass cfg
              ++ flat_map (floorEntries cfg)
                   (seq 0 (JS.iterations (BuildingConfig.numFloors cfg)))
              ++ roofPass cfg).
Proof.
  unfold scene, floorsPass, forLoopThrowing. split.
  - intro Hlen.
    rewrite (forEachThrowing_flat_map (floorPass cfg) (floorEntries cfg));
      [reflexivity|].
    intros i Hi. apply in_seq in Hi. unfold floorPass, floorEntries.
    destruct (nth_error (BuildingConfig.floors cfg) i) eqn:E; [reflexivity|].
    apply nth_error_None in E. lia.
  - destruct (forEachThrowing _ _) as [fl|] eqn:Hfl; [|discriminate].
    intros _.
    destruct (Nat.le_gt_cases (JS.iterations (BuildingConfig.numFloors cfg))
                (length (BuildingConfig.floors cfg))) as [H|H]; [exact H|].
    exfalso.
    destruct (forEachThrowing_defined _ _ _ Hfl
                (length (BuildingConfig.floors cfg))) as [added Ha].
    { apply in_seq. lia. }
    apply floorPass_Some in Ha. destruct Ha as [fc [Hfc _]].
    assert (nth_error (BuildingConfig.floors cfg)
                      (length (BuildingConfig.floors cfg)) = None) as Hn
      by (apply nth_error_None; lia).
    congruence.
Qed.

End Scene.

(* ================================================================== *)
(** ** Counts and validity *)

Section Validity.

Import BuildingScene.

Lemma positive_lt (q : Q) : positive q = true <-> 0 < q.
Proof. apply Qltb_lt. Qed.

Lemma isCount_integer (q : Q) :
  isCount q = true -> exists k : Z, (1 <= k)%Z /\ q == inject_Z k.
Proof.
  unfold isCount, isInteger. rewrite andb_true_iff, Qeq_bool_iff, Qle_bool_iff.
  intros [Hint Hge]. exists (Qfloor q). split; [|exact Hint].
  rewrite Hint in Hge. change 1 with (inject_Z 1) in Hge.
  now rewrite <- Zle_Qle in Hge.
Qed.

Lemma isCount_iterations (q : Q) :
  isCount q = true ->
  JS.ofNat (JS.iterations q) == q /\ (1 <= JS.iterations q)%nat.
Proof.
  intro H. destruct (isCount_integer q H) as [k [Hk Hq]].
  rewrite (iterations_integer q k Hq). split; [|lia].
  unfold JS.ofNat. rewrite Z2Nat.id by lia. now rewrite Hq.
Qed.

Lemma valid_floors (cfg : BuildingConfig.t) :
  structurallyValid cfg = true ->
  JS.iterations (BuildingConfig.numFloors cfg) = length (BuildingConfig.floors cfg)
  /\ forall i floorConfig,
       nth_error (BuildingConfig.floors cfg) i = Some floorConfig ->
       validFloor floorConfig = true.
Proof.
  unfold structurallyValid. rewrite !andb_true_iff.
  intros [[[[[[[_ _] _] _] Hlen] Hall] _] _]. split.
  - apply Qeq_bool_iff in Hlen.
    rewrite (iterations_integer _ (Z.of_nat (length (BuildingConfig.floors cfg)))).
    + apply Nat2Z.id.
    + symmetry. exact Hlen.
  - intros i fc Hfc. rewrite forallb_forall in Hall.
    apply Hall. apply (nth_error_In _ i). exact Hfc.
Qed.

Lemma valid_scene (cfg : BuildingConfig.t) :
  structurallyValid cfg = true ->
  scene cfg
  = Some (basePass cfg ++ columnsPass cfg ++ cornersPass cfg
          ++ flat_map (floorEntries cfg) (seq 0 (length (BuildingConfig.floors cfg)))
          ++ roofPass cfg).
Proof.
  intro Hv. destruct (valid_floors cfg Hv) as [Hlen _].
  rewrite <- Hlen. apply scene_defined. lia.
Qed.

End Validity.

(* ================================================================== *)
(** ** Windows *)

Section Windows.

Import BuildingScene.

Ltac rational :=
  unfold Qdiv; change (/ 2) with (1 # 2); lra.

Lemma frontWindow_in_floorBody
    (cfg : BuildingConfig.t) (i j : nat) (floorConfig : FloorConfig.t) (e : Entry) :
  JS.ofNat j
  < CountPerWall.front (WindowConfig.countPerWall (FloorConfig.windows floorConfig)) ->
  In e (frontWindow cfg i (FloorConfig.windows floorConfig) j) ->
  In e (floorBody cfg i floorConfig).
Proof.
  intros Hj He. unfold floorBody. right. apply in_or_app. left.
  apply In_forLoop. exists j. split; [now apply iterations_lt|exact He].
Qed.

(** C7.  For every floor i and every front-wall window index j
    (0 <= j < countFront), the pass of the window loop starts with the
    four parts frame, pane, vertical divider, horizontal divider, which
    are in the scene, each at x = -halfWidth + spacing + j (windowWidth +
    spacing), y = i floorHeight + windowHeight / 2, z = +halfDepth. *)
Theorem C7_front_window_position
    (cfg : BuildingConfig.t) (s : list Entry)
    (i j : nat) (floorConfig : FloorConfig.t) :
  scene cfg = Some s ->
  JS.ofNat i < BuildingConfig.numFloors cfg ->
  nth_error (BuildingConfig.floors cfg) i = Some floorConfig ->
  JS.ofNat j
  < CountPerWall.front (WindowConfig.countPerWall (FloorConfig.windows floorConfig)) ->
  let windows := FloorConfig.windows floorConfig in
  let halfWidth := BuildingConfig.width cfg / 2 in
  let halfDepth := BuildingConfig.depth cfg / 2 in
  let assembly := firstn 4 (frontWindow cfg i windows j) in
  map fst assembly = frontParts
  /\ forall part, In part assembly ->
       In part s
       /\ JS.same (vx (position (snd part)))
            (JS.Fin (- halfWidth + WindowConfig.spacing windows
                     + JS.ofNat j * (WindowConfig.width windows
                                     + WindowConfig.spacing windows)))
       /\ JS.same (vy (position (snd part)))
            (JS.Fin (JS.ofNat i * BuildingConfig.floorHeight cfg
                     + WindowConfig.height windows / 2))
       /\ JS.same (vz (position (snd part))) (JS.Fin halfDepth).
Proof.
  intros Hs Hi Hfc Hj windows halfWidth halfDepth assembly.
  split; [reflexivity|].
  intros part Hpart. split.
  - apply (scene_In cfg s Hs). right. right. right. left.
    exists i, floorConfig. split; [now apply iterations_lt|]. split; [exact Hfc|].
    apply (frontWindow_in_floorBody cfg i j); [exact Hj|].
    destruct Hpart as [<-|[<-|[<-|[<-|[]]]]]; cbn; auto 10.
  - subst assembly halfWidth halfDepth.
    destruct Hpart as [<-|[<-|[<-|[<-|[]]]]]; cbn;
      unfold windowX, windowY, windowZ; repeat split; rational.
Qed.

(** The last window of the top floor of [buildingConfig]. *)
Lemma C7_front_window_position_witness :
  (scene buildingConfig
   = Some (basePass buildingConfig ++ columnsPass buildingConfig
           ++ cornersPass buildingConfig
           ++ flat_map (floorEntries buildingConfig)
                (seq 0 (length (BuildingConfig.floors buildingConfig)))
           ++ roofPass buildingConfig)
   /\ JS.ofNat 11 < BuildingConfig.numFloors buildingConfig
   /\ nth_error (BuildingConfig.floors buildingConfig) 11 = Some floorConfig
   /\ JS.ofNat 4
      < CountPerWall.front
          (WindowConfig.countPerWall (FloorConfig.windows floorConfig)))
  /\ JS.same
       (vx (position (frameLine buildingConfig 11 (FloorConfig.windows floorConfig) 4)))
       (JS.Fin (- (BuildingConfig.width buildingConfig / 2) + 3.8
                + JS.ofNat 4 * (1.8 + 3.8))).
Proof.
  pose proof (valid_scene buildingConfig eq_refl) as Hs.
  assert (JS.ofNat 11 < BuildingConfig.numFloors buildingConfig) as Hi
    by reflexivity.
  assert (nth_error (BuildingConfig.floors buildingConfig) 11 = Some floorConfig)
    as Hfc by reflexivity.
  assert (JS.ofNat 4
          < CountPerWall.front
              (WindowConfig.countPerWall (FloorConfig.windows floorConfig))) as Hj
    by reflexivity.
  split; [exact (conj Hs (conj Hi (conj Hfc Hj)))|].
  exact (proj1 (proj2 (proj2 (C7_front_window_position
                                buildingConfig _ 11 4 floorConfig Hs Hi Hfc Hj)
                                (Tag.frameLine, _) (or_introl eq_refl)))).
Defined.

(** In what one floor adds, every back, right or other-side object has
    its counterpart. *)
Lemma floorBody_mirror
    (cfg : BuildingConfig.t) (i : nat) (floorConfig : FloorConfig.t)
    (t t' : Tag.t) (a : Axis) (p : LineSegments) :
  In (t, p) (floorBody cfg i floorConfig) ->
  counterpart t = Some (t', a) ->
  exists p', In (t', p') (floorBody cfg i floorConfig) /\ mirrorOf a p p'.
Proof.
  unfold floorBody. intros Hin Hc.
  destruct Hin as [H|Hin]; [injection H as <- <-; discriminate Hc|].
  apply in_app_or in Hin. destruct Hin as [Hin|Hin].
  { apply In_forLoop in Hin. destruct Hin as [j [Hj Hin]].
    assert (forall e, In e (frontWindow cfg i (FloorConfig.windows floorConfig) j) ->
                      In e (floorBody cfg i floorConfig)) as Hback.
    { intros e He. unfold floorBody. right. apply in_or_app. left.
      apply In_forLoop. now exists j. }
    destruct Hin as [H|[H|[H|[H|[H|[H|[H|[H|[]]]]]]]]];
      injection H as <- <-; try discriminate Hc;
      injection Hc as <- <-;
      (eexists; split; [apply Hback; cbn; eauto 10|]);
      unfold mirrorOf; cbn; unfold windowZ; repeat split; rational. }
  apply in_app_or in Hin. destruct Hin as [Hin|Hin].
  { apply In_forLoop in Hin. destruct Hin as [j [Hj Hin]].
    assert (forall e, In e (sideWindow cfg i (FloorConfig.windows floorConfig) j) ->
                      In e (floorBody cfg i floorConfig)) as Hback.
    { intros e He. unfold floorBody. right. apply in_or_app. right.
      apply in_or_app. left. apply In_forLoop. now exists j. }
    destruct Hin as [H|[H|[H|[H|[H|[H|[H|[H|[]]]]]]]]];
      injection H as <- <-; try discriminate Hc;
      injection Hc as <- <-;
      (eexists; split; [apply Hback; cbn; eauto 10|]);
      unfold mirrorOf; cbn; unfold sideWindowX; repeat split; rational. }
  assert (forall e, In e (dividerPass cfg i (FloorConfig.divider floorConfig)) ->
                    In e (floorBody cfg i floorConfig)) as Hback.
  { intros e He. unfold floorBody. right. apply in_or_app. right.
    apply in_or_app. now right. }
  unfold dividerPass in Hin, Hback.
  destruct (JS.Qltb (JS.ofNat i) (BuildingConfig.numFloors cfg - 1)
            && Divider.enabled (FloorConfig.divider floorConfig));
    [|contradiction].
  apply in_app_or in Hin. destruct Hin as [Hin|Hin].
  { destruct Hin as [H|[H|[H|[]]]]; injection H as <- <-; discriminate Hc. }
  apply in_app_or in Hin. destruct Hin as [Hin|Hin].
  - apply In_forLoop in Hin. destruct Hin as [j [Hj Hin]].
    destruct Hin as [H|[H|[]]]; injection H as <- <-; try discriminate Hc.
    injection Hc as <- <-.
    exists (accentLine cfg i (FloorConfig.divider floorConfig) j). split.
    + apply Hback. apply in_or_app. right. apply in_or_app. left.
      apply In_forLoop. exists j. split; [exact Hj|now left].
    + unfold mirrorOf; cbn; repeat split; rational.
  - apply In_forLoop in Hin. destruct Hin as [j [Hj Hin]].
    destruct Hin as [H|[H|[]]]; injection H as <- <-; try discriminate Hc.
    injection Hc as <- <-.
    exists (leftAccentLine cfg i (FloorConfig.divider floorConfig) j). split.
    + apply Hback. apply in_or_app. right. apply in_or_app. right.
      apply In_forLoop. exists j. split; [exact Hj|now left].
    + unfold mirrorOf; cbn; repeat split; rational.
Qed.

Lemma roofPass_mirror
    (cfg : BuildingConfig.t) (t t' : Tag.t) (a : Axis) (p : LineSegments) :
  In (t, p) (roofPass cfg) ->
  counterpart t = Some (t', a) ->
  exists p', In (t', p') (roofPass cfg) /\ mirrorOf a p p'.
Proof.
  intros Hin Hc. unfold roofPass in Hin.
  repeat (destruct Hin as [H|Hin];
          [injection H as <- <-; try discriminate Hc;
           injection Hc as <- <-;
           (eexists; split; [unfold roofPass; cbn; eauto 20|]);
           unfold mirrorOf; cbn; repeat split; rational|]).
  contradiction.
Qed.

Lemma unmirrored_passes
    (cfg : BuildingConfig.t) (t : Tag.t) (p : LineSegments) :
  In (t, p) (basePass cfg) \/ In (t, p) (columnsPass cfg)
  \/ In (t, p) (cornersPass cfg) ->
  counterpart t = None.
Proof.
  intros [Hin|[Hin|Hin]].
  - destruct Hin as [H|[H|[H|[]]]]; now injection H as <- <-.
  - unfold columnsPass in Hin.
    destruct (Columns.enabled _); [|contradiction].
    apply In_forLoop in Hin. destruct Hin as [side [_ Hin]].
    apply In_forLoop in Hin. destruct Hin as [i [_ Hin]].
    destruct Hin as [H|[H|[H|[]]]]; now injection H as <- <-.
  - apply In_forLoop in Hin. destruct Hin as [i [_ Hin]].
    destruct Hin as [H|[]]. now injection H as <- <-.
Qed.

(** C3.  For every back, right or other-side primitive of the scene (the
    parts of the back windows and of the right side windows, the back and
    right divider accents, the back and right parapets and their top
    trims) the scene holds the counterpart it is cloned from, with the
    same geometry, the same colour, the same two other coordinates, and
    the opposite value of the mirrored coordinate. *)
Theorem C3_mirrored_counterpart
    (cfg : BuildingConfig.t) (s : list Entry)
    (t t' : Tag.t) (a : Axis) (p : LineSegments) :
  scene cfg = Some s ->
  In (t, p) s ->
  counterpart t = Some (t', a) ->
  exists p',
    In (t', p') s
    /\ geometry p = geometry p'
    /\ color p = color p'
    /\ vy (position p) = vy (position p')
    /\ coordinate (otherAxis a) p = coordinate (otherAxis a) p'
    /\ JS.same (coordinate a p) (JS.neg (coordinate a p')).
Proof.
  intros Hs Hin Hc.
  apply (scene_In cfg s Hs) in Hin.
  destruct Hin as [Hin|[Hin|[Hin|[Hin|Hin]]]].
  - rewrite (unmirrored_passes cfg t p) in Hc by tauto. discriminate.
  - rewrite (unmirrored_passes cfg t p) in Hc by tauto. discriminate.
  - rewrite (unmirrored_passes cfg t p) in Hc by tauto. discriminate.
  - destruct Hin as [i [fc [Hi [Hfc Hin]]]].
    destruct (floorBody_mirror cfg i fc t t' a p Hin Hc) as [p' [Hp' Hm]].
    exists p'. split; [|exact Hm].
    apply (scene_In cfg s Hs). right. right. right. left. now exists i, fc.
  - destruct (roofPass_mirror cfg t t' a p Hin Hc) as [p' [Hp' Hm]].
    exists p'. split; [|exact Hm].
    apply (scene_In cfg s Hs). tauto.
Qed.

(** The back parapet of [buildingConfig]. *)
Lemma C3_mirrored_counterpart_witness :
  (scene buildingConfig
   = Some (basePass buildingConfig ++ columnsPass buildingConfig
           ++ cornersPass buildingConfig
           ++ flat_map (floorEntries buildingConfig)
                (seq 0 (length (BuildingConfig.floors buildingConfig)))
           ++ roofPass buildingConfig)
   /\ In (Tag.backParapetLine, backParapetLine buildingConfig)
         (basePass buildingConfig ++ columnsPass buildingConfig
          ++ cornersPass buildingConfig
          ++ flat_map (floorEntries buildingConfig)
               (seq 0 (length (BuildingConfig.floors buildingConfig)))
          ++ roofPass buildingConfig)
   /\ counterpart Tag.backParapetLine = Some (Tag.frontParapetLine, AxisZ))
  /\ exists p',
       In (Tag.frontParapetLine, p')
          (basePass buildingConfig ++ columnsPass buildingConfig
           ++ cornersPass buildingConfig
           ++ flat_map (floorEntries buildingConfig)
                (seq 0 (length (BuildingConfig.floors buildingConfig)))
           ++ roofPass buildingConfig)
       /\ geometry (backParapetLine buildingConfig) = geometry p'
       /\ color (backParapetLine buildingConfig) = color p'
       /\ vy (position (backParapetLine buildingConfig)) = vy (position p')
       /\ coordinate (otherAxis AxisZ) (backParapetLine buildingConfig)
          = coordinate (otherAxis AxisZ) p'
       /\ JS.same (coordinate AxisZ (backParapetLine buildingConfig))
                  (JS.neg (coordinate AxisZ p')).
Proof.
  pose proof (valid_scene buildingConfig eq_refl) as Hs.
  assert (In (Tag.backParapetLine, backParapetLine buildingConfig)
             (basePass buildingConfig ++ columnsPass buildingConfig
              ++ cornersPass buildingConfig
              ++ flat_map (floorEntries buildingConfig)
                   (seq 0 (length (BuildingConfig.floors buildingConfig)))
              ++ roofPass buildingConfig)) as Hin.
  { do 4 (apply in_or_app; right). unfold roofPass. cbn. auto 20. }
  split; [exact (conj Hs (conj Hin eq_refl))|].
  exact (C3_mirrored_counterpart buildingConfig _ _ _ _ _ Hs Hin eq_refl).
Defined.

End Windows.

(* ================================================================== *)
(** ** Counting the window assemblies *)

Section Counting.

Import BuildingScene.

Lemma countTag_app (t : Tag.t) (l1 l2 : list Entry) :
  countTag t (l1 ++ l2) = (countTag t l1 + countTag t l2)%nat.
Proof.
  unfold countTag. now rewrite filter_app, length_app.
Qed.

Lemma countTag_forLoop (t : Tag.t) (n : Q) (body : nat -> list Entry) (c : nat) :
  (forall j, countTag t (body j) = c) ->
  countTag t (JS.forLoop n body) = (c * JS.iterations n)%nat.
Proof.
  intro H. unfold JS.forLoop.
  remember (seq 0 (JS.iterations n)) as l eqn:El.
  replace (JS.iterations n) with (length l) by (subst l; apply length_seq).
  clear El. induction l as [|j rest IH]; cbn [flat_map length].
  - now rewrite Nat.mul_0_r.
  - rewrite countTag_app, H, IH. lia.
Qed.

Lemma countTag_dividerPass
    (cfg : BuildingConfig.t) (i : nat) (divider : Divider.t) (t : Tag.t) :
  In t (frontParts ++ backParts) ->
  countTag t (dividerPass cfg i divider) = 0%nat.
Proof.
  intro Ht. unfold dividerPass.
  destruct (JS.Qltb _ _ && Divider.enabled divider); [|reflexivity].
  rewrite !countTag_app.
  rewrite (countTag_forLoop t _ _ 0), (countTag_forLoop t _ _ 0).
  - cbn in Ht.
    destruct Ht as [<-|[<-|[<-|[<-|[<-|[<-|[<-|[<-|[]]]]]]]]]; reflexivity.
  - intro j. cbn in Ht.
    destruct Ht as [<-|[<-|[<-|[<-|[<-|[<-|[<-|[<-|[]]]]]]]]]; reflexivity.
  - intro j. cbn in Ht.
    destruct Ht as [<-|[<-|[<-|[<-|[<-|[<-|[<-|[<-|[]]]]]]]]]; reflexivity.
Qed.

(** Every part of the front assembly and of the back assembly occurs once
    per pass of the front window loop and nowhere else in the floor. *)
Lemma countTag_floorBody
    (cfg : BuildingConfig.t) (i : nat) (floorConfig : FloorConfig.t) (t : Tag.t) :
  In t (frontParts ++ backParts) ->
  countTag t (floorBody cfg i floorConfig)
  = JS.iterations
      (CountPerWall.front (WindowConfig.countPerWall (FloorConfig.windows floorConfig))).
Proof.
  intro Ht. unfold floorBody.
  change ((Tag.line, line cfg i) :: ?l) with ([(Tag.line, line cfg i)] ++ l).
  rewrite !countTag_app, (countTag_dividerPass cfg i _ t Ht).
  rewrite (countTag_forLoop t _ (frontWindow cfg i _) 1),
          (countTag_forLoop t _ (sideWindow cfg i _) 0).
  - cbn in Ht.
    destruct Ht as [<-|[<-|[<-|[<-|[<-|[<-|[<-|[<-|[]]]]]]]]]; cbn; lia.
  - intro j. cbn in Ht.
    destruct Ht as [<-|[<-|[<-|[<-|[<-|[<-|[<-|[<-|[]]]]]]]]]; reflexivity.
  - intro j. cbn in Ht.
    destruct Ht as [<-|[<-|[<-|[<-|[<-|[<-|[<-|[<-|[]]]]]]]]]; reflexivity.
Qed.

(** C6.  For every structurally valid configuration the scene is the
    five blocks in order, with one floor block per floor, and in the
    block of every floor the number of front-wall window assemblies
    (frames, and likewise panes and the two dividers) is
    countPerWall.front of that floor, and the number of back-wall
    assemblies is the same number. *)
Theorem C6_window_count_fidelity (cfg : BuildingConfig.t) :
  structurallyValid cfg = true ->
  scene cfg
  = Some (basePass cfg ++ columnsPass cfg ++ cornersPass cfg
          ++ flat_map (floorEntries cfg) (seq 0 (length (BuildingConfig.floors cfg)))
          ++ roofPass cfg)
  /\ forall i floorConfig,
       nth_error (BuildingConfig.floors cfg) i = Some floorConfig ->
       floorEntries cfg i = floorBody cfg i floorConfig
       /\ JS.ofNat (countTag Tag.frameLine (floorEntries cfg i))
          == CountPerWall.front
               (WindowConfig.countPerWall (FloorConfig.windows floorConfig))
       /\ (forall t, In t frontParts ->
             countTag t (floorEntries cfg i)
             = countTag Tag.frameLine (floorEntries cfg i))
       /\ (forall t, In t backParts ->
             countTag t (floorEntries cfg i)
             = countTag Tag.frameLine (floorEntries cfg i)).
Proof.
  intro Hv. split; [now apply valid_scene|].
  intros i fc Hfc.
  assert (floorEntries cfg i = floorBody cfg i fc) as ->
    by (unfold floorEntries; now rewrite Hfc).
  split; [reflexivity|].
  destruct (valid_floors cfg Hv) as [_ Hfloors].
  specialize (Hfloors i fc Hfc). unfold validFloor in Hfloors.
  rewrite !andb_true_iff in Hfloors.
  destruct Hfloors as [[[[_ Hfront] _] _] _].
  rewrite (countTag_floorBody cfg i fc Tag.frameLine)
    by (cbn; auto).
  split; [apply (isCount_iterations _ Hfront)|].
  split; intros t Ht; apply countTag_floorBody; apply in_or_app; auto.
Qed.

(** The fourth floor of [buildingConfig]: five windows front and back. *)
Lemma C6_window_count_fidelity_witness :
  structurallyValid buildingConfig = true
  /\ nth_error (BuildingConfig.floors buildingConfig) 3 = Some floorConfig
  /\ JS.ofNat (countTag Tag.frameLine (floorEntries buildingConfig 3)) == 5
  /\ countTag Tag.backFrameLine (floorEntries buildingConfig 3)
     = countTag Tag.frameLine (floorEntries buildingConfig 3).
Proof.
  assert (structurallyValid buildingConfig = true) as Hv by reflexivity.
  assert (nth_error (BuildingConfig.floors buildingConfig) 3 = Some floorConfig)
    as Hfc by reflexivity.
  split; [exact Hv|]. split; [exact Hfc|].
  pose proof (proj2 (C6_window_count_fidelity buildingConfig Hv) 3%nat floorConfig Hfc)
    as H.
  split.
  - exact (proj1 (proj2 H)).
  - exact (proj2 (proj2 (proj2 H)) Tag.backFrameLine (or_introl eq_refl)).
Defined.

End Counting.

(* ================================================================== *)
(** ** Columns *)

Section ColumnsPass.

Import BuildingScene.

Lemma div_by_zero (a b : Q) :
  b == 0 -> JS.isFinite (JS.div (JS.Fin a) (JS.Fin b)) = false.
Proof.
  intro Hb. apply Qeq_bool_iff in Hb. cbn. rewrite Hb.
  unfold JS.signed. destruct (Qeq_bool a 0), (JS.Qltb 0 a); reflexivity.
Qed.

Lemma div_by_nonzero (a b : Q) :
  ~ b == 0 -> JS.div (JS.Fin a) (JS.Fin b) = JS.Fin (a / b).
Proof.
  intro Hb. cbn. destruct (Qeq_bool b 0) eqn:E; [|reflexivity].
  apply Qeq_bool_iff in E. contradiction.
Qed.

Lemma nonfinite_offset (a i : Q) (s : JS.number) :
  JS.isFinite s = false ->
  JS.isFinite (JS.add (JS.Fin a) (JS.mul (JS.Fin i) s)) = false.
Proof.
  destruct s; intro H; try discriminate H; cbn; unfold JS.signed;
    destruct (Qeq_bool i 0), (JS.Qltb 0 i); reflexivity.
Qed.

Variable cfg : BuildingConfig.t.

(** A wall whose count is 1 has no finite column position. *)
Lemma degenerate_wall (side i : nat) :
  sideCount cfg side - 1 == 0 -> JS.isFinite (columnPos cfg side i) = false.
Proof.
  intro H. unfold columnPos, columnSpacing.
  apply nonfinite_offset. now apply div_by_zero.
Qed.

Lemma regular_wall (side i : nat) :
  ~ sideCount cfg side - 1 == 0 -> JS.isFinite (columnPos cfg side i) = true.
Proof.
  intro H. unfold columnPos, columnSpacing.
  now rewrite (div_by_nonzero _ _ H).
Qed.

Lemma columnAt_finite (side i : nat) (e : Entry) :
  In e (columnAt cfg side i) ->
  finitePosition (snd e) = JS.isFinite (columnPos cfg side i).
Proof.
  unfold columnAt. remember (columnPos cfg side i) as pos eqn:Epos.
  clear Epos. intro He.
  destruct He as [<-|[<-|[<-|[]]]]; unfold finitePosition, setPosition;
    cbn [snd position vx vy vz];
    destruct (isXAxis side), (isPositive side); cbn [JS.isFinite andb];
    now rewrite ?andb_true_r.
Qed.

Lemma columnAt_alongWall (side i : nat) (e : Entry) :
  In e (columnAt cfg side i) -> alongWall side (snd e) = columnPos cfg side i.
Proof.
  unfold columnAt, alongWall. remember (columnPos cfg side i) as pos eqn:Epos.
  clear Epos. intro He.
  destruct He as [<-|[<-|[<-|[]]]]; unfold setPosition;
    cbn [snd position vx vy vz];
    destruct (isXAxis side); reflexivity.
Qed.

Lemma columnsOnSide_in_pass (side : nat) (e : Entry) :
  Columns.enabled (BaseConfig.columns (BuildingConfig.base cfg)) = true ->
  (side < 4)%nat -> In e (columnsOnSide cfg side) -> In e (columnsPass cfg).
Proof.
  intros Hen Hside He. unfold columnsPass. rewrite Hen.
  apply In_forLoop. exists side. split; [exact Hside|exact He].
Qed.

Lemma columnsPass_In (e : Entry) :
  In e (columnsPass cfg) ->
  exists side i, (side < 4)%nat /\ In e (columnAt cfg side i).
Proof.
  unfold columnsPass.
  destruct (Columns.enabled _); [|contradiction].
  intro He. apply In_forLoop in He. destruct He as [side [Hside He]].
  apply In_forLoop in He. destruct He as [i [_ He]].
  now exists side, i.
Qed.

(** On a wall with count 1 the one column that is placed is not at a
    finite position. *)
Lemma degenerate_wall_entry (side : nat) :
  sideCount cfg side == 1 ->
  exists e, In e (columnsOnSide cfg side) /\ finitePosition (snd e) = false.
Proof.
  intro H1.
  exists (Tag.columnBase,
          setPosition (lineSegments (columnBaseGeometry cfg))
            (if isXAxis side then columnPos cfg side 0
             else if isPositive side
                  then JS.Fin (BaseConfig.width (BuildingConfig.base cfg) / 2)
                  else JS.Fin (- BaseConfig.width (BuildingConfig.base cfg) / 2))
            (JS.Fin (- BaseConfig.height (BuildingConfig.base cfg) * 0.4))
            (if isXAxis side
             then (if isPositive side
                   then JS.Fin (BaseConfig.depth (BuildingConfig.base cfg) / 2)
                   else JS.Fin (- BaseConfig.depth (BuildingConfig.base cfg) / 2))
             else columnPos cfg side 0)).
  assert (In (Tag.columnBase,
          setPosition (lineSegments (columnBaseGeometry cfg))
            (if isXAxis side then columnPos cfg side 0
             else if isPositive side
                  then JS.Fin (BaseConfig.width (BuildingConfig.base cfg) / 2)
                  else JS.Fin (- BaseConfig.width (BuildingConfig.base cfg) / 2))
            (JS.Fin (- BaseConfig.height (BuildingConfig.base cfg) * 0.4))
            (if isXAxis side
             then (if isPositive side
                   then JS.Fin (BaseConfig.depth (BuildingConfig.base cfg) / 2)
                   else JS.Fin (- BaseConfig.depth (BuildingConfig.base cfg) / 2))
             else columnPos cfg side 0)) (columnAt cfg side 0)) as Hat
    by (left; reflexivity).
  split.
  - apply In_forLoop. exists 0%nat. split; [|exact Hat].
    apply iterations_lt. rewrite H1. reflexivity.
  - rewrite (columnAt_finite side 0 _ Hat).
    apply degenerate_wall. rewrite H1. reflexivity.
Qed.

End ColumnsPass.

Section ColumnsClaim.

Import BuildingScene.

Lemma wall_counts (cfg : BuildingConfig.t) (side : nat) :
  (2 <= Qfloor (Columns.count (BaseConfig.columns (BuildingConfig.base cfg)) * 0.75))%Z ->
  ~ sideCount cfg side - 1 == 0.
Proof.
  intros Hf.
  pose proof (Qfloor_le
    (Columns.count (BaseConfig.columns (BuildingConfig.base cfg)) * 0.75)) as Hle.
  rewrite Zle_Qle in Hf. change (inject_Z 2) with 2 in Hf.
  unfold sideCount. destruct (isXAxis side); lra.
Qed.

Lemma reduced_count_small (count : Q) (k : Z) :
  count == inject_Z k -> (2 <= k)%Z -> (1 <= Qfloor (count * 0.75))%Z.
Proof.
  intros Hc Hk.
  change 1%Z with (Qfloor 1).
  apply Qfloor_resp_le. rewrite Hc.
  rewrite Zle_Qle in Hk. change (inject_Z 2) with 2 in Hk. lra.
Qed.

(** C10.  [buildingConfig] with columns.count = 2 is structurally valid
    and has its columns enabled; on its two side walls the reduced count
    is floor(0.75 * 2) = 1, the spacing divides by count - 1 = 0 and is
    not finite, and each of the three parts of the one column placed
    there has NaN as its position along the wall.  For a count that is a
    whole number of at least 1, the column positions are all finite
    exactly when floor(0.75 count) >= 2; and for any count, if each of the
    four sides has columns and all of them are at finite positions, then
    floor(0.75 count) >= 2. *)
Theorem C10_side_columns_degenerate :
  (structurallyValid (withColumnCount buildingConfig 2) = true
   /\ Columns.enabled
        (BaseConfig.columns (BuildingConfig.base (withColumnCount buildingConfig 2)))
      = true
   /\ Columns.count
        (BaseConfig.columns (BuildingConfig.base (withColumnCount buildingConfig 2)))
      = 2
   /\ forall side, In side [1; 3]%nat ->
        isXAxis side = false
        /\ sideCount (withColumnCount buildingConfig 2) side
           = inject_Z (Qfloor (2 * 0.75))
        /\ sideCount (withColumnCount buildingConfig 2) side == 1
        /\ JS.isFinite (columnSpacing (withColumnCount buildingConfig 2) side) = false
        /\ (forall e, In e (columnsOnSide (withColumnCount buildingConfig 2) side) ->
                      In e (columnsPass (withColumnCount buildingConfig 2)))
        /\ map (fun e => alongWall side (snd e))
               (columnsOnSide (withColumnCount buildingConfig 2) side)
           = [JS.NaN; JS.NaN; JS.NaN])
  /\ (forall cfg,
        Columns.enabled (BaseConfig.columns (BuildingConfig.base cfg)) = true ->
        isCount (Columns.count (BaseConfig.columns (BuildingConfig.base cfg))) = true ->
        ((forall e, In e (columnsPass cfg) -> finitePosition (snd e) = true)
         <-> (2 <= Qfloor (Columns.count
                             (BaseConfig.columns (BuildingConfig.base cfg)) * 0.75))%Z))
  /\ (forall cfg,
        Columns.enabled (BaseConfig.columns (BuildingConfig.base cfg)) = true ->
        (forall side, (side < 4)%nat ->
           columnsOnSide cfg side <> []
           /\ forall e, In e (columnsOnSide cfg side) -> finitePosition (snd e) = true) ->
        (2 <= Qfloor (Columns.count
                        (BaseConfig.columns (BuildingConfig.base cfg)) * 0.75))%Z).
Proof.
  split; [|split].
  - split; [reflexivity|]. split; [reflexivity|]. split; [reflexivity|].
    intros side [<-|[<-|[]]];
      (repeat (split; [reflexivity|]); split; [|reflexivity]);
      intros e He;
      apply (columnsOnSide_in_pass (withColumnCount buildingConfig 2) _ e eq_refl)
        in He; (exact He || lia).
  - intros cfg Hen Hcount. split.
    + intro Hfin.
      destruct (isCount_integer _ Hcount) as [k [Hk Hq]].
      destruct (Z.le_gt_cases 2
                  (Qfloor (Columns.count
                             (BaseConfig.columns (BuildingConfig.base cfg)) * 0.75)))
        as [H|H]; [exact H|exfalso].
      assert (exists side, (side < 4)%nat /\ sideCount cfg side == 1)
        as [side [Hside H1]].
      { destruct (Z.eq_dec k 1) as [->|Hne].
        - exists 0%nat. split; [lia|exact Hq].
        - exists 1%nat. split; [lia|].
          pose proof (reduced_count_small _ k Hq ltac:(lia)) as Hlow.
          unfold sideCount. cbn [isXAxis Nat.modulo Nat.divmod snd Nat.eqb Nat.sub].
          replace (Qfloor (Columns.count
                             (BaseConfig.columns (BuildingConfig.base cfg)) * 0.75))
            with 1%Z by lia.
          reflexivity. }
      destruct (degenerate_wall_entry cfg side H1) as [e [He Hbad]].
      rewrite (Hfin e) in Hbad; [discriminate|].
      now apply (columnsOnSide_in_pass cfg side).
    + intros Hf e He.
      destruct (columnsPass_In cfg e He) as [side [i [_ Hat]]].
      rewrite (columnAt_finite cfg side i e Hat).
      apply regular_wall. now apply wall_counts.
  - intros cfg Hen Hall.
    destruct (Hall 1%nat ltac:(lia)) as [Hne Hfin].
    assert (0 < sideCount cfg 1) as Hpos.
    { apply (iterations_lt _ 0). unfold columnsOnSide, JS.forLoop in Hne.
      destruct (JS.iterations (sideCount cfg 1)); [now contradiction Hne|lia]. }
    unfold sideCount in Hpos.
    cbn [isXAxis Nat.modulo Nat.divmod snd Nat.eqb Nat.sub] in Hpos.
    change 0 with (inject_Z 0) in Hpos. rewrite <- Zlt_Qlt in Hpos.
    destruct (Z.le_gt_cases 2
                (Qfloor (Columns.count
                           (BaseConfig.columns (BuildingConfig.base cfg)) * 0.75)))
      as [H|H]; [exact H|exfalso].
    assert (sideCount cfg 1 == 1) as H1.
    { unfold sideCount. cbn [isXAxis Nat.modulo Nat.divmod snd Nat.eqb Nat.sub].
      replace (Qfloor (Columns.count
                         (BaseConfig.columns (BuildingConfig.base cfg)) * 0.75))
        with 1%Z by lia.
      reflexivity. }
    destruct (degenerate_wall_entry cfg 1 H1) as [e [He Hbad]].
    rewrite (Hfin e He) in Hbad. discriminate.
Qed.

(** [buildingConfig] itself, with 4 columns: floor(3) = 3 on the sides. *)
Lemma C10_side_columns_degenerate_witness :
  (Columns.enabled (BaseConfig.columns (BuildingConfig.base buildingConfig)) = true
   /\ isCount (Columns.count (BaseConfig.columns (BuildingConfig.base buildingConfig)))
      = true
   /\ (2 <= Qfloor (Columns.count
                      (BaseConfig.columns (BuildingConfig.base buildingConfig)) * 0.75))%Z)
  /\ forall e, In e (columnsPass buildingConfig) -> finitePosition (snd e) = true.
Proof.
  assert (2 <= Qfloor (Columns.count
                         (BaseConfig.columns (BuildingConfig.base buildingConfig))
                       * 0.75))%Z as Hf
    by (vm_compute; discriminate).
  split; [exact (conj eq_refl (conj eq_refl Hf))|].
  exact (proj2 (proj1 (proj2 C10_side_columns_degenerate)
                  buildingConfig eq_refl eq_refl) Hf).
Defined.

End ColumnsClaim.

(* ================================================================== *)
(** ** More on the placement validator *)

Section ValidatorMore.

Import MapSystem.

Lemma others_In_inv (buildings : list BuildingData) (i : nat) (B : BuildingData) :
  In B (others buildings i) -> exists j, j <> i /\ nth_error buildings j = Some B.
Proof.
  intro H. apply In_nth_error in H. destruct H as [k Hk].
  rewrite others_nth_error in Hk.
  destruct (Nat.ltb_spec k i).
  - exists k. split; [lia|exact Hk].
  - exists (S k). split; [lia|exact Hk].
Qed.

(** A placement is reported at an index exactly when a placement at
    another index overlaps it. *)
Lemma isColliding_iff (buildings : list BuildingData) (A : BuildingData) (i : nat) :
  isColliding buildings A i = true
  <-> exists j B, j <> i /\ nth_error buildings j = Some B
                  /\ checkBuildingCollision A [B] = true.
Proof.
  unfold isColliding. rewrite check_existsb, existsb_exists. split.
  - intros [B [Hin Hov]]. destruct (others_In_inv _ _ _ Hin) as [j [Hj HB]].
    now exists j, B.
  - intros [j [B [Hj [HB Hov]]]]. exists B. split; [|exact Hov].
    apply (others_In _ i j); auto.
Qed.

Lemma collidingBuildings_iff (buildings : list BuildingData) (A : BuildingData) :
  In A (collidingBuildings buildings)
  <-> exists i, nth_error buildings i = Some A /\ isColliding buildings A i = true.
Proof.
  unfold collidingBuildings. split.
  - intro H. apply filterFrom_incl in H. exact H.
  - intros [i [Hi Hc]]. apply (filterFrom_In _ _ 0%nat i); assumption.
Qed.

Lemma filterFrom_nil {A : Type} (f : A -> nat -> bool) (l : list A) :
  forall start,
    (forall k a, nth_error l k = Some a -> f a (start + k)%nat = false) ->
    filterFrom f start l = [].
Proof.
  induction l as [|b rest IH]; intros start H; [reflexivity|].
  cbn. rewrite <- (Nat.add_0_r start) at 1. rewrite (H 0%nat b eq_refl).
  apply IH. intros k a Hk.
  replace (S start + k)%nat with (start + S k)%nat by lia. now apply H.
Qed.

Lemma filterFrom_two {A : Type} (f : A -> nat -> bool) (l : list A) :
  forall start i j a b,
    (i < j)%nat -> nth_error l i = Some a -> nth_error l j = Some b ->
    f a (start + i)%nat = true -> f b (start + j)%nat = true ->
    (2 <= length (filterFrom f start l))%nat.
Proof.
  induction l as [|c rest IH]; intros start i j a b Hij Hi Hj Ha Hb.
  - destruct i; discriminate.
  - destruct j as [|j]; [lia|]. cbn in Hj.
    destruct i as [|i]; cbn in Hi.
    + injection Hi as ->. rewrite Nat.add_0_r in Ha. cbn. rewrite Ha.
      assert (In b (filterFrom f (S start) rest)) as Hin.
      { apply (filterFrom_In _ _ (S start) j); [exact Hj|].
        now replace (S start + j)%nat with (start + S j)%nat by lia. }
      destruct (filterFrom f (S start) rest); [contradiction|cbn; lia].
    + assert (2 <= length (filterFrom f (S start) rest))%nat as H2.
      { apply (IH (S start) i j a b); try assumption; try lia.
        - now replace (S start + i)%nat with (start + S i)%nat by lia.
        - now replace (S start + j)%nat with (start + S j)%nat by lia. }
      cbn. destruct (f c start); cbn; lia.
Qed.

(** Two whole numbers less than 1 apart are equal. *)
Lemma integers_close (p q : Q) (a b : Z) :
  p == inject_Z a -> q == inject_Z b -> Qabs (p - q) < 1 -> p == q.
Proof.
  intros Hp Hq H. apply Qabs_Qlt_condition in H. destruct H as [Hlo Hhi].
  rewrite Hp, Hq in Hlo, Hhi |- *.
  assert (inject_Z a - inject_Z b == inject_Z (a - b)) as E.
  { unfold Zminus. rewrite inject_Z_plus, inject_Z_opp. ring. }
  rewrite E in Hlo, Hhi.
  change (- (1)) with (inject_Z (-1)) in Hlo. change 1 with (inject_Z 1) in Hhi.
  rewrite <- Zlt_Qlt in Hlo, Hhi.
  assert (a = b) as -> by lia. reflexivity.
Qed.

(** X2.  The validator never reports a single placement: the result has
    no or at least two entries, so [onCollisionDetected], which is called
    only when there is a callback and the result is not empty, receives
    the result with at least two placements. *)
Theorem X2_never_a_single_collision (buildings : list BuildingData) :
  length (collidingBuildings buildings) <> 1%nat
  /\ (forall callback reported,
        MapSystem buildings callback = Some reported ->
        callback = true /\ reported = collidingBuildings buildings
        /\ (2 <= length reported)%nat)
  /\ (collidingBuildings buildings <> [] ->
      MapSystem buildings true = Some (collidingBuildings buildings))
  /\ MapSystem buildings false = None.
Proof.
  assert (collidingBuildings buildings <> [] ->
          (2 <= length (collidingBuildings buildings))%nat) as Htwo.
  { intro Hne.
    destruct (collidingBuildings buildings) as [|A rest] eqn:E; [congruence|].
    assert (In A (collidingBuildings buildings)) as Hin by (rewrite E; now left).
    apply collidingBuildings_iff in Hin. destruct Hin as [i [Hi Hc]].
    pose proof Hc as Hc'. apply isColliding_iff in Hc'.
    destruct Hc' as [j [B [Hj [HB Hov]]]].
    assert (isColliding buildings B j = true) as HcB.
    { apply isColliding_iff. exists i, A. repeat split; auto.
      now rewrite pair_symmetric. }
    rewrite <- E. unfold collidingBuildings.
    destruct (Nat.lt_ge_cases i j) as [Hlt|Hge].
    - apply (filterFrom_two _ _ 0%nat i j A B); assumption.
    - apply (filterFrom_two _ _ 0%nat j i B A); try assumption. lia. }
  split; [|split; [|split]].
  - intro H1. destruct (collidingBuildings buildings) as [|A rest] eqn:E;
      [discriminate|].
    assert (2 <= length (A :: rest))%nat by (apply Htwo; discriminate). lia.
  - intros callback reported. unfold MapSystem.
    destruct (collidingBuildings buildings) as [|A rest] eqn:E; cbn;
      [discriminate|].
    destruct callback; [|discriminate].
    intro H. injection H as <-. repeat split. apply Htwo. discriminate.
  - intro Hne. unfold MapSystem.
    destruct (collidingBuildings buildings); [congruence|reflexivity].
  - unfold MapSystem. now rewrite andb_false_r.
Qed.

(** Two unit footprints 0.4 apart, with a callback. *)
Lemma X2_never_a_single_collision_witness :
  MapSystem [placement 10 10 (Some 1) (Some 1); placement 10.4 10 (Some 1) (Some 1)]
            true
  = Some [placement 10 10 (Some 1) (Some 1); placement 10.4 10 (Some 1) (Some 1)]
  /\ le 2 (length [placement 10 10 (Some 1) (Some 1);
                   placement 10.4 10 (Some 1) (Some 1)]).
Proof.
  assert (MapSystem [placement 10 10 (Some 1) (Some 1);
                     placement 10.4 10 (Some 1) (Some 1)] true
          = Some [placement 10 10 (Some 1) (Some 1);
                  placement 10.4 10 (Some 1) (Some 1)]) as H by reflexivity.
  split; [exact H|].
  exact (proj2 (proj2 (proj1 (proj2 (X2_never_a_single_collision _)) _ _ H))).
Defined.

(** X4.  Appending placements to the list never clears a collision: what
    was reported stays reported, at the same index. *)
Theorem X4_more_buildings_keep_collisions
    (buildings extra : list BuildingData) (A : BuildingData) (i : nat) :
  nth_error buildings i = Some A ->
  isColliding buildings A i = true ->
  isColliding (buildings ++ extra) A i = true
  /\ In A (collidingBuildings (buildings ++ extra)).
Proof.
  intros Hi Hc.
  assert (isColliding (buildings ++ extra) A i = true) as Hc'.
  { apply isColliding_iff in Hc. destruct Hc as [j [B [Hj [HB Hov]]]].
    apply isColliding_iff. exists j, B. repeat split; auto.
    rewrite nth_error_app1; [exact HB|].
    apply nth_error_Some. congruence. }
  split; [exact Hc'|].
  apply collidingBuildings_iff. exists i. split; [|exact Hc'].
  rewrite nth_error_app1; [exact Hi|]. apply nth_error_Some. congruence.
Qed.

(** Two overlapping unit footprints, and a third building far away. *)
Lemma X4_more_buildings_keep_collisions_witness :
  (nth_error [placement 10 10 None None; placement 10.4 10 None None] 0
   = Some (placement 10 10 None None)
   /\ isColliding [placement 10 10 None None; placement 10.4 10 None None]
                  (placement 10 10 None None) 0 = true)
  /\ isColliding ([placement 10 10 None None; placement 10.4 10 None None]
                  ++ [placement 50 50 None None])
                 (placement 10 10 None None) 0 = true.
Proof.
  assert (isColliding [placement 10 10 None None; placement 10.4 10 None None]
                      (placement 10 10 None None) 0 = true) as Hc by reflexivity.
  split; [exact (conj eq_refl Hc)|].
  exact (proj1 (X4_more_buildings_keep_collisions
                  [placement 10 10 None None; placement 10.4 10 None None]
                  [placement 50 50 None None] _ 0 eq_refl Hc)).
Defined.

(** X5.  Placements that stand on different cells of the unit grid, each
    with a footprint of at most one cell, never collide: the result is
    empty and the callback is not called. *)
Theorem X5_distinct_grid_cells_never_collide (buildings : list BuildingData) :
  (forall b, In b buildings -> onGridCell b) ->
  (forall i j A B,
      i <> j -> nth_error buildings i = Some A -> nth_error buildings j = Some B ->
      ~ (x A == x B /\ z A == z B)) ->
  collidingBuildings buildings = []
  /\ forall callback, MapSystem buildings callback = None.
Proof.
  intros Hgrid Hdistinct.
  assert (collidingBuildings buildings = []) as Hnone.
  { unfold collidingBuildings. apply filterFrom_nil.
    intros k A Hk. cbn [Nat.add].
    destruct (isColliding buildings A k) eqn:Hc; [exfalso|reflexivity].
    apply isColliding_iff in Hc. destruct Hc as [j [B [Hj [HB Hov]]]].
    apply pair_overlap in Hov. destruct Hov as [Hx Hz].
    destruct (Hgrid A (nth_error_In _ _ Hk)) as [[a Ha] [[c Hc] [HwA HdA]]].
    destruct (Hgrid B (nth_error_In _ _ HB)) as [[a' Ha'] [[c' Hc'] [HwB HdB]]].
    apply (Hdistinct k j A B); auto. split.
    - apply (integers_close _ _ a a' Ha Ha').
      apply (Qlt_le_trans _ _ _ Hx). unfold Qdiv. change (/ 2) with (1 # 2). lra.
    - apply (integers_close _ _ c c' Hc Hc').
      apply (Qlt_le_trans _ _ _ Hz). unfold Qdiv. change (/ 2) with (1 # 2). lra. }
  split; [exact Hnone|].
  intro callback. unfold MapSystem. now rewrite Hnone.
Qed.

Lemma sampleBuildings_on_grid :
  forall b, In b sampleBuildings -> onGridCell b.
Proof.
  intros b [<-|[<-|[<-|[]]]]; (split; [|split; [|split]]);
    solve [ now exists 10%Z | now exists 20%Z | now exists 30%Z
          | cbn; discriminate ].
Defined.

Lemma sampleBuildings_distinct :
  forall i j A B,
    i <> j -> nth_error sampleBuildings i = Some A ->
    nth_error sampleBuildings j = Some B ->
    ~ (x A == x B /\ z A == z B).
Proof.
  intros i j A B Hij Hi Hj [Hx _].
  destruct i as [|[|[|i]]]; destruct j as [|[|[|j]]];
    cbn in Hi, Hj;
    try (destruct i; discriminate); try (destruct j; discriminate);
    try congruence;
    injection Hi as <-; injection Hj as <-; cbn in Hx; discriminate.
Defined.

(** The three buildings of App.tsx. *)
Lemma X5_distinct_grid_cells_never_collide_witness :
  ((forall b, In b sampleBuildings -> onGridCell b)
   /\ (forall i j A B,
         i <> j -> nth_error sampleBuildings i = Some A ->
         nth_error sampleBuildings j = Some B ->
         ~ (x A == x B /\ z A == z B)))
  /\ collidingBuildings sampleBuildings = []
  /\ MapSystem sampleBuildings true = None.
Proof.
  split; [exact (conj sampleBuildings_on_grid sampleBuildings_distinct)|].
  pose proof (X5_distinct_grid_cells_never_collide sampleBuildings
                sampleBuildings_on_grid sampleBuildings_distinct) as H.
  exact (conj (proj1 H) (proj2 H true)).
Defined.

End ValidatorMore.

(* ================================================================== *)
(** ** The solid building of the map *)

Section SolidBuilding.

Import MeshScene.

Ltac rational :=
  unfold Qdiv; change (/ 2) with (1 # 2); lra.

Lemma floorGroup_eq (cfg : Config.t) (i : nat) :
  floorGroup cfg i
  = [ floorMesh cfg i;
      frontWindowMesh cfg i 0; frontWindowMesh cfg i 1; frontWindowMesh cfg i 2;
      backWindowMesh cfg i 0; backWindowMesh cfg i 1; backWindowMesh cfg i 2 ].
Proof. reflexivity. Qed.

Lemma In_meshes (cfg : Config.t) (m : Mesh) :
  In m (meshes cfg)
  <-> (exists i, (i < arrayLength (Config.numFloors cfg))%nat
                 /\ In m (floorGroup cfg i))
      \/ m = roofMesh cfg.
Proof.
  unfold meshes, arrayFrom. rewrite in_app_iff, in_concat. split.
  - intros [[l [Hl Hm]]|[<-|[]]]; [left|now right].
    apply in_map_iff in Hl. destruct Hl as [i [<- Hi]].
    apply in_seq in Hi. exists i. split; [lia|exact Hm].
  - intros [[i [Hi Hm]]| ->]; [left|right; now left].
    exists (floorGroup cfg i). split; [|exact Hm].
    apply in_map_iff. exists i. split; [reflexivity|apply in_seq; lia].
Qed.

Lemma arrayLength_integer (n : Q) (k : nat) :
  n == JS.ofNat k -> arrayLength n = k.
Proof.
  intro H. unfold arrayLength, JS.ofNat in *.
  rewrite H, Qfloor_Z. apply Nat2Z.id.
Qed.

Lemma length_meshes (cfg : Config.t) :
  length (meshes cfg) = (7 * arrayLength (Config.numFloors cfg) + 1)%nat.
Proof.
  unfold meshes, arrayFrom. rewrite length_app. cbn [length].
  f_equal. remember (seq 0 (arrayLength (Config.numFloors cfg))) as l eqn:El.
  replace (arrayLength (Config.numFloors cfg)) with (length l)
    by (subst l; apply length_seq).
  clear El. induction l as [|i rest IH]; [reflexivity|].
  cbn [map concat]. rewrite length_app, IH, floorGroup_eq. cbn [length]. lia.
Qed.

(** X6.  The floors of the solid building are stacked from the ground
    without gap or overlap: floor i reaches from i floorHeight to (i + 1)
    floorHeight.  When numFloors is a whole number of at least 1 there is
    one floor body per floor and the roof starts where the top floor
    ends. *)
Theorem X6_solid_floors_stack (cfg : Config.t) :
  (forall i,
      bottom (floorMesh cfg i) == JS.ofNat i * Config.floorHeight cfg
      /\ top (floorMesh cfg i) == bottom (floorMesh cfg (S i)))
  /\ bottom (floorMesh cfg 0) == 0
  /\ (forall m i, In m (floorGroup cfg i) ->
        py m == py (floorMesh cfg i))
  /\ (forall n : nat,
        Config.numFloors cfg == JS.ofNat (S n) ->
        arrayLength (Config.numFloors cfg) = S n
        /\ In (floorMesh cfg n) (meshes cfg)
        /\ bottom (roofMesh cfg) == top (floorMesh cfg n)).
Proof.
  split; [|split; [|split]].
  - intro i. unfold bottom, top, floorMesh, boxHeight. cbn [py geometry].
    unfold JS.ofNat. rewrite Nat2Z.inj_succ. unfold Z.succ.
    rewrite inject_Z_plus. change (inject_Z 1) with 1. split; rational.
  - unfold bottom, floorMesh, boxHeight. cbn [py geometry].
    change (JS.ofNat 0) with 0. rational.
  - intros m i Hm. rewrite floorGroup_eq in Hm.
    destruct Hm as [<-|[<-|[<-|[<-|[<-|[<-|[<-|[]]]]]]]]; reflexivity.
  - intros n Hn.
    pose proof (arrayLength_integer _ _ Hn) as Hlen.
    split; [exact Hlen|]. split.
    + apply In_meshes. left. exists n. split; [lia|]. now left.
    + unfold bottom, top, roofMesh, floorMesh, boxHeight. cbn [py geometry].
      rewrite Hn. unfold JS.ofNat. rewrite Nat2Z.inj_succ. unfold Z.succ.
      rewrite inject_Z_plus. change (inject_Z 1) with 1. rational.
Qed.

(** The constant of the component: twelve floors. *)
Lemma X6_solid_floors_stack_witness :
  Config.numFloors buildingConfig == JS.ofNat 12
  /\ arrayLength (Config.numFloors buildingConfig) = 12%nat
  /\ bottom (roofMesh buildingConfig) == top (floorMesh buildingConfig 11).
Proof.
  assert (Config.numFloors buildingConfig == JS.ofNat 12) as H by reflexivity.
  split; [exact H|].
  pose proof (proj2 (proj2 (proj2 (X6_solid_floors_stack buildingConfig))) 11%nat H)
    as [Hlen [_ Hroof]].
  exact (conj Hlen Hroof).
Defined.

(** X7.  The solid building has 7 numFloors + 1 meshes (numFloors rounded
    down): per floor the body, three windows on the front face and three
    on the back face.  The windows of a face are centred on the face: the
    middle one at x = 0, the outer two at -spacing and +spacing.  Every
    back window has its front window among the meshes, with the same
    geometry, colour, x and y, the opposite z, and half a turn between
    them. *)
Theorem X7_solid_windows (cfg : Config.t) :
  length (meshes cfg) = (7 * arrayLength (Config.numFloors cfg) + 1)%nat
  /\ (forall i,
        length (filter isWindowFront (floorGroup cfg i)) = 3%nat
        /\ length (filter isWindowBack (floorGroup cfg i)) = 3%nat
        /\ px (frontWindowMesh cfg i 0) == - Windows.spacing (Config.windows cfg)
        /\ px (frontWindowMesh cfg i 1) == 0
        /\ px (frontWindowMesh cfg i 2) == Windows.spacing (Config.windows cfg))
  /\ (forall m, In m (meshes cfg) -> isWindowBack m = true ->
        exists m', In m' (meshes cfg)
                   /\ isWindowFront m' = true
                   /\ geometry m = geometry m' /\ color m = color m'
                   /\ px m = px m' /\ py m = py m'
                   /\ pz m == - pz m'
                   /\ halfTurn m = true /\ halfTurn m' = false).
Proof.
  split; [apply length_meshes|]. split.
  - intro i. rewrite floorGroup_eq.
    split; [reflexivity|]. split; [reflexivity|].
    unfold frontWindowMesh. cbn [px].
    change (JS.ofNat 0) with 0. change (JS.ofNat 1) with 1.
    change (JS.ofNat 2) with 2. repeat split; lra.
  - intros m Hm Hback. apply In_meshes in Hm.
    destruct Hm as [[i [Hi Hm]]| ->]; [|discriminate Hback].
    assert (forall w, (w < 3)%nat -> In (frontWindowMesh cfg i w) (meshes cfg))
      as Hfront.
    { intros w Hw. apply In_meshes. left. exists i. split; [exact Hi|].
      rewrite floorGroup_eq.
      destruct w as [|[|[|w]]]; [cbn; auto 10..|lia]. }
    rewrite floorGroup_eq in Hm.
    destruct Hm as [<-|[<-|[<-|[<-|[<-|[<-|[<-|[]]]]]]]];
      try discriminate Hback.
    + exists (frontWindowMesh cfg i 0). split; [apply Hfront; lia|].
      repeat split; cbn [pz backWindowMesh frontWindowMesh]; rational.
    + exists (frontWindowMesh cfg i 1). split; [apply Hfront; lia|].
      repeat split; cbn [pz backWindowMesh frontWindowMesh]; rational.
    + exists (frontWindowMesh cfg i 2). split; [apply Hfront; lia|].
      repeat split; cbn [pz backWindowMesh frontWindowMesh]; rational.
Qed.

(** The first back window of the ground floor of the component. *)
Lemma X7_solid_windows_witness :
  (In (backWindowMesh buildingConfig 0 0) (meshes buildingConfig)
   /\ isWindowBack (backWindowMesh buildingConfig 0 0) = true)
  /\ exists m', In m' (meshes buildingConfig)
                /\ isWindowFront m' = true
                /\ geometry (backWindowMesh buildingConfig 0 0) = geometry m'
                /\ color (backWindowMesh buildingConfig 0 0) = color m'
                /\ px (backWindowMesh buildingConfig 0 0) = px m'
                /\ py (backWindowMesh buildingConfig 0 0) = py m'
                /\ pz (backWindowMesh buildingConfig 0 0) == - pz m'
                /\ halfTurn (backWindowMesh buildingConfig 0 0) = true
                /\ halfTurn m' = false.
Proof.
  assert (In (backWindowMesh buildingConfig 0 0) (meshes buildingConfig)) as Hin.
  { apply In_meshes. left. exists 0%nat. split; [vm_compute; lia|].
    rewrite floorGroup_eq. cbn. auto 10. }
  split; [exact (conj Hin eq_refl)|].
  exact (proj2 (proj2 (X7_solid_windows buildingConfig)) _ Hin eq_refl).
Defined.

End SolidBuilding.

(* ================================================================== *)
(** ** What is drawn against what is validated *)

Section DrawnAndValidated.

Import MapSystem MeshScene MapRender.

Ltac rational :=
  unfold Qdiv; change (/ 2) with (1 # 2); lra.

Lemma floors_overlap_from_above (A B : BuildingData) (i j : nat) :
  overlapFromAbove (BuildingScene (scenePosition A)) (floorMesh buildingConfig i)
                   (BuildingScene (scenePosition B)) (floorMesh buildingConfig j)
  <-> Qabs (x A - x B) < 8 /\ Qabs (z A - z B) < 6.
Proof.
  unfold overlapFromAbove, worldX, worldZ, BuildingScene, scenePosition, GRID_SIZE.
  cbn [groupX groupZ px pz floorMesh boxWidth boxDepth geometry
       Config.width Config.depth buildingConfig].
  rewrite !Qabs_Qlt_condition. split; intros [[H1 H2] [H3 H4]];
    repeat split; revert H1 H2 H3 H4; rational.
Qed.

(** X8.  MapSystem draws one solid building per placement, in order, at
    (x - 32, 0, z - 32), always 8 wide and 6 deep: the width and depth of
    the placement are not drawn.  Seen from above, the floors of two drawn
    buildings overlap exactly when |dx| < 8 and |dz| < 6.  So the drawing
    and the validator disagree both ways.  Two placements on different
    cells of the unit grid, each taking up at most its cell, that are
    less than 8 apart on x and less than 6 on z are drawn overlapping and
    are not reported.  A pair that is 8 or more apart on x, or 6 or more
    on z, is not drawn overlapping, also when it is reported, as two
    placements of width and depth 10 that are 9 apart on x are. *)
Theorem X8_drawn_overlap_and_validator (A B : BuildingData) (i j : nat) :
  (forall buildings k,
      nth_error (buildingScenes buildings) k
      = option_map (fun b => BuildingScene (scenePosition b)) (nth_error buildings k))
  /\ children (BuildingScene (scenePosition A)) = meshes buildingConfig
  /\ (groupX (BuildingScene (scenePosition A)) == x A - 32
      /\ groupY (BuildingScene (scenePosition A)) == 0
      /\ groupZ (BuildingScene (scenePosition A)) == z A - 32)
  /\ (overlapFromAbove
        (BuildingScene (scenePosition A)) (floorMesh buildingConfig i)
        (BuildingScene (scenePosition B)) (floorMesh buildingConfig j)
      <-> Qabs (x A - x B) < 8 /\ Qabs (z A - z B) < 6)
  /\ (onGridCell A -> onGridCell B -> ~ (x A == x B /\ z A == z B) ->
      Qabs (x A - x B) < 8 -> Qabs (z A - z B) < 6 ->
      checkBuildingCollision A [B] = false
      /\ overlapFromAbove
           (BuildingScene (scenePosition A)) (floorMesh buildingConfig i)
           (BuildingScene (scenePosition B)) (floorMesh buildingConfig j))
  /\ (8 <= Qabs (x A - x B) \/ 6 <= Qabs (z A - z B) ->
      ~ overlapFromAbove
          (BuildingScene (scenePosition A)) (floorMesh buildingConfig i)
          (BuildingScene (scenePosition B)) (floorMesh buildingConfig j))
  /\ (checkBuildingCollision (placement 0 0 (Some 10) (Some 10))
                             [placement 9 0 (Some 10) (Some 10)] = true
      /\ ~ overlapFromAbove
             (BuildingScene (scenePosition (placement 0 0 (Some 10) (Some 10))))
             (floorMesh buildingConfig i)
             (BuildingScene (scenePosition (placement 9 0 (Some 10) (Some 10))))
             (floorMesh buildingConfig j)).
Proof.
  split; [intros buildings k; unfold buildingScenes; apply nth_error_map|].
  split; [reflexivity|].
  split; [unfold BuildingScene, scenePosition, GRID_SIZE; cbn; repeat split; rational|].
  split; [apply floors_overlap_from_above|].
  split; [|split].
  - intros HA HB Hdistinct Hx Hz.
    split; [|apply floors_overlap_from_above; split; assumption].
    destruct (checkBuildingCollision A [B]) eqn:E; [exfalso|reflexivity].
    apply pair_overlap in E. destruct E as [Hx' Hz'].
    destruct HA as [[a Ha] [[c Hc] [HwA HdA]]].
    destruct HB as [[a' Ha'] [[c' Hc'] [HwB HdB]]].
    apply Hdistinct. split.
    + apply (integers_close _ _ a a' Ha Ha').
      apply (Qlt_le_trans _ _ _ Hx'). rational.
    + apply (integers_close _ _ c c' Hc Hc').
      apply (Qlt_le_trans _ _ _ Hz'). rational.
  - intros Hfar Hov. apply floors_overlap_from_above in Hov.
    destruct Hov as [Hx Hz]. destruct Hfar as [H|H].
    + apply (Qlt_irrefl 8). apply (Qle_lt_trans _ _ _ H Hx).
    + apply (Qlt_irrefl 6). apply (Qle_lt_trans _ _ _ H Hz).
  - split; [reflexivity|].
    intro Hov. apply floors_overlap_from_above in Hov.
    destruct Hov as [Hx _]. vm_compute in Hx. discriminate.
Qed.

(** Two placements of the default size on the cells (10, 10) and
    (12, 10). *)
Lemma X8_drawn_overlap_and_validator_witness :
  (onGridCell (placement 10 10 None None)
   /\ onGridCell (placement 12 10 None None)
   /\ ~ (x (placement 10 10 None None) == x (placement 12 10 None None)
         /\ z (placement 10 10 None None) == z (placement 12 10 None None))
   /\ Qabs (x (placement 10 10 None None) - x (placement 12 10 None None)) < 8
   /\ Qabs (z (placement 10 10 None None) - z (placement 12 10 None None)) < 6)
  /\ checkBuildingCollision (placement 10 10 None None) [placement 12 10 None None]
     = false
  /\ overlapFromAbove
       (BuildingScene (scenePosition (placement 10 10 None None)))
       (floorMesh buildingConfig 0)
       (BuildingScene (scenePosition (placement 12 10 None None)))
       (floorMesh buildingConfig 0).
Proof.
  assert (onGridCell (placement 10 10 None None)) as HA.
  { split; [now exists 10%Z|]. split; [now exists 10%Z|].
    split; cbn; discriminate. }
  assert (onGridCell (placement 12 10 None None)) as HB.
  { split; [now exists 12%Z|]. split; [now exists 10%Z|].
    split; cbn; discriminate. }
  assert (~ (x (placement 10 10 None None) == x (placement 12 10 None None)
             /\ z (placement 10 10 None None) == z (placement 12 10 None None)))
    as Hd by (intros [H _]; discriminate H).
  assert (Qabs (x (placement 10 10 None None) - x (placement 12 10 None None)) < 8)
    as Hx by reflexivity.
  assert (Qabs (z (placement 10 10 None None) - z (placement 12 10 None None)) < 6)
    as Hz by reflexivity.
  split; [exact (conj HA (conj HB (conj Hd (conj Hx Hz))))|].
  exact (proj1 (proj2 (proj2 (proj2 (proj2
           (X8_drawn_overlap_and_validator
              (placement 10 10 None None) (placement 12 10 None None) 0 0)))))
           HA HB Hd Hx Hz).
Defined.

End DrawnAndValidated.

(* ================================================================== *)
(** ** The wireframe: size and failure *)

Section SceneSize.

Import BuildingScene Layout.

Lemma length_forLoop {A : Type} (n : Q) (body : nat -> list A) (c : nat) :
  (forall j, length (body j) = c) ->
  length (JS.forLoop n body) = (c * JS.iterations n)%nat.
Proof.
  intro H. unfold JS.forLoop. rewrite length_flat_map.
  remember (seq 0 (JS.iterations n)) as l eqn:El.
  replace (JS.iterations n) with (length l) by (subst l; apply length_seq).
  clear El. induction l as [|j rest IH]; cbn [map length]; [cbn; lia|].
  change (list_sum (?a :: ?r)) with (a + list_sum r)%nat.
  rewrite H, IH. lia.
Qed.

Lemma length_columnsPass (cfg : BuildingConfig.t) :
  length (columnsPass cfg) = columnsSize cfg.
Proof.
  unfold columnsPass, columnsSize.
  destruct (Columns.enabled _); [|reflexivity].
  change (JS.forLoop 4 (columnsOnSide cfg))
    with (columnsOnSide cfg 0 ++ columnsOnSide cfg 1
          ++ columnsOnSide cfg 2 ++ columnsOnSide cfg 3 ++ []).
  rewrite !length_app. unfold columnsOnSide.
  rewrite !(length_forLoop _ _ 3) by reflexivity.
  cbn [length].
  change (sideCount cfg 0)
    with (Columns.count (BaseConfig.columns (BuildingConfig.base cfg))).
  change (sideCount cfg 2)
    with (Columns.count (BaseConfig.columns (BuildingConfig.base cfg))).
  change (sideCount cfg 1)
    with (inject_Z (Qfloor (Columns.count
                              (BaseConfig.columns (BuildingConfig.base cfg)) * 0.75))).
  change (sideCount cfg 3)
    with (inject_Z (Qfloor (Columns.count
                              (BaseConfig.columns (BuildingConfig.base cfg)) * 0.75))).
  lia.
Qed.

Lemma length_dividerPass (cfg : BuildingConfig.t) (i : nat) (divider : Divider.t) :
  length (dividerPass cfg i divider)
  = if hasDivider cfg i divider then 31%nat else 0%nat.
Proof.
  unfold dividerPass, hasDivider.
  destruct (JS.Qltb _ _ && Divider.enabled divider); [|reflexivity].
  rewrite !length_app, !(length_forLoop _ _ 2) by reflexivity.
  reflexivity.
Qed.

Lemma length_floorBody (cfg : BuildingConfig.t) (i : nat) (floorConfig : FloorConfig.t) :
  length (floorBody cfg i floorConfig) = floorSize cfg i floorConfig.
Proof.
  unfold floorBody, floorSize. cbn [length].
  rewrite !length_app, !(length_forLoop _ _ 8) by reflexivity.
  rewrite length_dividerPass. lia.
Qed.

Lemma scene_None_iff (cfg : BuildingConfig.t) :
  scene cfg = None
  <-> (length (BuildingConfig.floors cfg)
       < JS.iterations (BuildingConfig.numFloors cfg))%nat.
Proof.
  pose proof (scene_defined cfg) as Hdef. split.
  - intro Hn.
    destruct (Nat.lt_ge_cases (length (BuildingConfig.floors cfg))
                (JS.iterations (BuildingConfig.numFloors cfg))) as [H|H];
      [exact H|].
    apply Hdef in H. congruence.
  - intro Hlt. destruct (scene cfg) as [s|] eqn:E; [|reflexivity].
    exfalso.
    assert (JS.iterations (BuildingConfig.numFloors cfg)
            <= length (BuildingConfig.floors cfg))%nat; [|lia].
    apply Hdef. unfold scene in *.
    destruct (floorsPass cfg) as [fl|] eqn:Hfl; [|discriminate].
    unfold floorsPass, forLoopThrowing in Hfl.
    rewrite (forEachThrowing_flat_map (floorPass cfg) (floorEntries cfg)) in Hfl.
    + now injection Hfl as <-.
    + intros k Hk.
      destruct (forEachThrowing_defined _ _ _ Hfl k Hk) as [added Ha].
      rewrite Ha. apply floorPass_Some in Ha. destruct Ha as [fc [Hfc ->]].
      unfold floorEntries. now rewrite Hfc.
Qed.

(** A scene that is built is the five blocks in order. *)
Lemma scene_Some_eq (cfg : BuildingConfig.t) (s : list Entry) :
  scene cfg = Some s ->
  s = basePass cfg ++ columnsPass cfg ++ cornersPass cfg
      ++ flat_map (floorEntries cfg)
           (seq 0 (JS.iterations (BuildingConfig.numFloors cfg)))
      ++ roofPass cfg.
Proof.
  intro Hs.
  assert (JS.iterations (BuildingConfig.numFloors cfg)
          <= length (BuildingConfig.floors cfg))%nat as Hlen.
  { destruct (Nat.lt_ge_cases (length (BuildingConfig.floors cfg))
                (JS.iterations (BuildingConfig.numFloors cfg))) as [H|H];
      [|exact H].
    apply scene_None_iff in H. congruence. }
  apply (scene_defined cfg) in Hlen. congruence.
Qed.

(** X9.  The effect throws, and no scene is built, exactly when the floor
    loop reaches a floor without an entry in [floors]: when [floors] has
    fewer entries than the loop has passes. *)
Theorem X9_scene_throws_without_floor_config (cfg : BuildingConfig.t) :
  (scene cfg = None
   <-> (length (BuildingConfig.floors cfg)
        < JS.iterations (BuildingConfig.numFloors cfg))%nat)
  /\ (scene cfg = None
      <-> exists i, JS.ofNat i < BuildingConfig.numFloors cfg
                    /\ nth_error (BuildingConfig.floors cfg) i = None)
  /\ (scene cfg <> None
      <-> forall i, JS.ofNat i < BuildingConfig.numFloors cfg ->
                    exists floorConfig,
                      nth_error (BuildingConfig.floors cfg) i = Some floorConfig).
Proof.
  pose proof (scene_None_iff cfg) as H1.
  assert (scene cfg = None
          <-> exists i, JS.ofNat i < BuildingConfig.numFloors cfg
                        /\ nth_error (BuildingConfig.floors cfg) i = None) as H2.
  { rewrite H1. split.
    - intro Hlt. exists (length (BuildingConfig.floors cfg)). split.
      + now apply iterations_lt.
      + apply nth_error_None. lia.
    - intros [i [Hi Hn]]. apply iterations_lt in Hi.
      apply nth_error_None in Hn. lia. }
  split; [exact H1|]. split; [exact H2|].
  split.
  - intros Hs i Hi.
    destruct (nth_error (BuildingConfig.floors cfg) i) as [fc|] eqn:E;
      [now exists fc|].
    exfalso. apply Hs. apply H2. now exists i.
  - intros Hall Hn. apply H2 in Hn. destruct Hn as [i [Hi Hnone]].
    destruct (Hall i Hi) as [fc Hfc]. congruence.
Qed.

(** X10.  The size of the scene: 3 line segments for the base, 3 per
    column (the configured count on the front and on the back, its 75 %
    rounded down on each side; none when columns are off), 4 corners, per
    floor 1 body, 8 per front window pass, 8 per side window pass and,
    when the floor has its divider, 31 more (3 bands, 16 front and back
    accents, 12 side accents), and 14 for the roof. *)
Theorem X10_scene_size (cfg : BuildingConfig.t) (s : list Entry) :
  scene cfg = Some s ->
  length s
  = (3 + columnsSize cfg + 4
     + list_sum (map (fun i => length (floorEntries cfg i))
                     (seq 0 (JS.iterations (BuildingConfig.numFloors cfg))))
     + 14)%nat
  /\ (forall i floorConfig,
        nth_error (BuildingConfig.floors cfg) i = Some floorConfig ->
        length (floorEntries cfg i) = floorSize cfg i floorConfig)
  /\ (forall i divider,
        hasDivider cfg i divider = true
        <-> JS.ofNat i < BuildingConfig.numFloors cfg - 1
            /\ Divider.enabled divider = true).
Proof.
  intro Hs. pose proof (scene_Some_eq cfg s Hs) as Heq.
  split; [|split].
  - rewrite Heq.
    rewrite !length_app, length_columnsPass, length_flat_map.
    change (length (basePass cfg)) with 3%nat.
    change (length (cornersPass cfg)) with 4%nat.
    change (length (roofPass cfg)) with 14%nat. lia.
  - intros i fc Hfc. unfold floorEntries. rewrite Hfc. apply length_floorBody.
  - intros i divider. unfold hasDivider.
    now rewrite andb_true_iff, Qltb_lt.
Qed.


(** The scene of [buildingConfig]: 1184 line segments. *)
Lemma X10_scene_size_witness :
  scene BuildingScene.buildingConfig
  = Some (basePass BuildingScene.buildingConfig
          ++ columnsPass BuildingScene.buildingConfig
          ++ cornersPass BuildingScene.buildingConfig
          ++ flat_map (floorEntries BuildingScene.buildingConfig)
               (seq 0 (length (BuildingConfig.floors BuildingScene.buildingConfig)))
          ++ roofPass BuildingScene.buildingConfig)
  /\ length (basePass BuildingScene.buildingConfig
             ++ columnsPass BuildingScene.buildingConfig
             ++ cornersPass BuildingScene.buildingConfig
             ++ flat_map (floorEntries BuildingScene.buildingConfig)
                  (seq 0 (length (BuildingConfig.floors BuildingScene.buildingConfig)))
             ++ roofPass BuildingScene.buildingConfig)
     = (3 + columnsSize BuildingScene.buildingConfig + 4
        + list_sum (map (fun i => length (floorEntries BuildingScene.buildingConfig i))
                        (seq 0 (JS.iterations
                                  (BuildingConfig.numFloors
                                     BuildingScene.buildingConfig))))
        + 14)%nat.
Proof.
  pose proof (valid_scene BuildingScene.buildingConfig eq_refl) as Hs.
  split; [exact Hs|].
  exact (proj1 (X10_scene_size BuildingScene.buildingConfig _ Hs)).
Defined.

End SceneSize.

(* ================================================================== *)
(** ** The wireframe: dividers *)

Section Dividers.

Import BuildingScene Layout.

Lemma countTag_flat_map (t : Tag.t) (body : nat -> list Entry) (c : nat)
    (l : list nat) :
  (forall j, In j l -> countTag t (body j) = c) ->
  countTag t (flat_map body l) = (c * length l)%nat.
Proof.
  induction l as [|j rest IH]; intro H; cbn [flat_map length].
  - now rewrite Nat.mul_0_r.
  - rewrite countTag_app, (H j (or_introl eq_refl)), IH; [lia|].
    intros k Hk. apply H. now right.
Qed.

Ltac divider_cases H :=
  cbn in H;
  destruct H as [H|[H|[H|[H|[H|[H|[H|[]]]]]]]]; injection H as <- <-.

Lemma countTag_dividerPass_part
    (cfg : BuildingConfig.t) (i : nat) (divider : Divider.t) (t : Tag.t) (c : nat) :
  In (t, c) dividerParts ->
  countTag t (dividerPass cfg i divider)
  = if hasDivider cfg i divider then c else 0%nat.
Proof.
  intro Ht. unfold dividerPass, hasDivider.
  destruct (JS.Qltb _ _ && Divider.enabled divider); [|reflexivity].
  rewrite !countTag_app.
  change (JS.forLoop (accentCount) ?b) with (JS.forLoop 8 b).
  change (JS.forLoop (sideAccentCount) ?b) with (JS.forLoop 6 b).
  divider_cases Ht.
  - rewrite (countTag_forLoop _ _ _ 0), (countTag_forLoop _ _ _ 0); reflexivity.
  - rewrite (countTag_forLoop _ _ _ 0), (countTag_forLoop _ _ _ 0); reflexivity.
  - rewrite (countTag_forLoop _ _ _ 0), (countTag_forLoop _ _ _ 0); reflexivity.
  - rewrite (countTag_forLoop _ 8 _ 1), (countTag_forLoop _ _ _ 0); reflexivity.
  - rewrite (countTag_forLoop _ 8 _ 1), (countTag_forLoop _ _ _ 0); reflexivity.
  - rewrite (countTag_forLoop _ 8 _ 0), (countTag_forLoop _ 6 _ 1); reflexivity.
  - rewrite (countTag_forLoop _ 8 _ 0), (countTag_forLoop _ 6 _ 1); reflexivity.
Qed.

Lemma countTag_floorBody_part
    (cfg : BuildingConfig.t) (i : nat) (floorConfig : FloorConfig.t)
    (t : Tag.t) (c : nat) :
  In (t, c) dividerParts ->
  countTag t (floorBody cfg i floorConfig)
  = if hasDivider cfg i (FloorConfig.divider floorConfig) then c else 0%nat.
Proof.
  intro Ht. unfold floorBody.
  change ((Tag.line, line cfg i) :: ?l) with ([(Tag.line, line cfg i)] ++ l).
  rewrite !countTag_app, (countTag_dividerPass_part cfg i _ t c Ht).
  rewrite (countTag_forLoop t _ (frontWindow cfg i _) 0),
          (countTag_forLoop t _ (sideWindow cfg i _) 0).
  - divider_cases Ht; cbn; lia.
  - intro j. divider_cases Ht; reflexivity.
  - intro j. divider_cases Ht; reflexivity.
Qed.

Lemma countTag_outside_floors (cfg : BuildingConfig.t) (t : Tag.t) (c : nat) :
  In (t, c) dividerParts ->
  countTag t (basePass cfg) = 0%nat
  /\ countTag t (columnsPass cfg) = 0%nat
  /\ countTag t (cornersPass cfg) = 0%nat
  /\ countTag t (roofPass cfg) = 0%nat.
Proof.
  intro Ht. repeat split.
  - divider_cases Ht; reflexivity.
  - unfold columnsPass. destruct (Columns.enabled _); [|reflexivity].
    rewrite (countTag_forLoop t _ _ 0); [reflexivity|].
    intro side. unfold columnsOnSide.
    rewrite (countTag_forLoop t _ _ 0); [reflexivity|].
    intro j. divider_cases Ht; reflexivity.
  - unfold cornersPass. rewrite (countTag_forLoop t _ _ 0); [reflexivity|].
    intro j. divider_cases Ht; reflexivity.
  - divider_cases Ht; reflexivity.
Qed.

(** X11.  In a structurally valid building whose floors all have their
    divider enabled, every floor but the top one carries a divider: the
    scene has numFloors - 1 main bands, as many upper and lower bands,
    8 (numFloors - 1) front accents and as many back accents, and
    6 (numFloors - 1) left and right accents.  The top floor has none. *)
Theorem X11_dividers_between_floors (cfg : BuildingConfig.t) (s : list Entry) :
  structurallyValid cfg = true ->
  (forall floorConfig, In floorConfig (BuildingConfig.floors cfg) ->
     Divider.enabled (FloorConfig.divider floorConfig) = true) ->
  scene cfg = Some s ->
  (forall t c, In (t, c) dividerParts ->
     countTag t s = (c * (length (BuildingConfig.floors cfg) - 1))%nat)
  /\ (forall floorConfig,
        nth_error (BuildingConfig.floors cfg)
                  (length (BuildingConfig.floors cfg) - 1) = Some floorConfig ->
        dividerPass cfg (length (BuildingConfig.floors cfg) - 1)
                    (FloorConfig.divider floorConfig) = []).
Proof.
  intros Hv Hen Hs.
  destruct (valid_floors cfg Hv) as [Hlen _].
  assert (BuildingConfig.numFloors cfg
          == JS.ofNat (length (BuildingConfig.floors cfg))) as Hn.
  { unfold structurallyValid in Hv. rewrite !andb_true_iff in Hv.
    destruct Hv as [[[[[[[_ _] _] _] Hq] _] _] _].
    apply Qeq_bool_iff in Hq. now symmetry. }
  assert (1 <= length (BuildingConfig.floors cfg))%nat as Hpos.
  { unfold structurallyValid in Hv. rewrite !andb_true_iff in Hv.
    destruct Hv as [[[[[[[_ _] _] Hc] _] _] _] _].
    destruct (isCount_iterations _ Hc) as [_ H1]. lia. }
  assert (forall i d,
            hasDivider cfg i d
            = (i <? length (BuildingConfig.floors cfg) - 1)%nat
              && Divider.enabled d) as Hhas.
  { intros i d. unfold hasDivider. f_equal.
    apply eq_true_iff_eq. rewrite Qltb_lt, Nat.ltb_lt, Hn.
    unfold JS.ofNat, Qminus. change 1 with (inject_Z 1).
    rewrite <- inject_Z_opp, <- inject_Z_plus, <- Zlt_Qlt. lia. }
  split.
  - intros t c Ht.
    rewrite (scene_Some_eq cfg s Hs), Hlen.
    destruct (countTag_outside_floors cfg t c Ht) as [Hb [Hc [Hk Hr]]].
    rewrite !countTag_app, Hb, Hc, Hk, Hr.
    replace (length (BuildingConfig.floors cfg))
      with (length (BuildingConfig.floors cfg) - 1 + 1)%nat at 1 by lia.
    rewrite seq_app, flat_map_app, countTag_app.
    rewrite (countTag_flat_map t _ c).
    + rewrite length_seq. cbn [seq flat_map Nat.add]. rewrite app_nil_r.
      unfold floorEntries.
      destruct (nth_error (BuildingConfig.floors cfg)
                  (length (BuildingConfig.floors cfg) - 1)) as [fc|];
        [|cbn; lia].
      rewrite (countTag_floorBody_part cfg _ fc t c Ht), Hhas.
      rewrite Nat.ltb_irrefl. cbn. lia.
    + intros j Hj. apply in_seq in Hj. unfold floorEntries.
      destruct (nth_error (BuildingConfig.floors cfg) j) as [fc|] eqn:E.
      * rewrite (countTag_floorBody_part cfg _ fc t c Ht), Hhas.
        rewrite (Hen fc (nth_error_In _ _ E)).
        destruct (Nat.ltb_spec j (length (BuildingConfig.floors cfg) - 1));
          [reflexivity|lia].
      * apply nth_error_None in E. lia.
  - intros fc _. unfold dividerPass. fold (hasDivider cfg
      (length (BuildingConfig.floors cfg) - 1) (FloorConfig.divider fc)).
    now rewrite Hhas, Nat.ltb_irrefl.
Qed.

Lemma floorConfig_enabled :
  forall fc, In fc (BuildingConfig.floors BuildingScene.buildingConfig) ->
             Divider.enabled (FloorConfig.divider fc) = true.
Proof.
  intros fc Hin. apply repeat_spec in Hin. now subst fc.
Defined.

(** [buildingConfig]: 12 floors, 11 dividers, 88 front accents. *)
Lemma X11_dividers_between_floors_witness :
  (structurallyValid BuildingScene.buildingConfig = true
   /\ (forall fc, In fc (BuildingConfig.floors BuildingScene.buildingConfig) ->
                  Divider.enabled (FloorConfig.divider fc) = true)
   /\ scene BuildingScene.buildingConfig
      = Some (basePass BuildingScene.buildingConfig
              ++ columnsPass BuildingScene.buildingConfig
              ++ cornersPass BuildingScene.buildingConfig
              ++ flat_map (floorEntries BuildingScene.buildingConfig)
                   (seq 0 (length (BuildingConfig.floors
                                     BuildingScene.buildingConfig)))
              ++ roofPass BuildingScene.buildingConfig))
  /\ countTag Tag.accentLine
       (basePass BuildingScene.buildingConfig
        ++ columnsPass BuildingScene.buildingConfig
        ++ cornersPass BuildingScene.buildingConfig
        ++ flat_map (floorEntries BuildingScene.buildingConfig)
             (seq 0 (length (BuildingConfig.floors BuildingScene.buildingConfig)))
        ++ roofPass BuildingScene.buildingConfig)
     = (8 * (length (BuildingConfig.floors BuildingScene.buildingConfig) - 1))%nat.
Proof.
  pose proof (valid_scene BuildingScene.buildingConfig eq_refl) as Hs.
  split; [exact (conj eq_refl (conj floorConfig_enabled Hs))|].
  apply (proj1 (X11_dividers_between_floors BuildingScene.buildingConfig _
                  eq_refl floorConfig_enabled Hs) Tag.accentLine 8%nat).
  cbn. auto 10.
Defined.

End Dividers.

(* ================================================================== *)
(** ** The wireframe: layout of the base *)

Section BaseLayout.

Import BuildingScene Layout.

Ltac rational :=
  unfold Qdiv; change (/ 2) with (1 # 2); lra.

Lemma columnPos_regular (cfg : BuildingConfig.t) (side i : nat) :
  ~ sideCount cfg side - 1 == 0 ->
  columnPos cfg side i
  = JS.Fin (- totalLength cfg side / 2
            + JS.ofNat i
              * ((totalLength cfg side
                  - Columns.width (BaseConfig.columns (BuildingConfig.base cfg)))
                 / (sideCount cfg side - 1))).
Proof.
  intro H. unfold columnPos, columnSpacing.
  now rewrite (div_by_nonzero _ _ H).
Qed.

(** X12.  On a wall with a whole number k >= 2 of columns the columns are
    evenly spaced, (length - columnWidth) / (k - 1) apart; the first is
    centred on the start of the wall, at -length / 2, and the last one
    column width before its end, at length / 2 - columnWidth. *)
Theorem X12_columns_evenly_spaced (cfg : BuildingConfig.t) (side : nat) (k : Z) :
  sideCount cfg side == inject_Z k -> (2 <= k)%Z ->
  let length := totalLength cfg side in
  let columnWidth := Columns.width (BaseConfig.columns (BuildingConfig.base cfg)) in
  JS.iterations (sideCount cfg side) = Z.to_nat k
  /\ JS.same (columnSpacing cfg side)
             (JS.Fin ((length - columnWidth) / (inject_Z k - 1)))
  /\ JS.same (columnPos cfg side 0) (JS.Fin (- (length / 2)))
  /\ JS.same (columnPos cfg side (Z.to_nat k - 1))
             (JS.Fin (length / 2 - columnWidth))
  /\ (forall i, JS.same (columnPos cfg side (S i))
                        (JS.add (columnPos cfg side i) (columnSpacing cfg side)))
  /\ (forall i e, In e (columnAt cfg side i) ->
                  alongWall side (snd e) = columnPos cfg side i).
Proof.
  intros Hk H2 length columnWidth. subst length columnWidth.
  assert (2 <= inject_Z k) as HkQ
    by (change 2 with (inject_Z 2); now rewrite <- Zle_Qle).
  assert (~ sideCount cfg side - 1 == 0) as Hne by (rewrite Hk; lra).
  assert (~ inject_Z k - 1 == 0) as Hne' by lra.
  split; [now apply iterations_integer|].
  split.
  { unfold columnSpacing. rewrite (div_by_nonzero _ _ Hne). cbn [JS.same].
    now rewrite Hk. }
  split.
  { rewrite (columnPos_regular cfg side 0 Hne). cbn [JS.same].
    change (JS.ofNat 0) with 0. rewrite Hk. field. exact Hne'. }
  split.
  { rewrite (columnPos_regular cfg side _ Hne). cbn [JS.same].
    unfold JS.ofNat. rewrite Nat2Z.inj_sub by lia. rewrite Z2Nat.id by lia.
    change (Z.of_nat 1) with 1%Z.
    assert (inject_Z (k - 1) == inject_Z k - 1) as ->.
    { unfold Zminus. rewrite inject_Z_plus, inject_Z_opp. reflexivity. }
    rewrite Hk. field. exact Hne'. }
  split.
  { intro i. rewrite !(columnPos_regular cfg side _ Hne).
    unfold columnSpacing. rewrite (div_by_nonzero _ _ Hne). cbn [JS.same JS.add].
    unfold JS.ofNat. rewrite Nat2Z.inj_succ. unfold Z.succ.
    rewrite inject_Z_plus. change (inject_Z 1) with 1.
    rewrite Hk. field. exact Hne'. }
  intros i e He. now apply columnAt_alongWall.
Qed.

(** The front wall of [buildingConfig]: 4 columns on a length of 28. *)
Lemma X12_columns_evenly_spaced_witness :
  (sideCount BuildingScene.buildingConfig 0 == inject_Z 4 /\ (2 <= 4)%Z)
  /\ JS.same (columnPos BuildingScene.buildingConfig 0 (Z.to_nat 4 - 1))
             (JS.Fin (totalLength BuildingScene.buildingConfig 0 / 2
                      - Columns.width
                          (BaseConfig.columns
                             (BuildingConfig.base BuildingScene.buildingConfig)))).
Proof.
  assert (sideCount BuildingScene.buildingConfig 0 == inject_Z 4) as Hk
    by reflexivity.
  assert (2 <= 4)%Z as H2 by discriminate.
  split; [exact (conj Hk H2)|].
  exact (proj1 (proj2 (proj2 (proj2
           (X12_columns_evenly_spaced BuildingScene.buildingConfig 0 4 Hk H2))))).
Defined.

(** X13.  The four corner blocks stand in the four corners of the base
    platform, their two outer faces flush with its faces; they reach from
    the middle of the platform's height, -0.5 h, up to 0.4 h.  Corners 1,
    2 and 3 are corner 0 mirrored across x, across z, and across both. *)
Theorem X13_corner_blocks (cfg : BuildingConfig.t) :
  cornersPass cfg
  = [ (Tag.corner, corner cfg 0); (Tag.corner, corner cfg 1);
      (Tag.corner, corner cfg 2); (Tag.corner, corner cfg 3) ]
  /\ (JS.same (maxX (corner cfg 0)) (maxX (baseLine cfg))
      /\ JS.same (maxZ (corner cfg 0)) (maxZ (baseLine cfg)))
  /\ (JS.same (minX (corner cfg 1)) (minX (baseLine cfg))
      /\ JS.same (maxZ (corner cfg 1)) (maxZ (baseLine cfg)))
  /\ (JS.same (maxX (corner cfg 2)) (maxX (baseLine cfg))
      /\ JS.same (minZ (corner cfg 2)) (minZ (baseLine cfg)))
  /\ (JS.same (minX (corner cfg 3)) (minX (baseLine cfg))
      /\ JS.same (minZ (corner cfg 3)) (minZ (baseLine cfg)))
  /\ (forall i,
        JS.same (bottomY (corner cfg i))
                (JS.Fin (- (0.5 * BaseConfig.height (BuildingConfig.base cfg))))
        /\ JS.same (topY (corner cfg i))
                   (JS.Fin (0.4 * BaseConfig.height (BuildingConfig.base cfg))))
  /\ mirrorOf AxisX (corner cfg 1) (corner cfg 0)
  /\ mirrorOf AxisZ (corner cfg 2) (corner cfg 0)
  /\ mirrorOf AxisX (corner cfg 3) (corner cfg 2)
  /\ mirrorOf AxisZ (corner cfg 3) (corner cfg 1).
Proof.
  split; [reflexivity|].
  do 4 (split; [cbn; split; rational|]).
  split.
  { intro i. unfold corner, bottomY, topY, centerY, setPosition.
    cbn [position vy geometry bheight lineSegments JS.add JS.same].
    split; rational. }
  unfold mirrorOf.
  repeat split; cbn; try reflexivity; rational.
Qed.

End BaseLayout.

(* ================================================================== *)
(** ** The wireframe: layout of the floors and of the roof *)

Section FloorLayout.

Import BuildingScene Layout.

Ltac rational :=
  unfold Qdiv; change (/ 2) with (1 # 2); lra.

Ltac successor :=
  unfold JS.ofNat; rewrite ?Nat2Z.inj_succ; unfold Z.succ;
  rewrite ?inject_Z_plus; change (inject_Z 1) with 1.

Lemma sideWindow_in_floorBody
    (cfg : BuildingConfig.t) (i j : nat) (floorConfig : FloorConfig.t) (e : Entry) :
  JS.ofNat j
  < CountPerWall.side (WindowConfig.countPerWall (FloorConfig.windows floorConfig)) ->
  In e (sideWindow cfg i (FloorConfig.windows floorConfig) j) ->
  In e (floorBody cfg i floorConfig).
Proof.
  intros Hj He. unfold floorBody. right. apply in_or_app. right.
  apply in_or_app. left.
  apply In_forLoop. exists j. split; [now apply iterations_lt|exact He].
Qed.

Lemma countTag_floorBody_side
    (cfg : BuildingConfig.t) (i : nat) (floorConfig : FloorConfig.t) (t : Tag.t) :
  In t (sideParts ++ rightParts) ->
  countTag t (floorBody cfg i floorConfig)
  = JS.iterations
      (CountPerWall.side (WindowConfig.countPerWall (FloorConfig.windows floorConfig))).
Proof.
  intro Ht. unfold floorBody.
  change ((Tag.line, line cfg i) :: ?l) with ([(Tag.line, line cfg i)] ++ l).
  rewrite !countTag_app.
  rewrite (countTag_forLoop t _ (frontWindow cfg i _) 0),
          (countTag_forLoop t _ (sideWindow cfg i _) 1).
  - assert (countTag t (dividerPass cfg i (FloorConfig.divider floorConfig)) = 0%nat)
      as ->.
    { unfold dividerPass.
      destruct (JS.Qltb _ _ && Divider.enabled _); [|reflexivity].
      rewrite !countTag_app.
      rewrite (countTag_forLoop t _ _ 0), (countTag_forLoop t _ _ 0).
      - cbn in Ht.
        destruct Ht as [<-|[<-|[<-|[<-|[<-|[<-|[<-|[<-|[]]]]]]]]]; reflexivity.
      - intro j. cbn in Ht.
        destruct Ht as [<-|[<-|[<-|[<-|[<-|[<-|[<-|[<-|[]]]]]]]]]; reflexivity.
      - intro j. cbn in Ht.
        destruct Ht as [<-|[<-|[<-|[<-|[<-|[<-|[<-|[<-|[]]]]]]]]]; reflexivity. }
    cbn in Ht.
    destruct Ht as [<-|[<-|[<-|[<-|[<-|[<-|[<-|[<-|[]]]]]]]]]; cbn; lia.
  - intro j. cbn in Ht.
    destruct Ht as [<-|[<-|[<-|[<-|[<-|[<-|[<-|[<-|[]]]]]]]]]; reflexivity.
  - intro j. cbn in Ht.
    destruct Ht as [<-|[<-|[<-|[<-|[<-|[<-|[<-|[<-|[]]]]]]]]]; reflexivity.
Qed.

(** X14.  The windows of the side walls: for every floor i and every
    index j below countPerWall.side, the four parts of the assembly are
    in the scene at x = -halfWidth, y = i floorHeight + windowHeight / 2,
    z = -halfDepth + spacing + j (windowWidth + spacing); the frame is the
    frame of a front window with width and depth exchanged.  Every floor
    has one left and one right assembly per pass of the side loop. *)
Theorem X14_side_window_position
    (cfg : BuildingConfig.t) (s : list Entry)
    (i j : nat) (floorConfig : FloorConfig.t) :
  scene cfg = Some s ->
  JS.ofNat i < BuildingConfig.numFloors cfg ->
  nth_error (BuildingConfig.floors cfg) i = Some floorConfig ->
  JS.ofNat j
  < CountPerWall.side (WindowConfig.countPerWall (FloorConfig.windows floorConfig)) ->
  let windows := FloorConfig.windows floorConfig in
  let halfWidth := BuildingConfig.width cfg / 2 in
  let halfDepth := BuildingConfig.depth cfg / 2 in
  let assembly := firstn 4 (sideWindow cfg i windows j) in
  map fst assembly = sideParts
  /\ (forall part, In part assembly ->
        In part s
        /\ JS.same (vx (position (snd part))) (JS.Fin (- halfWidth))
        /\ JS.same (vy (position (snd part)))
             (JS.Fin (JS.ofNat i * BuildingConfig.floorHeight cfg
                      + WindowConfig.height windows / 2))
        /\ JS.same (vz (position (snd part)))
             (JS.Fin (- halfDepth + WindowConfig.spacing windows
                      + JS.ofNat j * (WindowConfig.width windows
                                      + WindowConfig.spacing windows))))
  /\ (bwidth (geometry (sideFrameLine cfg i windows j))
      = bdepth (geometry (frameLine cfg i windows j))
      /\ bdepth (geometry (sideFrameLine cfg i windows j))
         = bwidth (geometry (frameLine cfg i windows j))
      /\ bheight (geometry (sideFrameLine cfg i windows j))
         = bheight (geometry (frameLine cfg i windows j)))
  /\ (forall t, In t (sideParts ++ rightParts) ->
        countTag t (floorBody cfg i floorConfig)
        = JS.iterations (CountPerWall.side (WindowConfig.countPerWall windows))).
Proof.
  intros Hs Hi Hfc Hj windows halfWidth halfDepth assembly.
  split; [reflexivity|]. split; [|split; [repeat split|]].
  - intros part Hpart. split.
    + apply (scene_In cfg s Hs). right. right. right. left.
      exists i, floorConfig. split; [now apply iterations_lt|]. split; [exact Hfc|].
      apply (sideWindow_in_floorBody cfg i j); [exact Hj|].
      destruct Hpart as [<-|[<-|[<-|[<-|[]]]]]; cbn; auto 10.
    + subst assembly halfWidth halfDepth.
      destruct Hpart as [<-|[<-|[<-|[<-|[]]]]]; cbn;
        unfold sideWindowX, sideWindowY, sideWindowZ; repeat split; rational.
  - intros t Ht. now apply countTag_floorBody_side.
Qed.

(** The last side window of the top floor of [buildingConfig]. *)
Lemma X14_side_window_position_witness :
  (scene BuildingScene.buildingConfig
   = Some (basePass BuildingScene.buildingConfig
           ++ columnsPass BuildingScene.buildingConfig
           ++ cornersPass BuildingScene.buildingConfig
           ++ flat_map (floorEntries BuildingScene.buildingConfig)
                (seq 0 (length (BuildingConfig.floors BuildingScene.buildingConfig)))
           ++ roofPass BuildingScene.buildingConfig)
   /\ JS.ofNat 11 < BuildingConfig.numFloors BuildingScene.buildingConfig
   /\ nth_error (BuildingConfig.floors BuildingScene.buildingConfig) 11
      = Some floorConfig
   /\ JS.ofNat 2
      < CountPerWall.side
          (WindowConfig.countPerWall (FloorConfig.windows floorConfig)))
  /\ countTag Tag.rightFrameLine (floorBody BuildingScene.buildingConfig 11 floorConfig)
     = JS.iterations
         (CountPerWall.side
            (WindowConfig.countPerWall (FloorConfig.windows floorConfig))).
Proof.
  pose proof (valid_scene BuildingScene.buildingConfig eq_refl) as Hs.
  assert (JS.ofNat 11 < BuildingConfig.numFloors BuildingScene.buildingConfig)
    as Hi by reflexivity.
  assert (nth_error (BuildingConfig.floors BuildingScene.buildingConfig) 11
          = Some floorConfig) as Hfc by reflexivity.
  assert (JS.ofNat 2
          < CountPerWall.side
              (WindowConfig.countPerWall (FloorConfig.windows floorConfig))) as Hj
    by reflexivity.
  split; [exact (conj Hs (conj Hi (conj Hfc Hj)))|].
  apply (proj2 (proj2 (proj2 (X14_side_window_position
                                BuildingScene.buildingConfig _ 11 2 floorConfig
                                Hs Hi Hfc Hj)))).
  cbn. auto 10.
Defined.

(** X15.  Along a wall the windows follow one another at windowWidth +
    spacing from centre to centre, so that two neighbouring panes are
    spacing apart and two neighbouring frames spacing - 0.2; the first
    centre lies spacing after the start of the wall.  The pane of window j
    ends within the front wall exactly when
    spacing + j (windowWidth + spacing) + windowWidth / 2 <= width, and
    within the side wall likewise with depth. *)
Theorem X15_window_rows
    (cfg : BuildingConfig.t) (i : nat) (windows : WindowConfig.t) (j : nat) :
  let step := WindowConfig.width windows + WindowConfig.spacing windows in
  (JS.same (vx (position (paneLine cfg i windows 0)))
           (JS.Fin (- (BuildingConfig.width cfg / 2) + WindowConfig.spacing windows))
   /\ JS.same (vx (position (paneLine cfg i windows (S j))))
              (JS.add (vx (position (paneLine cfg i windows j))) (JS.Fin step))
   /\ JS.same (minX (paneLine cfg i windows (S j)))
              (JS.add (maxX (paneLine cfg i windows j))
                      (JS.Fin (WindowConfig.spacing windows)))
   /\ JS.same (minX (frameLine cfg i windows (S j)))
              (JS.add (maxX (frameLine cfg i windows j))
                      (JS.Fin (WindowConfig.spacing windows - 0.2)))
   /\ (le (maxX (paneLine cfg i windows j)) (JS.Fin (BuildingConfig.width cfg / 2))
       <-> WindowConfig.spacing windows + JS.ofNat j * step
           + WindowConfig.width windows / 2 <= BuildingConfig.width cfg))
  /\ (JS.same (vz (position (sidePaneLine cfg i windows 0)))
              (JS.Fin (- (BuildingConfig.depth cfg / 2) + WindowConfig.spacing windows))
      /\ JS.same (vz (position (sidePaneLine cfg i windows (S j))))
                 (JS.add (vz (position (sidePaneLine cfg i windows j))) (JS.Fin step))
      /\ JS.same (minZ (sidePaneLine cfg i windows (S j)))
                 (JS.add (maxZ (sidePaneLine cfg i windows j))
                         (JS.Fin (WindowConfig.spacing windows)))
      /\ (le (maxZ (sidePaneLine cfg i windows j)) (JS.Fin (BuildingConfig.depth cfg / 2))
          <-> WindowConfig.spacing windows + JS.ofNat j * step
              + WindowConfig.width windows / 2 <= BuildingConfig.depth cfg)).
Proof.
  intro step. subst step.
  unfold minX, maxX, minZ, maxZ, paneLine, frameLine, sidePaneLine, setPosition,
    windowX, sideWindowZ.
  cbn [position vx vz geometry bwidth bdepth lineSegments JS.add JS.same le].
  change (JS.ofNat 0) with 0.
  repeat split; try (successor; rational); intro H; revert H; rational.
Qed.

(** X16.  The floor bodies are stacked without gap or overlap, floor i
    centred at i floorHeight, so the lowest one starts half a floor below
    y = 0; a window starts at mid-height of its floor body and a divider
    is centred on the centre of the floor body above.  When numFloors is
    a whole number of at least 1, the roof slab starts half a floor
    height above the top of the highest floor body. *)
Theorem X16_floor_bodies (cfg : BuildingConfig.t) :
  (forall i, stackedOn (line cfg i) (line cfg (S i)))
  /\ JS.same (bottomY (line cfg 0))
             (JS.Fin (- (BuildingConfig.floorHeight cfg / 2)))
  /\ (forall i windows j,
        JS.same (bottomY (paneLine cfg i windows j)) (centerY (line cfg i))
        /\ JS.same (bottomY (sidePaneLine cfg i windows j)) (centerY (line cfg i)))
  /\ (forall i divider,
        JS.same (centerY (dividerLine cfg i divider)) (centerY (line cfg (S i))))
  /\ (forall n : nat,
        BuildingConfig.numFloors cfg == JS.ofNat (S n) ->
        JS.same (bottomY (roofLine cfg))
                (JS.add (topY (line cfg n))
                        (JS.Fin (BuildingConfig.floorHeight cfg / 2)))).
Proof.
  unfold stackedOn, bottomY, topY, centerY, line, paneLine, sidePaneLine,
    dividerLine, roofLine, setY, setPosition, windowY, sideWindowY, dividerY,
    roofBaseY.
  cbn [position vy geometry bheight lineSegments JS.add JS.same].
  change (JS.ofNat 0) with 0.
  split; [intro i; successor; rational|].
  split; [rational|].
  split; [intros i windows j; split; rational|].
  split; [intros i divider; successor; rational|].
  intros n Hn. rewrite Hn. successor. rational.
Qed.

(** Twelve floors. *)
Lemma X16_floor_bodies_witness :
  BuildingConfig.numFloors BuildingScene.buildingConfig == JS.ofNat 12
  /\ JS.same (bottomY (roofLine BuildingScene.buildingConfig))
             (JS.add (topY (line BuildingScene.buildingConfig 11))
                     (JS.Fin (BuildingConfig.floorHeight
                                BuildingScene.buildingConfig / 2))).
Proof.
  assert (BuildingConfig.numFloors BuildingScene.buildingConfig == JS.ofNat 12)
    as Hn by reflexivity.
  split; [exact Hn|].
  exact (proj2 (proj2 (proj2 (proj2 (X16_floor_bodies BuildingScene.buildingConfig))))
           11%nat Hn).
Defined.

(** X17.  The four parapets stand on the roof slab and each top trim on
    its parapet, without gap or overlap.  Each parapet is centred on an
    edge of the roof slab and is as long as that edge: the front and back
    ones on the +z and -z edges, the one called left on the +x edge and
    the one called right on the -x edge. *)
Theorem X17_parapets (cfg : BuildingConfig.t) :
  (stackedOn (roofLine cfg) (frontParapetLine cfg)
   /\ stackedOn (roofLine cfg) (backParapetLine cfg)
   /\ stackedOn (roofLine cfg) (leftParapetLine cfg)
   /\ stackedOn (roofLine cfg) (rightParapetLine cfg))
  /\ (stackedOn (frontParapetLine cfg) (frontParapetTopLine cfg)
      /\ stackedOn (backParapetLine cfg) (backParapetTopLine cfg)
      /\ stackedOn (leftParapetLine cfg) (leftParapetTopLine cfg)
      /\ stackedOn (rightParapetLine cfg) (rightParapetTopLine cfg))
  /\ (JS.same (vz (position (frontParapetLine cfg))) (maxZ (roofLine cfg))
      /\ JS.same (vz (position (backParapetLine cfg))) (minZ (roofLine cfg))
      /\ JS.same (vx (position (leftParapetLine cfg))) (maxX (roofLine cfg))
      /\ JS.same (vx (position (rightParapetLine cfg))) (minX (roofLine cfg)))
  /\ (bwidth (geometry (frontParapetLine cfg)) = bwidth (geometry (roofLine cfg))
      /\ bwidth (geometry (backParapetLine cfg)) = bwidth (geometry (roofLine cfg))
      /\ bdepth (geometry (leftParapetLine cfg)) = bdepth (geometry (roofLine cfg))
      /\ bdepth (geometry (rightParapetLine cfg)) = bdepth (geometry (roofLine cfg))).
Proof.
  unfold stackedOn, topY, centerY, minX, maxX, minZ, maxZ.
  cbn [roofLine frontParapetLine backParapetLine leftParapetLine rightParapetLine
       frontParapetTopLine backParapetTopLine leftParapetTopLine rightParapetTopLine
       clone setX setY setZ lineSegments position vx vy vz geometry
       bwidth bheight bdepth JS.add JS.same].
  repeat split; rational.
Qed.

(** X18.  The accents of a divider are evenly spaced and start at the
    overhanging end of the divider but stop at the wall: the eight front
    accents run from x = -halfWidth - overhang to x = +halfWidth in steps
    of (width + overhang) / 7, the six left ones from z = -halfDepth -
    overhang to z = +halfDepth in steps of (depth + overhang) / 5. *)
Theorem X18_divider_accents
    (cfg : BuildingConfig.t) (i : nat) (divider : Divider.t) :
  let width := BuildingConfig.width cfg in
  let depth := BuildingConfig.depth cfg in
  let overhang := Divider.overhang divider in
  (JS.same (vx (position (accentLine cfg i divider 0)))
           (JS.Fin (- (width / 2) - overhang))
   /\ JS.same (vx (position (accentLine cfg i divider 7))) (JS.Fin (width / 2))
   /\ (forall j, JS.same (vx (position (accentLine cfg i divider (S j))))
                         (JS.add (vx (position (accentLine cfg i divider j)))
                                 (JS.Fin ((width + overhang) / 7)))))
  /\ (JS.same (vz (position (leftAccentLine cfg i divider 0)))
              (JS.Fin (- (depth / 2) - overhang))
      /\ JS.same (vz (position (leftAccentLine cfg i divider 5))) (JS.Fin (depth / 2))
      /\ (forall j, JS.same (vz (position (leftAccentLine cfg i divider (S j))))
                            (JS.add (vz (position (leftAccentLine cfg i divider j)))
                                    (JS.Fin ((depth + overhang) / 5)))))
  /\ JS.iterations accentCount = 8%nat
  /\ JS.iterations sideAccentCount = 6%nat.
Proof.
  intros width depth overhang. subst width depth overhang.
  unfold accentLine, leftAccentLine, setPosition, accentSpacing,
    sideAccentSpacing, accentCount, sideAccentCount.
  cbn [position vx vz JS.add JS.same].
  change (JS.ofNat 0) with 0. change (JS.ofNat 7) with 7.
  change (JS.ofNat 5) with 5.
  repeat split; intros; try reflexivity; successor; field.
Qed.

End FloorLayout.

(* ================================================================== *)
(** ** The wireframe: colour and finiteness *)

Section WholeScene.

Import BuildingScene Layout.

Ltac regular :=
  split; [reflexivity|split; [reflexivity|]];
  cbn; intros [?|[?|[?|[]]]]; discriminate.

Lemma floorBody_regular
    (cfg : BuildingConfig.t) (i : nat) (floorConfig : FloorConfig.t)
    (t : Tag.t) (l : LineSegments) :
  In (t, l) (floorBody cfg i floorConfig) ->
  color l = 0%Z /\ finitePosition l = true /\ ~ In t columnTags.
Proof.
  unfold floorBody. intro Hin.
  destruct Hin as [H|Hin];
    [injection H as <- <-; regular|].
  apply in_app_or in Hin. destruct Hin as [Hin|Hin].
  { apply In_forLoop in Hin. destruct Hin as [j [_ Hin]].
    destruct Hin as [H|[H|[H|[H|[H|[H|[H|[H|[]]]]]]]]];
      injection H as <- <-; regular. }
  apply in_app_or in Hin. destruct Hin as [Hin|Hin].
  { apply In_forLoop in Hin. destruct Hin as [j [_ Hin]].
    destruct Hin as [H|[H|[H|[H|[H|[H|[H|[H|[]]]]]]]]];
      injection H as <- <-; regular. }
  unfold dividerPass in Hin.
  destruct (JS.Qltb _ _ && Divider.enabled _); [|contradiction].
  apply in_app_or in Hin. destruct Hin as [Hin|Hin].
  { destruct Hin as [H|[H|[H|[]]]];
      injection H as <- <-; regular. }
  apply in_app_or in Hin. destruct Hin as [Hin|Hin];
    apply In_forLoop in Hin; destruct Hin as [j [_ Hin]];
    destruct Hin as [H|[H|[]]];
    injection H as <- <-; regular.
Qed.

Lemma fixed_passes_regular (cfg : BuildingConfig.t) (t : Tag.t) (l : LineSegments) :
  In (t, l) (basePass cfg) \/ In (t, l) (cornersPass cfg) \/ In (t, l) (roofPass cfg) ->
  color l = 0%Z /\ finitePosition l = true /\ ~ In t columnTags.
Proof.
  intros [Hin|[Hin|Hin]].
  - destruct Hin as [H|[H|[H|[]]]];
      injection H as <- <-; regular.
  - apply In_forLoop in Hin. destruct Hin as [j [_ Hin]].
    destruct Hin as [H|[]].
    injection H as <- <-; regular.
  - unfold roofPass in Hin.
    repeat (destruct Hin as [H|Hin];
            [injection H as <- <-; regular|]).
    contradiction.
Qed.

Lemma columnAt_parts (cfg : BuildingConfig.t) (side i : nat)
    (t : Tag.t) (l : LineSegments) :
  In (t, l) (columnAt cfg side i) ->
  color l = 0%Z /\ In t columnTags /\ JS.isFinite (vy (position l)) = true.
Proof.
  unfold columnAt. intro Hin.
  destruct Hin as [H|[H|[H|[]]]]; injection H as <- <-;
    repeat split; cbn; auto.
Qed.

(** X19.  Every line segment of the scene is black and has a finite
    height; a line segment of the scene is at a position that is not
    finite only if it is a part of a column on a wall whose column count
    is 1.  With columns off, or with floor(0.75 count) >= 2, every
    position in the scene is finite. *)
Theorem X19_only_columns_are_misplaced
    (cfg : BuildingConfig.t) (s : list Entry) (t : Tag.t) (l : LineSegments) :
  scene cfg = Some s ->
  In (t, l) s ->
  color l = 0%Z
  /\ JS.isFinite (vy (position l)) = true
  /\ (finitePosition l = false ->
      In t columnTags
      /\ Columns.enabled (BaseConfig.columns (BuildingConfig.base cfg)) = true
      /\ exists side, (side < 4)%nat /\ sideCount cfg side == 1)
  /\ (Columns.enabled (BaseConfig.columns (BuildingConfig.base cfg)) = false
      \/ (2 <= Qfloor (Columns.count
                         (BaseConfig.columns (BuildingConfig.base cfg)) * 0.75))%Z ->
      finitePosition l = true).
Proof.
  intros Hs Hin.
  assert (finitePosition l = true -> JS.isFinite (vy (position l)) = true) as Hy.
  { unfold finitePosition. rewrite !andb_true_iff. tauto. }
  apply (scene_In cfg s Hs) in Hin.
  assert (In (t, l) (columnsPass cfg)
          \/ (color l = 0%Z /\ finitePosition l = true /\ ~ In t columnTags))
    as [Hcol|[Hc [Hf _]]].
  { destruct Hin as [Hin|[Hin|[Hin|[Hin|Hin]]]].
    - right. apply (fixed_passes_regular cfg); tauto.
    - now left.
    - right. apply (fixed_passes_regular cfg); tauto.
    - right. destruct Hin as [i [fc [_ [_ Hin]]]].
      now apply (floorBody_regular cfg i fc).
    - right. apply (fixed_passes_regular cfg); tauto. }
  - assert (Columns.enabled (BaseConfig.columns (BuildingConfig.base cfg)) = true)
      as Hen.
    { unfold columnsPass in Hcol. destruct (Columns.enabled _); [reflexivity|].
      contradiction. }
    destruct (columnsPass_In cfg _ Hcol) as [side [i [Hside Hat]]].
    destruct (columnAt_parts cfg side i t l Hat) as [Hc [Ht Hvy]].
    pose proof (columnAt_finite cfg side i _ Hat) as Hfin. cbn [snd] in Hfin.
    split; [exact Hc|]. split; [exact Hvy|]. split.
    + intro Hbad. split; [exact Ht|]. split; [exact Hen|].
      exists side. split; [exact Hside|].
      destruct (Qeq_dec (sideCount cfg side - 1) 0) as [E|E]; [lra|].
      rewrite Hfin, (regular_wall cfg side i E) in Hbad. discriminate.
    + intros [Hoff|Hf]; [congruence|].
      rewrite Hfin. apply regular_wall. now apply wall_counts.
  - split; [exact Hc|]. split; [now apply Hy|]. split.
    + intro Hbad. congruence.
    + intros _. exact Hf.
Qed.

(** The first column of the front wall of [buildingConfig]. *)
Lemma X19_only_columns_are_misplaced_witness :
  (scene BuildingScene.buildingConfig
   = Some (basePass BuildingScene.buildingConfig
           ++ columnsPass BuildingScene.buildingConfig
           ++ cornersPass BuildingScene.buildingConfig
           ++ flat_map (floorEntries BuildingScene.buildingConfig)
                (seq 0 (length (BuildingConfig.floors BuildingScene.buildingConfig)))
           ++ roofPass BuildingScene.buildingConfig)
   /\ In (Tag.baseLine, baseLine BuildingScene.buildingConfig)
         (basePass BuildingScene.buildingConfig
          ++ columnsPass BuildingScene.buildingConfig
          ++ cornersPass BuildingScene.buildingConfig
          ++ flat_map (floorEntries BuildingScene.buildingConfig)
               (seq 0 (length (BuildingConfig.floors BuildingScene.buildingConfig)))
          ++ roofPass BuildingScene.buildingConfig))
  /\ color (baseLine BuildingScene.buildingConfig) = 0%Z.
Proof.
  pose proof (valid_scene BuildingScene.buildingConfig eq_refl) as Hs.
  assert (In (Tag.baseLine, baseLine BuildingScene.buildingConfig)
             (basePass BuildingScene.buildingConfig
              ++ columnsPass BuildingScene.buildingConfig
              ++ cornersPass BuildingScene.buildingConfig
              ++ flat_map (floorEntries BuildingScene.buildingConfig)
                   (seq 0 (length (BuildingConfig.floors
                                     BuildingScene.buildingConfig)))
              ++ roofPass BuildingScene.buildingConfig)) as Hin.
  { apply in_or_app. left. left. reflexivity. }
  split; [exact (conj Hs Hin)|].
  exact (proj1 (X19_only_columns_are_misplaced
                  BuildingScene.buildingConfig _ _ _ Hs Hin)).
Defined.

End WholeScene.

(* ================================================================== *)
(** ** Order of the placements; the column assembly *)

Section OrderAndColumns.

Import MapSystem.

(** X20.  Which placements are reported does not depend on the order of
    the list: after any rearrangement of the placements the validator
    reports the same ones. *)
Theorem X20_order_does_not_matter
    (buildings rearranged : list BuildingData) (A : BuildingData) :
  Permutation buildings rearranged ->
  (In A (collidingBuildings buildings) <-> In A (collidingBuildings rearranged)).
Proof.
  assert (forall l l', Permutation l l' ->
                       In A (collidingBuildings l') -> In A (collidingBuildings l))
    as Hone.
  { intros l l' Hp Hin.
    apply Permutation_nth_error in Hp. destruct Hp as [_ [f [Hinj Hf]]].
    apply collidingBuildings_iff in Hin. destruct Hin as [i [Hi Hc]].
    apply isColliding_iff in Hc. destruct Hc as [j [B [Hj [HB Hov]]]].
    apply collidingBuildings_iff. exists (f i). split; [now rewrite <- Hf|].
    apply isColliding_iff. exists (f j), B. split; [|split].
    - intro E. apply Hj. now apply Hinj.
    - now rewrite <- Hf.
    - exact Hov. }
  intro Hp. split.
  - apply (Hone rearranged buildings). now apply Permutation_sym.
  - now apply (Hone buildings rearranged).
Qed.

(** Two overlapping footprints and a distant one, in two orders. *)
Lemma X20_order_does_not_matter_witness :
  Permutation [placement 10 10 None None; placement 50 50 None None;
               placement 10.4 10 None None]
              [placement 50 50 None None; placement 10 10 None None;
               placement 10.4 10 None None]
  /\ (In (placement 10 10 None None)
         (collidingBuildings [placement 10 10 None None; placement 50 50 None None;
                              placement 10.4 10 None None])
      <-> In (placement 10 10 None None)
             (collidingBuildings [placement 50 50 None None;
                                  placement 10 10 None None;
                                  placement 10.4 10 None None])).
Proof.
  assert (Permutation [placement 10 10 None None; placement 50 50 None None;
                       placement 10.4 10 None None]
                      [placement 50 50 None None; placement 10 10 None None;
                       placement 10.4 10 None None]) as Hp
    by apply perm_swap.
  split; [exact Hp|].
  exact (X20_order_does_not_matter _ _ (placement 10 10 None None) Hp).
Defined.

End OrderAndColumns.

Section ColumnAssembly.

Import BuildingScene Layout.

Ltac rational :=
  unfold Qdiv; change (/ 2) with (1 # 2); lra.

(** X21.  The three parts of a column are centred on one vertical axis.
    With h the height of the base, the base block and the shaft both
    start at -0.5 h, where the corner blocks start too; the shaft ends at
    0.3 h and the capital reaches from 0.05 h up to 0.35 h, the level of
    the top of the base's top trim.  The base block is 1.2 times and the
    capital 1.3 times as wide and deep as the shaft. *)
Theorem X21_column_assembly (cfg : BuildingConfig.t) (side i : nat) :
  let h := BaseConfig.height (BuildingConfig.base cfg) in
  map fst (columnAt cfg side i) = columnTags
  /\ (forall e e', In e (columnAt cfg side i) -> In e' (columnAt cfg side i) ->
        vx (position (snd e)) = vx (position (snd e'))
        /\ vz (position (snd e)) = vz (position (snd e')))
  /\ (forall base shaft capital,
        map snd (columnAt cfg side i) = [base; shaft; capital] ->
        JS.same (bottomY base) (JS.Fin (- (0.5 * h)))
        /\ JS.same (bottomY shaft) (bottomY (corner cfg 0))
        /\ JS.same (bottomY shaft) (bottomY base)
        /\ JS.same (topY shaft) (JS.Fin (0.3 * h))
        /\ JS.same (bottomY capital) (JS.Fin (0.05 * h))
        /\ JS.same (topY capital) (topY (topTrimLine cfg))
        /\ bwidth (geometry base) == 1.2 * bwidth (geometry shaft)
        /\ bdepth (geometry base) == 1.2 * bdepth (geometry shaft)
        /\ bwidth (geometry capital) == 1.3 * bwidth (geometry shaft)
        /\ bdepth (geometry capital) == 1.3 * bdepth (geometry shaft)).
Proof.
  intro h. subst h. split; [reflexivity|]. split.
  - unfold columnAt. intros e e' He He'.
    destruct He as [<-|[<-|[<-|[]]]]; destruct He' as [<-|[<-|[<-|[]]]];
      split; reflexivity.
  - intros base shaft capital H. unfold columnAt in H. cbn [map snd] in H.
    injection H as <- <- <-.
    unfold corner, topTrimLine, bottomY, topY, centerY, setPosition, setY,
      columnBaseGeometry, columnGeometry, columnTopGeometry.
    cbn [position vy geometry bwidth bheight bdepth lineSegments JS.add JS.same].
    repeat split; rational.
Qed.

(** The first column of the front wall of [buildingConfig]. *)
Lemma X21_column_assembly_witness :
  map snd (columnAt BuildingScene.buildingConfig 0 0)
  = [ snd (nth 0 (columnAt BuildingScene.buildingConfig 0 0)
                 (Tag.column, baseLine BuildingScene.buildingConfig));
      snd (nth 1 (columnAt BuildingScene.buildingConfig 0 0)
                 (Tag.column, baseLine BuildingScene.buildingConfig));
      snd (nth 2 (columnAt BuildingScene.buildingConfig 0 0)
                 (Tag.column, baseLine BuildingScene.buildingConfig)) ]
  /\ JS.same (topY (snd (nth 2 (columnAt BuildingScene.buildingConfig 0 0)
                             (Tag.column, baseLine BuildingScene.buildingConfig))))
             (topY (topTrimLine BuildingScene.buildingConfig)).
Proof.
  split; [reflexivity|].
  exact (proj1 (proj2 (proj2 (proj2 (proj2 (proj2
           (proj2 (proj2 (X21_column_assembly BuildingScene.buildingConfig 0 0))
              _ _ _ eq_refl))))))).
Defined.

End ColumnAssembly.
